(** * llama_android.cpp: the JNI bridge between the application and llama.cpp

    A shallow embedding of [app/src/main/cpp/llama_android.cpp].  The native
    llama.cpp library and the JNI environment are external: they are an
    interface ([LlamaLib]) whose operations act on an abstract library state,
    so every theorem holds for any behaviour of the library.  The C++ heap
    that holds the wrapper structs, the function-local static flag of
    [initEmbeddingModel], the calls made into the library and the callbacks
    delivered to the Java sink are explicit parts of the [world]. *)

From Stdlib Require Import ZArith QArith.QArith_base Strings.Byte Floats.SpecFloat.
From stdpp Require Import base option list gmap strings relations.

Local Open Scope Z_scope.

(** ** Byte strings ([std::string], C strings) *)

#[global] Instance byte_eq_dec : EqDecision byte := Byte.byte_eq_dec.

Abbreviation bytes := (list byte) (only parsing).

Definition lit (s : string) : bytes := String.list_byte_of_string s.

(** [strlen] / [c_str()] reading: the bytes before the first NUL. *)
Fixpoint c_str (s : bytes) : bytes :=
  match s with
  | [] => []
  | b :: s' => if decide (b = x00) then [] else b :: c_str s'
  end.

Definition strlen (s : bytes) : Z := Z.of_nat (length (c_str s)).

(** [std::string::find(needle)]: position of the first occurrence, [None]
    for [npos]. *)
Fixpoint find (needle s : bytes) : option nat :=
  if decide (needle `prefix_of` s) then Some 0%nat
  else match s with
       | [] => None
       | _ :: s' => S <$> find needle s'
       end.

(** [s.substr(0, pos)] *)
Definition substr0 (s : bytes) (pos : nat) : bytes := take pos s.

(** The literal the generation loops look for. *)
Definition im_end : bytes := lit "<|im_end|>".

(** [contains needle s]: [needle] occurs in [s] as a contiguous substring. *)
Definition contains (needle s : bytes) : Prop :=
  ∃ pre post, s = pre ++ needle ++ post.

(** ** Single-precision arithmetic used by the embedding normalisation *)

Class Float32 := {
  jfloat : Type;
  fzero : jfloat;                         (* 0.0f, also the int 0 converted *)
  fadd : jfloat → jfloat → jfloat;
  fmul : jfloat → jfloat → jfloat;
  fdiv : jfloat → jfloat → jfloat;
  sqrtf : jfloat → jfloat;
  fgt : jfloat → jfloat → bool;           (* x > y *)
  fgt_irrefl : ∀ x, fgt x x = false;
}.

(** IEEE 754 binary32 (24-bit significand, emax 128), round to nearest even. *)
Module Binary32.

Definition prec : Z := 24.
Definition emax : Z := 128.

Lemma ltb_irrefl (x : spec_float) : SFltb x x = false.
Proof.
  unfold SFltb. destruct x as [s|s| |s m e]; simpl; try done.
  - by destruct s.
  - destruct s; rewrite Z.compare_refl; fold (Pos.compare m m);
      by rewrite Pos.compare_refl.
Qed.

#[export] Instance float32 : Float32 := {|
  jfloat := spec_float;
  fzero := S754_zero false;
  fadd := SFadd prec emax;
  fmul := SFmul prec emax;
  fdiv := SFdiv prec emax;
  sqrtf := SFsqrt prec emax;
  fgt := λ x y, SFltb y x;
  fgt_irrefl := ltb_irrefl;
|}.

(** 3.0f, 4.0f, 5.0f, the nearest values to 0.6 and 0.8, and FLT_MAX. *)
Definition three : spec_float := S754_finite false 12582912 (-22).
Definition four : spec_float := S754_finite false 8388608 (-21).
Definition five : spec_float := S754_finite false 10485760 (-21).
Definition three_fifths : spec_float := S754_finite false 10066330 (-24).
Definition four_fifths : spec_float := S754_finite false 13421773 (-24).
Definition flt_max : spec_float := S754_finite false 16777215 104.

(** The smallest positive value, 2^-149. *)
Definition flt_true_min : spec_float := S754_finite false 1 (-149).

(** The exact rational value of a finite number. *)
Definition to_Q (x : spec_float) : option Q :=
  match x with
  | S754_zero _ => Some (0 # 1)
  | S754_finite s m e =>
      let z := if s then Z.neg m else Z.pos m in
      Some (match e with
            | Z.neg p => z # 2 ^ p
            | _ => (z * 2 ^ e)%Z # 1
            end)
  | _ => None
  end.

(** The exact square of the Euclidean norm of a vector of finite numbers. *)
Fixpoint norm_squared (v : list spec_float) : option Q :=
  match v with
  | [] => Some (0 # 1)
  | x :: v' =>
      match to_Q x, norm_squared v' with
      | Some q, Some rest => Some (q * q + rest)%Q
      | _, _ => None
      end
  end.

(** The specification's norm 1.0 within floating-point tolerance, read
    generously: the exact Euclidean norm lies between 1/2 and 2. *)
Definition unit_norm_within_tolerance (v : list spec_float) : Prop :=
  ∃ q, norm_squared v = Some q ∧ (1 # 4 <= q)%Q ∧ (q <= 4 # 1)%Q.

End Binary32.

(** ** The native library and the JNI environment *)

Abbreviation ptr := Z (only parsing).
Definition nullptr : ptr := 0.
Abbreviation llama_token := Z (only parsing).

(** The fields of [llama_context_params] this file assigns: [n_ctx] is a
    [uint32_t], the two thread counts are [int32_t]. *)
Record llama_context_params := {
  n_ctx : Z;
  n_threads : Z;
  n_threads_batch : Z;
  embeddings : bool;
}.

(** The implicit conversion of an [int] to [uint32_t]. *)
Definition to_uint32 (z : Z) : Z := z mod 2 ^ 32.

#[global] Instance llama_context_params_eq_dec : EqDecision llama_context_params.
Proof. solve_decision. Defined.

(** One stage of a sampler chain, in the order it is added. *)
Inductive sampler_stage {F32 : Float32} :=
  | init_penalties (penalty_last_n : Z) (penalty_repeat penalty_freq penalty_present : Q)
  | init_top_k (k : Z)
  | init_top_p (p : jfloat) (min_keep : Z)
  | init_temp (t : jfloat)
  | init_dist (seed : Z).

Class LlamaLib {F32 : Float32} := {
  lib_state : Type;
  GGML_USE_VULKAN : bool;                 (* compile-time switch *)
  LLAMA_DEFAULT_SEED : Z;                 (* from llama.h *)
  llama_context_default_params : llama_context_params;
  llama_backend_init : lib_state → lib_state;
  llama_numa_init : lib_state → lib_state;
  llama_backend_free : lib_state → lib_state;
  (* path, n_gpu_layers *)
  llama_load_model_from_file : string → Z → lib_state → ptr * lib_state;
  llama_new_context_with_model : ptr → llama_context_params → lib_state → ptr * lib_state;
  llama_free : ptr → lib_state → lib_state;
  llama_free_model : ptr → lib_state → lib_state;
  llama_n_embd : ptr → lib_state → Z;
  llama_model_get_vocab : ptr → lib_state → ptr;
  (* vocab, text, text length, capacity of the token buffer, add_special,
     parse_special; returns n_tokens and the tokens written *)
  llama_tokenize : ptr → bytes → Z → Z → bool → bool → lib_state → Z * list llama_token;
  (* llama_sampler_chain_init followed by llama_sampler_chain_add of each stage *)
  llama_sampler_chain : list sampler_stage → lib_state → ptr * lib_state;
  llama_sampler_free : ptr → lib_state → lib_state;
  (* llama_get_memory then llama_memory_clear(mem, true) *)
  llama_memory_clear : ptr → lib_state → lib_state;
  (* llama_batch_get_one(tokens, n) then llama_decode *)
  llama_decode : ptr → list llama_token → lib_state → Z * lib_state;
  llama_sampler_sample : ptr → ptr → lib_state → llama_token * lib_state;
  llama_vocab_is_eog : ptr → llama_token → lib_state → bool;
  (* vocab, token, buffer size; returns n_piece and the buffer contents *)
  llama_token_to_piece : ptr → llama_token → Z → lib_state → Z * bytes;
  llama_get_embeddings_seq : ptr → Z → lib_state → option (list jfloat);
  llama_get_embeddings : ptr → lib_state → option (list jfloat);
  (* JNI NewFloatArray: false when the VM cannot allocate the array *)
  jni_new_float_array_ok : Z → lib_state → bool;
}.

(** The calls into the library that create, release or advance its
    resources, with their results.  Read-only queries (vocabulary, tokenizer,
    end-of-generation test, piece text, embedding buffers) are not recorded. *)
Inductive native_call :=
  | Backend_init
  | Numa_init
  | Backend_free
  | Load_model (path : string) (n_gpu_layers : Z) (ret : ptr)
  | New_context (model : ptr) (params : llama_context_params) (ret : ptr)
  | Free_context (ctx : ptr)
  | Free_model (model : ptr)
  | Sampler_chain (ret : ptr)
  | Sampler_free (smpl : ptr)
  | Memory_clear (ctx : ptr)
  | Decode (ctx : ptr) (batch : list llama_token) (ret : Z)
  | Sample (smpl ctx : ptr) (ret : llama_token).

#[global] Instance native_call_eq_dec : EqDecision native_call.
Proof. solve_decision. Defined.

(** Events delivered to the Java callback object. *)
Inductive sink_event :=
  | onToken (text : bytes)
  | onComplete
  | onError (message : string).

Definition is_terminal (e : sink_event) : bool :=
  match e with onToken _ => false | _ => true end.

(** ** Wrapper structs and the C++ heap *)

Record llama_context_wrapper := {
  model : ptr;
  ctx : ptr;
  using_gpu : bool;
  gpu_layers : Z;
}.

Record embedding_context_wrapper := {
  emb_model : ptr;
  emb_ctx : ptr;
  n_embd : Z;
}.

Inductive object :=
  | Obj_llama (w : llama_context_wrapper)
  | Obj_embedding (w : embedding_context_wrapper).

(** ** The world the bridge runs in *)

Section Bridge.
Context {F32 : Float32} {L : LlamaLib}.

Record world := {
  w_lib : lib_state;                      (* state of the native library *)
  w_calls : list native_call;             (* calls made so far, oldest first *)
  w_heap : gmap Z object;                 (* live objects created with new *)
  w_backend_initialized : bool;           (* static flag of initEmbeddingModel *)
  w_sink : list sink_event;               (* callbacks delivered, oldest first *)
}.

Definition set_lib (l : lib_state) (w : world) : world :=
  {| w_lib := l; w_calls := w_calls w; w_heap := w_heap w;
     w_backend_initialized := w_backend_initialized w; w_sink := w_sink w |}.
Definition log_call (c : native_call) (w : world) : world :=
  {| w_lib := w_lib w; w_calls := w_calls w ++ [c]; w_heap := w_heap w;
     w_backend_initialized := w_backend_initialized w; w_sink := w_sink w |}.
Definition set_heap (h : gmap Z object) (w : world) : world :=
  {| w_lib := w_lib w; w_calls := w_calls w; w_heap := h;
     w_backend_initialized := w_backend_initialized w; w_sink := w_sink w |}.
Definition set_backend_initialized (b : bool) (w : world) : world :=
  {| w_lib := w_lib w; w_calls := w_calls w; w_heap := w_heap w;
     w_backend_initialized := b; w_sink := w_sink w |}.
Definition deliver (e : sink_event) (w : world) : world :=
  {| w_lib := w_lib w; w_calls := w_calls w; w_heap := w_heap w;
     w_backend_initialized := w_backend_initialized w; w_sink := w_sink w ++ [e] |}.

(** State-passing computations over the world. *)
Definition St (A : Type) : Type := world → A * world.

#[export] Instance St_ret : MRet St := λ A x w, (x, w).
#[export] Instance St_bind : MBind St := λ A B f m w, f (m w).1 (m w).2.

(** A library call that returns a value, a library call that returns
    nothing, and a read-only query. *)
Definition native {A} (f : lib_state → A * lib_state) (ev : A → native_call) : St A :=
  λ w, let r := f (w_lib w) in (r.1, log_call (ev r.1) (set_lib r.2 w)).
Definition native_ (f : lib_state → lib_state) (ev : native_call) : St unit :=
  λ w, (tt, log_call ev (set_lib (f (w_lib w)) w)).
Definition observe {A} (f : lib_state → A) : St A := λ w, (f (w_lib w), w).
Definition call_void (e : sink_event) : St unit := λ w, (tt, deliver e w).

(** The function-local static of [initEmbeddingModel]. *)
Definition get_backend_initialized : St bool := λ w, (w_backend_initialized w, w).
Definition put_backend_initialized (b : bool) : St unit :=
  λ w, (tt, set_backend_initialized b w).

(** [new T()]: a fresh non-null address. *)
Definition new_object (o : object) : St Z :=
  λ w, let a := fresh ({[0]} ∪ dom (w_heap w)) in (a, set_heap (<[a:=o]> (w_heap w)) w).
Definition delete_object (a : Z) : St unit :=
  λ w, (tt, set_heap (delete a (w_heap w)) w).

(** [reinterpret_cast<T*>(handle)] followed by a member access: defined only
    when the handle is the address of a live object of that type.  Any other
    access (a deleted wrapper, a wrapper of the other struct) is undefined
    behaviour in C++ and is [None] here. *)
Definition deref_llama (handle : Z) (w : world) : option llama_context_wrapper :=
  match w_heap w !! handle with Some (Obj_llama wrapper) => Some wrapper | _ => None end.
Definition deref_embedding (handle : Z) (w : world) : option embedding_context_wrapper :=
  match w_heap w !! handle with Some (Obj_embedding wrapper) => Some wrapper | _ => None end.

(** ** GPU capability detection *)

Definition detect_vulkan_available : bool := GGML_USE_VULKAN.

(** ** Session creation *)

Definition make_ctx_params (contextSize threads : Z) (emb : option bool) : llama_context_params :=
  {| n_ctx := to_uint32 contextSize; n_threads := threads; n_threads_batch := threads;
     embeddings := default (embeddings llama_context_default_params) emb |}.

Definition initModel (modelPath : string) (contextSize threads : Z) : St Z :=
  native_ llama_backend_init Backend_init;;
  native_ llama_numa_init Numa_init;;
  model ← native (llama_load_model_from_file modelPath 0) (Load_model modelPath 0);
  if decide (model = nullptr) then mret 0 else
  let ctx_params := make_ctx_params contextSize threads None in
  ctx ← native (llama_new_context_with_model model ctx_params) (New_context model ctx_params);
  if decide (ctx = nullptr) then
    native_ (llama_free_model model) (Free_model model);;
    mret 0
  else
  new_object (Obj_llama {| model := model; ctx := ctx; using_gpu := false; gpu_layers := 0 |}).

(** Lines 124-143 of [initModelWithGpu]: the values of [gpu_available],
    [actual_gpu_layers] and [model_params.n_gpu_layers] before the first load. *)
Definition negotiate_gpu (useGpu : bool) (gpuLayers : Z) : bool * Z * Z :=
  if useGpu then
    let gpu_available := detect_vulkan_available in
    if gpu_available then
      let actual_gpu_layers := if decide (gpuLayers < 0) then 99 else gpuLayers in
      (gpu_available, actual_gpu_layers, actual_gpu_layers)
    else (gpu_available, 0, 0)
  else (false, 0, 0).

Definition initModelWithGpu (modelPath : string) (contextSize threads : Z)
    (useGpu : bool) (gpuLayers : Z) : St Z :=
  native_ llama_backend_init Backend_init;;
  native_ llama_numa_init Numa_init;;
  let '(gpu_available, actual_gpu_layers, n_gpu_layers) := negotiate_gpu useGpu gpuLayers in
  model ← native (llama_load_model_from_file modelPath n_gpu_layers)
                 (Load_model modelPath n_gpu_layers);
  '(model, gpu_available, actual_gpu_layers) ←
    (if decide (model = nullptr ∧ gpu_available = true ∧ actual_gpu_layers > 0) then
       model ← native (llama_load_model_from_file modelPath 0) (Load_model modelPath 0);
       mret (model, false, 0)
     else mret (model, gpu_available, actual_gpu_layers));
  if decide (model = nullptr) then mret 0 else
  let ctx_params := make_ctx_params contextSize threads None in
  ctx ← native (llama_new_context_with_model model ctx_params) (New_context model ctx_params);
  if decide (ctx = nullptr) then
    native_ (llama_free_model model) (Free_model model);;
    mret 0
  else
  new_object (Obj_llama {| model := model; ctx := ctx;
                           using_gpu := gpu_available && bool_decide (actual_gpu_layers > 0);
                           gpu_layers := actual_gpu_layers |}).

Definition initEmbeddingModel (modelPath : string) (contextSize threads : Z) : St Z :=
  backend_initialized ← get_backend_initialized;
  (if negb backend_initialized then
     native_ llama_backend_init Backend_init;;
     native_ llama_numa_init Numa_init;;
     put_backend_initialized true
   else mret tt);;
  model ← native (llama_load_model_from_file modelPath 0) (Load_model modelPath 0);
  if decide (model = nullptr) then mret 0 else
  let ctx_params := make_ctx_params contextSize threads (Some true) in
  ctx ← native (llama_new_context_with_model model ctx_params) (New_context model ctx_params);
  if decide (ctx = nullptr) then
    native_ (llama_free_model model) (Free_model model);;
    mret 0
  else
  n_embd ← observe (llama_n_embd model);
  new_object (Obj_embedding {| emb_model := model; emb_ctx := ctx; n_embd := n_embd |}).

(** ** Introspection *)

Definition isUsingGpu (modelHandle : Z) (w : world) : option bool :=
  if decide (modelHandle = 0) then Some false
  else using_gpu <$> deref_llama modelHandle w.

Definition getGpuLayers (modelHandle : Z) (w : world) : option Z :=
  if decide (modelHandle = 0) then Some 0
  else gpu_layers <$> deref_llama modelHandle w.

Definition getEmbeddingDimension (modelHandle : Z) (w : world) : option Z :=
  if decide (modelHandle = 0) then Some 0
  else n_embd <$> deref_embedding modelHandle w.

(** ** Release *)

Definition freeModel (modelHandle : Z) (w : world) : option world :=
  if decide (modelHandle = 0) then Some w else
  wrapper ← deref_llama modelHandle w;
  Some ((
    (if decide (ctx wrapper ≠ nullptr)
     then native_ (llama_free (ctx wrapper)) (Free_context (ctx wrapper)) else mret tt);;
    (if decide (model wrapper ≠ nullptr)
     then native_ (llama_free_model (model wrapper)) (Free_model (model wrapper)) else mret tt);;
    delete_object modelHandle;;
    native_ llama_backend_free Backend_free) w).2.

Definition freeEmbeddingModel (modelHandle : Z) (w : world) : option world :=
  if decide (modelHandle = 0) then Some w else
  wrapper ← deref_embedding modelHandle w;
  Some ((
    (if decide (emb_ctx wrapper ≠ nullptr)
     then native_ (llama_free (emb_ctx wrapper)) (Free_context (emb_ctx wrapper)) else mret tt);;
    (if decide (emb_model wrapper ≠ nullptr)
     then native_ (llama_free_model (emb_model wrapper)) (Free_model (emb_model wrapper))
     else mret tt);;
    delete_object modelHandle) w).2.

(** ** Text generation *)

(** The sampler chain of [generate] and [generateStream]. *)
Definition sampler_stages (temperature topP : jfloat) (topK : Z) : list sampler_stage :=
  [ init_penalties 256 (115 # 100) (1 # 10) 0;
    init_top_k topK;
    init_top_p topP 1;
    init_temp temperature;
    init_dist LLAMA_DEFAULT_SEED ].

(** [tokens.resize(strlen + 256)], [llama_tokenize], [tokens.resize(n_tokens)]. *)
Definition tokenize_text (vocab : ptr) (text : bytes) : St (Z * list llama_token) :=
  let cap := strlen text + 256 in
  r ← observe (llama_tokenize vocab (c_str text) (strlen text) cap true true);
  mret (r.1, take (Z.to_nat r.1) (resize (Z.to_nat cap) 0 r.2)).

Inductive loop_ctl := Continue | Break.

(** The end of both loop bodies: decode the token just drawn. *)
Definition decode_next (wrapper : llama_context_wrapper) (new_token : llama_token)
    (result : bytes) : St (loop_ctl * bytes) :=
  rc ← native (llama_decode (ctx wrapper) [new_token]) (Decode (ctx wrapper) [new_token]);
  if decide (rc ≠ 0) then mret (Break, result) else mret (Continue, result).

(** One pass through the body of the loop of [generate]. *)
Definition generate_step (wrapper : llama_context_wrapper) (vocab smpl : ptr)
    (result : bytes) : St (loop_ctl * bytes) :=
  new_token ← native (llama_sampler_sample smpl (ctx wrapper)) (Sample smpl (ctx wrapper));
  eog ← observe (llama_vocab_is_eog vocab new_token);
  if (eog : bool) then mret (Break, result) else
  piece ← observe (llama_token_to_piece vocab new_token 256);
  let n_piece := piece.1 in
  if decide (n_piece > 0) then
    let result := result ++ take (Z.to_nat n_piece) piece.2 in
    match find im_end result with
    | Some pos => mret (Break, substr0 result pos)
    | None => decode_next wrapper new_token result
    end
  else decode_next wrapper new_token result.

(** One pass through the body of the loop of [generateStream]. *)
Definition generateStream_step (wrapper : llama_context_wrapper) (vocab smpl : ptr)
    (result : bytes) : St (loop_ctl * bytes) :=
  new_token ← native (llama_sampler_sample smpl (ctx wrapper)) (Sample smpl (ctx wrapper));
  eog ← observe (llama_vocab_is_eog vocab new_token);
  if (eog : bool) then mret (Break, result) else
  piece ← observe (llama_token_to_piece vocab new_token 256);
  let n_piece := piece.1 in
  if decide (n_piece > 0) then
    let tokenStr := take (Z.to_nat n_piece) piece.2 in
    let result := result ++ tokenStr in
    match find im_end result with
    | Some _ => mret (Break, result)
    | None =>
        call_void (onToken (c_str tokenStr));;
        decode_next wrapper new_token result
    end
  else decode_next wrapper new_token result.

(** [while (n_generated < maxTokens) { body; n_generated++; }] with [break]
    in the body.  [fuel] bounds the recursion; [Z.to_nat (maxTokens -
    n_generated)] passes are always enough (see [token_loop_fuel]). *)
Fixpoint token_loop (fuel : nat) (step : bytes → St (loop_ctl * bytes)) (maxTokens : Z)
    (n_generated : Z) (result : bytes) : St (Z * bytes) :=
  match fuel with
  | O => mret (n_generated, result)
  | S fuel' =>
      if decide (n_generated < maxTokens) then
        r ← step result;
        match r.1 with
        | Break => mret (n_generated, r.2)
        | Continue => token_loop fuel' step maxTokens (n_generated + 1) r.2
        end
      else mret (n_generated, result)
  end.

(** [generate] once the wrapper has been read. *)
Definition generate_session (wrapper : llama_context_wrapper) (prompt : bytes)
    (maxTokens : Z) (temperature topP : jfloat) (topK : Z) : St bytes :=
  vocab ← observe (llama_model_get_vocab (model wrapper));
  tk ← tokenize_text vocab prompt;
  let n_tokens := tk.1 in
  if decide (n_tokens < 0) then mret [] else
  smpl ← native (llama_sampler_chain (sampler_stages temperature topP topK)) Sampler_chain;
  native_ (llama_memory_clear (ctx wrapper)) (Memory_clear (ctx wrapper));;
  rc ← native (llama_decode (ctx wrapper) tk.2) (Decode (ctx wrapper) tk.2);
  if decide (rc ≠ 0) then
    native_ (llama_sampler_free smpl) (Sampler_free smpl);;
    mret []
  else
  r ← token_loop (Z.to_nat maxTokens) (generate_step wrapper vocab smpl) maxTokens 0 [];
  native_ (llama_sampler_free smpl) (Sampler_free smpl);;
  mret (c_str r.2).

(** The returned Java string is given by the bytes handed to
    [NewStringUTF]; [None] is undefined behaviour (a handle that is not the
    address of a live wrapper). *)
Definition generate (modelHandle : Z) (prompt : bytes) (maxTokens : Z)
    (temperature topP : jfloat) (topK : Z) (w : world) : option (bytes * world) :=
  if decide (modelHandle = 0) then Some ([], w) else
  wrapper ← deref_llama modelHandle w;
  Some (generate_session wrapper prompt maxTokens temperature topP topK w).

(** The Java callback object: the methods (name, signature) of its class. *)
Record jcallback := { cb_methods : list (string * string) }.

(** [GetMethodID]: [false] stands for a null method id. *)
Definition GetMethodID (callback : jcallback) (name sig : string) : bool :=
  bool_decide ((name, sig) ∈ cb_methods callback).

(** [generateStream] once the callback methods are resolved and the wrapper
    has been read. *)
Definition generateStream_session (wrapper : llama_context_wrapper) (prompt : bytes)
    (maxTokens : Z) (temperature topP : jfloat) (topK : Z) : St unit :=
  vocab ← observe (llama_model_get_vocab (model wrapper));
  tk ← tokenize_text vocab prompt;
  let n_tokens := tk.1 in
  if decide (n_tokens < 0) then call_void (onError "Failed to tokenize prompt") else
  smpl ← native (llama_sampler_chain (sampler_stages temperature topP topK)) Sampler_chain;
  native_ (llama_memory_clear (ctx wrapper)) (Memory_clear (ctx wrapper));;
  rc ← native (llama_decode (ctx wrapper) tk.2) (Decode (ctx wrapper) tk.2);
  if decide (rc ≠ 0) then
    native_ (llama_sampler_free smpl) (Sampler_free smpl);;
    call_void (onError "Failed to decode prompt")
  else
  token_loop (Z.to_nat maxTokens) (generateStream_step wrapper vocab smpl) maxTokens 0 [];;
  native_ (llama_sampler_free smpl) (Sampler_free smpl);;
  call_void onComplete.

Definition generateStream (modelHandle : Z) (prompt : bytes) (maxTokens : Z)
    (temperature topP : jfloat) (topK : Z) (callback : jcallback) (w : world)
    : option world :=
  if decide (modelHandle = 0) then Some w else
  let onTokenMethod := GetMethodID callback "onToken" "(Ljava/lang/String;)V" in
  let onCompleteMethod := GetMethodID callback "onComplete" "()V" in
  let onErrorMethod := GetMethodID callback "onError" "(Ljava/lang/String;)V" in
  if negb onTokenMethod || negb onCompleteMethod || negb onErrorMethod then Some w else
  wrapper ← deref_llama modelHandle w;
  Some (generateStream_session wrapper prompt maxTokens temperature topP topK w).2.

(** ** Embeddings *)

(** [for (i = 0; i < n_embd; i++) norm += embd[i] * embd[i];]  Reading past
    the end of the library's buffer is undefined ([None]). *)
Fixpoint sum_squares (embd : list jfloat) (remaining i : nat) (norm : jfloat)
    : option jfloat :=
  match remaining with
  | O => Some norm
  | S remaining' =>
      x ← embd !! i;
      sum_squares embd remaining' (S i) (fadd norm (fmul x x))
  end.

(** [for (i = 0; i < n_embd; i++) normalized[i] = f(embd[i]);] *)
Fixpoint fill_normalized (f : jfloat → jfloat) (embd : list jfloat) (remaining i : nat)
    (normalized : list jfloat) : option (list jfloat) :=
  match remaining with
  | O => Some normalized
  | S remaining' =>
      x ← embd !! i;
      fill_normalized f embd remaining' (S i) (<[i:=f x]> normalized)
  end.

(** Lines 689-704 of [getEmbedding]. *)
Definition l2_normalize (embd : list jfloat) (n_embd : Z) : option (list jfloat) :=
  let count := Z.to_nat n_embd in
  let normalized := replicate count fzero in
  norm ← sum_squares embd count 0 fzero;
  let norm := sqrtf norm in
  if fgt norm fzero then fill_normalized (λ x, fdiv x norm) embd count 0 normalized
  else fill_normalized (λ x, x) embd count 0 normalized.

(** [NewFloatArray(n)]: a negative length or an allocation failure gives null. *)
Definition NewFloatArray (n : Z) : St bool :=
  ok ← observe (jni_new_float_array_ok n);
  mret (bool_decide (0 ≤ n) && ok).

(** [getEmbedding] once the wrapper has been read.  The inner option is the
    returned array ([None] for a null [jfloatArray]). *)
Definition getEmbedding_session (wrapper : embedding_context_wrapper) (text : bytes)
    (w : world) : option (option (list jfloat) * world) :=
  let '(vocab, w) := observe (llama_model_get_vocab (emb_model wrapper)) w in
  let '(tk, w) := tokenize_text vocab text w in
  if decide (tk.1 < 0) then Some (None, w) else
  let '(_, w) := native_ (llama_memory_clear (emb_ctx wrapper))
                         (Memory_clear (emb_ctx wrapper)) w in
  let '(rc, w) := native (llama_decode (emb_ctx wrapper) tk.2)
                         (Decode (emb_ctx wrapper) tk.2) w in
  if decide (rc ≠ 0) then Some (None, w) else
  let '(embd, w) := observe (llama_get_embeddings_seq (emb_ctx wrapper) 0) w in
  let '(embd, w) :=
    match embd with
    | None => observe (llama_get_embeddings (emb_ctx wrapper)) w
    | Some _ => (embd, w)
    end in
  match embd with
  | None => Some (None, w)
  | Some embd =>
      let '(result, w) := NewFloatArray (n_embd wrapper) w in
      if negb result then Some (None, w) else
      normalized ← l2_normalize embd (n_embd wrapper);
      Some (Some normalized, w)
  end.

Definition getEmbedding (modelHandle : Z) (text : bytes) (w : world)
    : option (option (list jfloat) * world) :=
  if decide (modelHandle = 0) then Some (None, w) else
  wrapper ← deref_embedding modelHandle w;
  getEmbedding_session wrapper text w.

End Bridge.

(** ** Vocabulary of the statements *)

Section Vocabulary.
Context {F32 : Float32} {L : LlamaLib}.

(** What a run from [w] to [w'] added to the record of library calls and
    to the callbacks delivered. *)
Definition calls_since (w w' : world) : list native_call :=
  drop (length (w_calls w)) (w_calls w').
Definition sink_since (w w' : world) : list sink_event :=
  drop (length (w_sink w)) (w_sink w').

Definition backend_inits (calls : list native_call) : nat :=
  length (filter (λ c, c = Backend_init) calls).
Definition backend_frees (calls : list native_call) : nat :=
  length (filter (λ c, c = Backend_free) calls).

Definition is_load (c : native_call) : bool :=
  match c with Load_model _ _ _ => true | _ => false end.
Definition loads (calls : list native_call) : list native_call :=
  filter (λ c, is_load c = true) calls.

(** Models handed out by the library and not yet given back. *)
Fixpoint models_outstanding (calls : list native_call) : Z :=
  match calls with
  | [] => 0
  | Load_model _ _ ret :: calls' =>
      (if decide (ret = nullptr) then 0 else 1) + models_outstanding calls'
  | Free_model _ :: calls' => models_outstanding calls' - 1
  | _ :: calls' => models_outstanding calls'
  end.

(** One complete pass of a token loop: the condition holds, the body runs
    to its end without [break], the counter is incremented. *)
Definition iteration (step : bytes → St (loop_ctl * bytes)) (maxTokens : Z)
    : relation (Z * bytes * world) :=
  λ s s', s.1.1 < maxTokens
          ∧ step s.1.2 s.2 = ((Continue, s'.1.2), s'.2)
          ∧ s'.1.1 = s.1.1 + 1.

(** Lines 246-302 (and 411-465): the vocabulary, the sampler and the world
    in which the loop is entered; [None] when the prompt cannot be tokenized
    or decoded. *)
Definition loop_entry (wrapper : llama_context_wrapper) (prompt : bytes)
    (temperature topP : jfloat) (topK : Z) (w : world) : option (ptr * ptr * world) :=
  let vocab := llama_model_get_vocab (model wrapper) (w_lib w) in
  let tk := (tokenize_text vocab prompt w).1 in
  if decide (tk.1 < 0) then None else
  let '(smpl, w) :=
    native (llama_sampler_chain (sampler_stages temperature topP topK)) Sampler_chain w in
  let '(_, w) := native_ (llama_memory_clear (ctx wrapper)) (Memory_clear (ctx wrapper)) w in
  let '(rc, w) := native (llama_decode (ctx wrapper) tk.2) (Decode (ctx wrapper) tk.2) w in
  if decide (rc ≠ 0) then None else Some (vocab, smpl, w).

(** A second call of a release function on the same handle changes nothing
    and does not fault. *)
Definition second_call_is_noop (free : Z → world → option world) (handle : Z)
    (w : world) : Prop :=
  ∀ w1, free handle w = Some w1 → free handle w1 = Some w1.

(** All three callback methods were found by [GetMethodID]. *)
Definition callback_resolved (callback : jcallback) : bool :=
  GetMethodID callback "onToken" "(Ljava/lang/String;)V"
  && GetMethodID callback "onComplete" "()V"
  && GetMethodID callback "onError" "(Ljava/lang/String;)V".

(** The sink protocol: any number of [onToken], then one terminal event. *)
Definition sink_protocol (events : list sink_event) : Prop :=
  ∃ texts terminal,
    events = (onToken <$> texts) ++ [terminal] ∧ is_terminal terminal = true.

(** Kinds of recorded calls and of delivered events. *)
Definition is_sample (c : native_call) : bool :=
  match c with Sample _ _ _ => true | _ => false end.
Definition is_token_call (c : native_call) : bool :=
  match c with Sample _ _ _ | Decode _ _ _ => true | _ => false end.
Definition is_sampler_call (c : native_call) : bool :=
  match c with Sampler_chain _ | Sampler_free _ => true | _ => false end.

Definition samples_drawn (calls : list native_call) : nat :=
  length (filter (λ c, is_sample c = true) calls).
Definition sampler_calls (calls : list native_call) : list native_call :=
  filter (λ c, is_sampler_call c = true) calls.
Definition tokens_delivered (events : list sink_event) : nat :=
  length (filter (λ e, is_terminal e = false) events).

(** Contexts handed out by the library and not yet given back. *)
Fixpoint contexts_outstanding (calls : list native_call) : Z :=
  match calls with
  | [] => 0
  | New_context _ _ ret :: calls' =>
      (if decide (ret = nullptr) then 0 else 1) + contexts_outstanding calls'
  | Free_context _ :: calls' => contexts_outstanding calls' - 1
  | _ :: calls' => contexts_outstanding calls'
  end.

(** [s] cut where the marker starts, if it occurs. *)
Definition cut_at_marker (s : bytes) : bytes :=
  match find im_end s with Some pos => substr0 s pos | None => s end.

(** Two worlds that differ at most in the callbacks delivered. *)
Definition same_but_sink (w w' : world) : Prop :=
  w_lib w = w_lib w' ∧ w_calls w = w_calls w' ∧ w_heap w = w_heap w'
  ∧ w_backend_initialized w = w_backend_initialized w'.

(** What one pass adds: a draw, possibly a decode, at most one [onToken];
    wrappers and the static flag are not touched. *)
Definition pass_footprint (step : bytes → St (loop_ctl * bytes)) : Prop :=
  ∀ result w, ∃ k texts,
    w_calls (step result w).2 = w_calls w ++ k
    ∧ w_sink (step result w).2 = w_sink w ++ (onToken <$> texts)
    ∧ Forall (λ c, is_token_call c = true) k
    ∧ samples_drawn k = 1%nat
    ∧ (length texts ≤ 1)%nat
    ∧ w_heap (step result w).2 = w_heap w
    ∧ w_backend_initialized (step result w).2 = w_backend_initialized w.

(** The calls of the prompt phase, with the result of the prompt decode. *)
Definition prompt_calls (wrapper : llama_context_wrapper) (smpl : ptr)
    (toks : list llama_token) (rc : Z) : list native_call :=
  [Sampler_chain smpl; Memory_clear (ctx wrapper); Decode (ctx wrapper) toks rc].

(** The sampler calls of a run are balanced: none, or one chain created
    and freed by the last call of the run. *)
Definition sampler_balanced (calls : list native_call) : Prop :=
  sampler_calls calls = []
  ∨ ∃ smpl, sampler_calls calls = [Sampler_chain smpl; Sampler_free smpl]
            ∧ last calls = Some (Sampler_free smpl).

(** Calls that hand out no model and no context: the backend set-up and a
    load that returned null. *)
Definition obtains_nothing (c : native_call) : bool :=
  match c with
  | Backend_init | Numa_init => true
  | Load_model _ _ ret => bool_decide (ret = nullptr)
  | _ => false
  end.

(** A creation call either fails, leaving the heap as it was and no model
    or context outstanding, or allocates one wrapper (described by [wrap])
    at a fresh non-zero address for the model [m] and the context [c] it
    obtained: its calls end with the load that returned [m] and the context
    request for [m] that returned [c], and no earlier call handed out
    anything. *)
Definition creation_outcome (modelPath : string) (w : world) (r : Z * world)
    (k : list native_call) (wrap : ptr → ptr → object → Prop) : Prop :=
  w_calls r.2 = w_calls w ++ k
  ∧ w_sink r.2 = w_sink w
  ∧ ((r.1 = 0 ∧ w_heap r.2 = w_heap w
      ∧ models_outstanding k = 0 ∧ contexts_outstanding k = 0)
     ∨ (∃ m c o,
          wrap m c o ∧ r.1 ≠ 0 ∧ m ≠ nullptr ∧ c ≠ nullptr
          ∧ w_heap w !! r.1 = None ∧ w_heap r.2 = <[r.1:=o]> (w_heap w)
          ∧ models_outstanding k = 1 ∧ contexts_outstanding k = 1
          ∧ ∃ k0 n p,
              k = k0 ++ [Load_model modelPath n m; New_context m p c]
              ∧ Forall (λ x, obtains_nothing x = true) k0)).

End Vocabulary.

(** ** A scripted library, to run the bridge on concrete inputs *)

Module Mock.

Record script := {
  vulkan : bool;
  load : Z → ptr;                         (* by n_gpu_layers *)
  new_context : ptr;
  embd_dim : Z;
  tokenize_ret : Z;
  samples : list llama_token;             (* tokens drawn, in order; then 0 *)
  decode_rcs : list Z;                    (* results of llama_decode, in order; then 0 *)
  piece_of : llama_token → bytes;
  embd_seq : option (list (@jfloat Binary32.float32));
  embd_all : option (list (@jfloat Binary32.float32));
}.

(** Token 0 is the only end-of-generation token.  The state holds the
    tokens still to be drawn and the decode results still to be given. *)
#[export] Instance lib (s : script) : LlamaLib (F32 := Binary32.float32) := {|
  lib_state := list llama_token * list Z;
  GGML_USE_VULKAN := vulkan s;
  LLAMA_DEFAULT_SEED := 4294967295;
  llama_context_default_params :=
    {| n_ctx := 512; n_threads := 4; n_threads_batch := 4; embeddings := false |};
  llama_backend_init := λ l, l;
  llama_numa_init := λ l, l;
  llama_backend_free := λ l, l;
  llama_load_model_from_file := λ _ n l, (load s n, l);
  llama_new_context_with_model := λ _ _ l, (new_context s, l);
  llama_free := λ _ l, l;
  llama_free_model := λ _ l, l;
  llama_n_embd := λ _ _, embd_dim s;
  llama_model_get_vocab := λ m _, m;
  llama_tokenize := λ _ text _ _ _ _ _, (tokenize_ret s, [1]);
  llama_sampler_chain := λ _ l, (7, l);
  llama_sampler_free := λ _ l, l;
  llama_memory_clear := λ _ l, l;
  llama_decode := λ _ _ l, (hd 0 l.2, (l.1, tl l.2));
  llama_sampler_sample := λ _ _ l, (hd 0 l.1, (tl l.1, l.2));
  llama_vocab_is_eog := λ _ t _, bool_decide (t = 0);
  llama_token_to_piece := λ _ t _ _, (Z.of_nat (length (piece_of s t)), piece_of s t);
  llama_get_embeddings_seq := λ _ _ _, embd_seq s;
  llama_get_embeddings := λ _ _, embd_all s;
  jni_new_float_array_ok := λ _ _, true;
|}.

Definition start (s : script) (heap : gmap Z object) : world (L := lib s) :=
  @Build_world _ (lib s) (samples s, decode_rcs s) [] heap false [].

(** Tokens 1, 2, 3 spell ["Hi"], ["<|im_"], ["end|>!"]. *)
Definition pieces (t : llama_token) : bytes :=
  if decide (t = 1) then lit "Hi"
  else if decide (t = 2) then lit "<|im_"
  else if decide (t = 3) then lit "end|>!"
  else [].

Definition base : script :=
  {| vulkan := true; load := λ _, 100; new_context := 200; embd_dim := 2;
     tokenize_ret := 1; samples := [1; 2; 3; 1]; decode_rcs := [];
     piece_of := pieces; embd_seq := None; embd_all := None |}.

(** No Vulkan backend compiled in. *)
Definition cpu_only : script :=
  {| vulkan := false; load := λ _, 100; new_context := 200; embd_dim := 2;
     tokenize_ret := 1; samples := []; decode_rcs := [];
     piece_of := pieces; embd_seq := None; embd_all := None |}.

(** Loading with GPU layers fails, loading on the CPU works. *)
Definition gpu_load_fails : script :=
  {| vulkan := true; load := λ n, if decide (n > 0) then nullptr else 100;
     new_context := 200; embd_dim := 2;
     tokenize_ret := 1; samples := []; decode_rcs := [];
     piece_of := pieces; embd_seq := None; embd_all := None |}.

(** The model loads, the context cannot be built. *)
Definition context_fails : script :=
  {| vulkan := true; load := λ _, 100; new_context := nullptr; embd_dim := 2;
     tokenize_ret := 1; samples := []; decode_rcs := [];
     piece_of := pieces; embd_seq := None; embd_all := None |}.

(** The second decode of a drawn token fails. *)
Definition decode_fails : script :=
  {| vulkan := true; load := λ _, 100; new_context := 200; embd_dim := 2;
     tokenize_ret := 1; samples := [1; 1; 1; 1]; decode_rcs := [0; 0; 1];
     piece_of := pieces; embd_seq := None; embd_all := None |}.

(** The pooled embedding of sequence 0 is (3, 4). *)
Definition embeds : script :=
  {| vulkan := false; load := λ _, 101; new_context := 201; embd_dim := 2;
     tokenize_ret := 1; samples := []; decode_rcs := [];
     piece_of := pieces;
     embd_seq := Some [Binary32.three; Binary32.four]; embd_all := None |}.

(** The pooled embedding is (FLT_MAX, FLT_MAX): its squares overflow. *)
Definition overflows : script :=
  {| vulkan := false; load := λ _, 101; new_context := 201; embd_dim := 2;
     tokenize_ret := 1; samples := []; decode_rcs := [];
     piece_of := pieces;
     embd_seq := Some [Binary32.flt_max; Binary32.flt_max]; embd_all := None |}.

(** The pooled embedding is (2^-149, 2^-149): its squares underflow. *)
Definition underflows : script :=
  {| vulkan := false; load := λ _, 101; new_context := 201; embd_dim := 2;
     tokenize_ret := 1; samples := []; decode_rcs := [];
     piece_of := pieces;
     embd_seq := Some [Binary32.flt_true_min; Binary32.flt_true_min]; embd_all := None |}.

Definition session : llama_context_wrapper :=
  {| model := 100; ctx := 200; using_gpu := false; gpu_layers := 0 |}.

Definition emb_session : embedding_context_wrapper :=
  {| emb_model := 101; emb_ctx := 201; n_embd := 2 |}.

Definition heap0 : gmap Z object :=
  {[ 1 := Obj_llama session; 2 := Obj_embedding emb_session; 3 := Obj_llama session ]}.

Definition callback : jcallback :=
  {| cb_methods := [ ("onToken", "(Ljava/lang/String;)V")%string;
                     ("onComplete", "()V")%string;
                     ("onError", "(Ljava/lang/String;)V")%string ] |}.

(** The prompt cannot be tokenized. *)
Definition tokenize_fails : script :=
  {| vulkan := true; load := λ _, 100; new_context := 200; embd_dim := 2;
     tokenize_ret := -1; samples := [1; 1]; decode_rcs := [];
     piece_of := pieces; embd_seq := None; embd_all := None |}.

(** The prompt cannot be decoded. *)
Definition prompt_decode_fails : script :=
  {| vulkan := true; load := λ _, 100; new_context := 200; embd_dim := 2;
     tokenize_ret := 1; samples := [1; 1]; decode_rcs := [1];
     piece_of := pieces; embd_seq := None; embd_all := None |}.

(** No model file can be loaded. *)
Definition load_fails : script :=
  {| vulkan := true; load := λ _, nullptr; new_context := 200; embd_dim := 2;
     tokenize_ret := 1; samples := []; decode_rcs := [];
     piece_of := pieces; embd_seq := None; embd_all := None |}.

(** The library's embedding buffer holds one value, the wrapper says two. *)
Definition short_buffer : script :=
  {| vulkan := false; load := λ _, 101; new_context := 201; embd_dim := 2;
     tokenize_ret := 1; samples := []; decode_rcs := [];
     piece_of := pieces; embd_seq := Some [Binary32.three]; embd_all := None |}.

(** A heap in which the embedding flag is already set. *)
Definition started (s : script) : world (L := lib s) :=
  @Build_world _ (lib s) (samples s, decode_rcs s) [] heap0 true [].

(** A callback object whose class has no [onError] method. *)
Definition callback_without_onError : jcallback :=
  {| cb_methods := [ ("onToken", "(Ljava/lang/String;)V")%string;
                     ("onComplete", "()V")%string ] |}.

(** The world of script [s] over [heap0] with the given library state,
    calls and delivered callbacks. *)
Definition at_state (s : script) (l : list llama_token * list Z)
    (calls : list native_call) (sink : list sink_event) : world (L := lib s) :=
  @Build_world _ (lib s) l calls heap0 false sink.

(** Runs on the session at address 1 (embedding session at address 2) of
    [heap0], with the result the call gives when it is defined. *)
Definition run_generate (s : script) (maxTokens : Z) : bytes * world (L := lib s) :=
  default ([], start s heap0)
    (generate (L := lib s) 1 (lit "hello") maxTokens fzero fzero 40 (start s heap0)).

Definition run_stream (s : script) (maxTokens : Z) : world (L := lib s) :=
  default (start s heap0)
    (generateStream (L := lib s) 1 (lit "hello") maxTokens fzero fzero 40 callback
       (start s heap0)).

Definition run_embedding (s : script)
    : option (list (@jfloat Binary32.float32)) * world (L := lib s) :=
  default (None, start s heap0) (getEmbedding (L := lib s) 2 (lit "hello") (start s heap0)).

End Mock.

Example mock_generate :
  fst <$> generate 1 (lit "hello") 16 fzero fzero 40 (Mock.start Mock.base Mock.heap0)
  = Some (lit "Hi").
Proof. vm_compute. reflexivity. Qed.

Example mock_init :
  (initModelWithGpu "m.gguf" 512 4 true (-1) (Mock.start Mock.base ∅)).1 = 1.
Proof. vm_compute. reflexivity. Qed.

(** ** Facts about byte strings *)

Lemma find_Some_split needle s p :
  find needle s = Some p → ∃ post, s = take p s ++ needle ++ post.
Proof.
  revert p. induction s as [|a s IH]; intros p; simpl.
  - case_decide as Hp; [|done]. intros [= <-]. destruct Hp as [post ->]. by exists post.
  - case_decide as Hp.
    + intros [= <-]. destruct Hp as [post ->]. by exists post.
    + destruct (find needle s) as [q|] eqn:Hq; [|done]. intros [= <-].
      destruct (IH q eq_refl) as [post Hpost]. exists post. simpl. by f_equal.
Qed.

Lemma find_Some_first needle s p pre post :
  find needle s = Some p → s = pre ++ needle ++ post → (p ≤ length pre)%nat.
Proof.
  revert p pre. induction s as [|a s IH]; intros p pre; simpl.
  - case_decide; [|done]. intros [= <-] _. lia.
  - case_decide as Hp.
    + intros [= <-] _. lia.
    + destruct (find needle s) as [q|] eqn:Hq; [|done]. intros [= <-] Hs.
      destruct pre as [|b pre].
      * exfalso. apply Hp. exists post. done.
      * simpl in Hs. injection Hs as -> Hs. simpl.
        apply le_n_S. by eapply IH.
Qed.

Lemma find_None_not_contains needle s : find needle s = None → ¬ contains needle s.
Proof.
  induction s as [|a s IH]; simpl.
  - case_decide as Hp; [done|]. intros _ (pre & post & Hs). apply Hp.
    destruct pre; [by exists post|done].
  - case_decide as Hp; [done|].
    destruct (find needle s) as [q|] eqn:Hq; [done|]. intros _ (pre & post & Hs).
    destruct pre as [|b pre].
    + apply Hp. by exists post.
    + simpl in Hs. injection Hs as -> Hs. apply IH; [done|]. by exists pre, post.
Qed.

Lemma contains_find needle s : contains needle s → is_Some (find needle s).
Proof.
  intros Hc. destruct (find needle s) eqn:Hf; [done|].
  by apply find_None_not_contains in Hf.
Qed.

Lemma take_find_not_contains needle s p :
  needle ≠ [] → find needle s = Some p → ¬ contains needle (substr0 s p).
Proof.
  unfold substr0. intros Hne Hf (pre & post & Hs).
  assert (Hlen : (length (take p s) ≤ p)%nat) by (rewrite length_take; lia).
  assert (Hfull : s = pre ++ needle ++ (post ++ drop p s)).
  { rewrite <- (take_drop p s) at 1. rewrite Hs. by rewrite <- !app_assoc. }
  pose proof (find_Some_first _ _ _ _ _ Hf Hfull) as Hmin.
  rewrite Hs, !length_app in Hlen.
  destruct needle; [done|]. simpl in Hlen. lia.
Qed.

Lemma c_str_prefix (s : bytes) : c_str s `prefix_of` s.
Proof.
  induction s as [|b s IH]; simpl; [done|].
  case_decide; [apply prefix_nil|]. by apply prefix_cons.
Qed.

Lemma contains_prefix needle (s1 s2 : bytes) :
  s1 `prefix_of` s2 → contains needle s1 → contains needle s2.
Proof.
  intros [k ->] (pre & post & ->). exists pre, (post ++ k). by rewrite <- !app_assoc.
Qed.

Lemma im_end_nonempty : im_end ≠ [].
Proof. done. Qed.

Lemma not_contains_nil : ¬ contains im_end [].
Proof. intros (pre & post & Hs). destruct pre; done. Qed.

(** ** The generation loop *)

Ltac wsimpl :=
  cbn [fst snd negb w_lib w_calls w_heap w_sink w_backend_initialized
       log_call set_lib set_heap deliver set_backend_initialized] in *.

Ltac st :=
  unfold mbind, St_bind, mret, St_ret, native, native_, observe, call_void,
    get_backend_initialized, put_backend_initialized, new_object, delete_object in *;
  wsimpl.

Section Loop.
Context {F32 : Float32} {L : LlamaLib}.
Implicit Types (w : world) (result : bytes) (step : bytes → St (loop_ctl * bytes)).

(** The loop never stops for lack of fuel: any fuel of at least
    [maxTokens - n_generated] gives the same run. *)
Lemma token_loop_fuel fuel step maxTokens n result w :
  (Z.to_nat (maxTokens - n) ≤ fuel)%nat →
  token_loop fuel step maxTokens n result w
  = token_loop (Z.to_nat (maxTokens - n)) step maxTokens n result w.
Proof.
  revert n result w. induction fuel as [|fuel IH]; intros n result w Hfuel.
  - by replace (Z.to_nat (maxTokens - n)) with 0%nat by lia.
  - destruct (decide (n < maxTokens)) as [Hlt|Hge].
    + replace (Z.to_nat (maxTokens - n)) with (S (Z.to_nat (maxTokens - (n + 1)))) by lia.
      simpl. rewrite !decide_True by done. st.
      destruct (step result w).1.1; [|done]. apply IH. lia.
    + replace (Z.to_nat (maxTokens - n)) with 0%nat by lia.
      simpl. by rewrite decide_False.
Qed.

(** A property of the accumulated text kept by every pass is kept by the loop. *)
Lemma token_loop_inv (P : bytes → Prop) step maxTokens :
  (∀ result w, P result → P (step result w).1.2) →
  ∀ fuel n result w, P result → P (token_loop fuel step maxTokens n result w).1.2.
Proof.
  intros Hstep. induction fuel as [|fuel IH]; intros n result w HP; simpl; [done|].
  case_decide; [|done]. st.
  destruct (step result w).1.1 eqn:Hctl.
  - apply IH, Hstep, HP.
  - apply Hstep, HP.
Qed.

Lemma generate_step_no_marker wrapper vocab smpl result w :
  ¬ contains im_end result →
  ¬ contains im_end (generate_step wrapper vocab smpl result w).1.2.
Proof.
  intros Hno. unfold generate_step, decode_next. st.
  destruct (llama_vocab_is_eog _ _ _); [done|].
  case_decide; [|by case_decide].
  destruct (find im_end _) as [pos|] eqn:Hfind.
  - by apply take_find_not_contains.
  - apply find_None_not_contains in Hfind. by case_decide.
Qed.

Lemma generate_session_no_marker wrapper prompt maxTokens temperature topP topK w :
  ¬ contains im_end (generate_session wrapper prompt maxTokens temperature topP topK w).1.
Proof.
  unfold generate_session, tokenize_text. st.
  case_decide; [apply not_contains_nil|].
  case_decide; [apply not_contains_nil|].
  intros Hc. apply (contains_prefix _ _ _ (c_str_prefix _)) in Hc.
  revert Hc. apply token_loop_inv; [|apply not_contains_nil].
  intros result w0 Hr. by apply generate_step_no_marker.
Qed.

End Loop.

(** C4. The text returned by the blocking [generate] never contains
    [<|im_end|>]; and when an append makes the accumulated result contain the
    marker, the loop ends in that pass (the last library call is the draw of
    the token: no decode follows) with the result cut at the position where
    the marker starts. *)
Theorem generate_strips_im_end {F32 : Float32} {L : LlamaLib} :
  (∀ modelHandle prompt maxTokens temperature topP topK w text w',
     generate modelHandle prompt maxTokens temperature topP topK w = Some (text, w') →
     ¬ contains im_end text)
  ∧ (∀ wrapper vocab smpl maxTokens fuel n_generated result w,
       let drawn := llama_sampler_sample smpl (ctx wrapper) (w_lib w) in
       let piece := llama_token_to_piece vocab drawn.1 256 drawn.2 in
       let appended := result ++ take (Z.to_nat piece.1) piece.2 in
       n_generated < maxTokens →
       llama_vocab_is_eog vocab drawn.1 drawn.2 = false →
       piece.1 > 0 →
       contains im_end appended →
       ∃ pos post,
         appended = take pos appended ++ im_end ++ post
         ∧ ¬ contains im_end (take pos appended)
         ∧ token_loop (S fuel) (generate_step wrapper vocab smpl) maxTokens
             n_generated result w
           = ((n_generated, take pos appended),
              log_call (Sample smpl (ctx wrapper) drawn.1) (set_lib drawn.2 w))).
Proof.
  split.
  - intros h prompt maxTokens temperature topP topK w text w'. unfold generate.
    case_decide.
    + intros [= <- _]. apply not_contains_nil.
    + destruct (deref_llama h w) as [wrapper|]; [|done]. simpl.
      intros [= Hs]. apply (f_equal fst) in Hs. simpl in Hs. subst text.
      apply generate_session_no_marker.
  - intros wrapper vocab smpl maxTokens fuel n result w drawn piece appended
      Hlt Heog Hpiece Hc.
    destruct (contains_find _ _ Hc) as [pos Hfind]. exists pos.
    destruct (find_Some_split _ _ _ Hfind) as [post Hsplit]. exists post.
    split; [done|]. split; [by apply (take_find_not_contains im_end)|].
    simpl. rewrite decide_True by done. unfold generate_step. st.
    subst drawn piece appended. cbn zeta in *.
    rewrite Heog. wsimpl. rewrite decide_True by done. wsimpl. by rewrite Hfind.
Qed.

Lemma generate_strips_im_end_witness :
  ¬ contains im_end (lit "Hi")
  ∧ ∃ pos post,
      lit "Hi<|im_end|>!" = take pos (lit "Hi<|im_end|>!") ++ im_end ++ post
      ∧ ¬ contains im_end (take pos (lit "Hi<|im_end|>!"))
      ∧ token_loop 1 (generate_step Mock.session 100 7) 16 2 (lit "Hi<|im_")
          (@Build_world _ (Mock.lib Mock.base) ([3; 1], []) [] Mock.heap0 false [])
        = ((2, take pos (lit "Hi<|im_end|>!")),
           @Build_world _ (Mock.lib Mock.base) ([1], []) [Sample 7 200 3] Mock.heap0 false []).
Proof.
  split.
  - apply (proj1 (generate_strips_im_end (L := Mock.lib Mock.base))
             1 (lit "hello") 16 fzero fzero 40 (Mock.start Mock.base Mock.heap0)
             (lit "Hi")
             (@Build_world _ (Mock.lib Mock.base) ([1], [])
                [Sampler_chain 7; Memory_clear 200; Decode 200 [1] 0; Sample 7 200 1;
                 Decode 200 [1] 0; Sample 7 200 2; Decode 200 [2] 0; Sample 7 200 3;
                 Sampler_free 7] Mock.heap0 false [])).
    reflexivity.
  - apply (proj2 (generate_strips_im_end (L := Mock.lib Mock.base))
             Mock.session 100 7 16 0%nat 2 (lit "Hi<|im_")
             (@Build_world _ (Mock.lib Mock.base) ([3; 1], []) [] Mock.heap0 false [])).
    + lia.
    + reflexivity.
    + reflexivity.
    + exists (lit "Hi"), (lit "!"). reflexivity.
Defined.


(** ** Session creation and release *)

Ltac trace_norm :=
  unfold calls_since, sink_since in *; wsimpl;
  repeat rewrite <- app_assoc in *; simpl app in *;
  repeat rewrite drop_app_length in *.

Section Lifecycle.
Context {F32 : Float32} {L : LlamaLib}.
Implicit Types (w : world).

Lemma backend_inits_app (k1 k2 : list native_call) :
  backend_inits (k1 ++ k2) = (backend_inits k1 + backend_inits k2)%nat.
Proof. unfold backend_inits. by rewrite filter_app, length_app. Qed.

Lemma calls_since_trans w w1 w2 k1 k2 :
  w_calls w1 = w_calls w ++ k1 → w_calls w2 = w_calls w1 ++ k2 →
  calls_since w w2 = k1 ++ k2.
Proof.
  intros H1 H2. unfold calls_since. rewrite H2, H1, <- app_assoc.
  apply drop_app_length.
Qed.

Lemma initModel_inits modelPath contextSize threads w :
  ∃ k, w_calls (initModel modelPath contextSize threads w).2 = w_calls w ++ k
       ∧ backend_inits k = 1%nat.
Proof.
  unfold initModel. st. repeat case_decide; st; trace_norm;
    eexists; (split; [reflexivity|done]).
Qed.

Lemma initModelWithGpu_inits modelPath contextSize threads useGpu gpuLayers w :
  ∃ k, w_calls (initModelWithGpu modelPath contextSize threads useGpu gpuLayers w).2
       = w_calls w ++ k
       ∧ backend_inits k = 1%nat.
Proof.
  unfold initModelWithGpu. destruct (negotiate_gpu useGpu gpuLayers) as [[avail actual] n].
  st. repeat case_decide; st; repeat case_decide; st; trace_norm;
    eexists; (split; [reflexivity|done]).
Qed.

Lemma initEmbeddingModel_inits modelPath contextSize threads w :
  ∃ k, w_calls (initEmbeddingModel modelPath contextSize threads w).2 = w_calls w ++ k
       ∧ backend_inits k = (if w_backend_initialized w then 0 else 1)%nat
       ∧ w_backend_initialized (initEmbeddingModel modelPath contextSize threads w).2 = true.
Proof.
  unfold initEmbeddingModel. st.
  destruct (w_backend_initialized w) eqn:Hflag; st; repeat case_decide; st; trace_norm;
    eexists; (split; [reflexivity || (symmetry; apply app_nil_r)|done]).
Qed.

(** C3. Backend setup is not limited to the first session creation: every
    [initModel] and every [initModelWithGpu] call runs [llama_backend_init],
    whatever the flag says, so two creations run it twice; only
    [initEmbeddingModel] consults the flag, which is its own static and is
    not set by the other two. *)
Theorem backend_init_runs_on_every_initModel
    modelPath contextSize threads useGpu gpuLayers w :
  let w1 := (initModel modelPath contextSize threads w).2 in
  let w2 := (initModel modelPath contextSize threads w1).2 in
  let g1 := (initModelWithGpu modelPath contextSize threads useGpu gpuLayers w).2 in
  let g2 := (initModelWithGpu modelPath contextSize threads useGpu gpuLayers g1).2 in
  let e1 := (initEmbeddingModel modelPath contextSize threads w1).2 in
  let e2 := (initEmbeddingModel modelPath contextSize threads e1).2 in
  backend_inits (calls_since w w2) = 2%nat
  ∧ backend_inits (calls_since w g2) = 2%nat
  ∧ w_backend_initialized w1 = w_backend_initialized w
  ∧ backend_inits (calls_since w e1)
    = (if w_backend_initialized w then 1 else 2)%nat
  ∧ backend_inits (calls_since e1 e2) = 0%nat.
Proof.
  intros w1 w2 g1 g2 e1 e2.
  destruct (initModel_inits modelPath contextSize threads w) as (k1 & Hk1 & Hn1).
  destruct (initModel_inits modelPath contextSize threads w1) as (k2 & Hk2 & Hn2).
  destruct (initModelWithGpu_inits modelPath contextSize threads useGpu gpuLayers w)
    as (j1 & Hj1 & Hm1).
  destruct (initModelWithGpu_inits modelPath contextSize threads useGpu gpuLayers g1)
    as (j2 & Hj2 & Hm2).
  destruct (initEmbeddingModel_inits modelPath contextSize threads w1)
    as (i1 & Hi1 & Ho1 & Hf1).
  destruct (initEmbeddingModel_inits modelPath contextSize threads e1)
    as (i2 & Hi2 & Ho2 & _).
  assert (Hflag : w_backend_initialized w1 = w_backend_initialized w).
  { subst w1. unfold initModel. st. repeat case_decide; st; done. }
  subst w2 g2 e2 e1 g1 w1.
  repeat split.
  - rewrite (calls_since_trans _ _ _ _ _ Hk1 Hk2), backend_inits_app. lia.
  - rewrite (calls_since_trans _ _ _ _ _ Hj1 Hj2), backend_inits_app. lia.
  - done.
  - rewrite (calls_since_trans _ _ _ _ _ Hk1 Hi1), backend_inits_app, Hn1, Ho1, Hflag.
    by destruct (w_backend_initialized w).
  - rewrite Hf1 in Ho2. unfold calls_since. by rewrite Hi2, drop_app_length.
Qed.

(** C9. In each of the three creation functions, a context build that fails
    (so on a model the call had loaded) is followed by the release of that
    model and nothing else: the call returns 0, allocates no wrapper, and
    gives back every model it was handed. *)
Theorem failed_context_build_releases_model
    modelPath contextSize threads useGpu gpuLayers w m p :
  (let r := initModel modelPath contextSize threads w in
   New_context m p nullptr ∈ calls_since w r.2 →
   r.1 = 0 ∧ m ≠ nullptr ∧ w_heap r.2 = w_heap w
   ∧ models_outstanding (calls_since w r.2) = 0
   ∧ ∃ n pre, calls_since w r.2
              = pre ++ [Load_model modelPath n m; New_context m p nullptr; Free_model m])
  ∧ (let r := initModelWithGpu modelPath contextSize threads useGpu gpuLayers w in
     New_context m p nullptr ∈ calls_since w r.2 →
     r.1 = 0 ∧ m ≠ nullptr ∧ w_heap r.2 = w_heap w
     ∧ models_outstanding (calls_since w r.2) = 0
     ∧ ∃ n pre, calls_since w r.2
                = pre ++ [Load_model modelPath n m; New_context m p nullptr; Free_model m])
  ∧ (let r := initEmbeddingModel modelPath contextSize threads w in
     New_context m p nullptr ∈ calls_since w r.2 →
     r.1 = 0 ∧ m ≠ nullptr ∧ w_heap r.2 = w_heap w
     ∧ models_outstanding (calls_since w r.2) = 0
     ∧ ∃ n pre, calls_since w r.2
                = pre ++ [Load_model modelPath n m; New_context m p nullptr; Free_model m]).
Proof.
  split; [|split]; intros r; subst r.
  - unfold initModel. st. repeat case_decide; st; trace_norm; intros Hin;
      decompose_list_elem_of; simplify_eq; try done.
    repeat split; try done.
    + simpl. case_decide; [done|lia].
    + exists 0, [Backend_init; Numa_init]. simpl. destruct_and?. congruence.
  - unfold initModelWithGpu.
    destruct (negotiate_gpu useGpu gpuLayers) as [[avail actual] n].
    st. repeat case_decide; st; repeat case_decide; st; trace_norm; intros Hin;
      decompose_list_elem_of; simplify_eq; try done.
    + repeat split; try done.
      * simpl. repeat case_decide; try done; try tauto; lia.
      * exists 0, [Backend_init; Numa_init; Load_model modelPath n nullptr]. simpl. destruct_and?. congruence.
    + repeat split; try done.
      * simpl. case_decide; [done|lia].
      * exists n, [Backend_init; Numa_init]. simpl. destruct_and?. congruence.
  - unfold initEmbeddingModel. st.
    destruct (w_backend_initialized w) eqn:Hflag; st; repeat case_decide; st; trace_norm;
      intros Hin; decompose_list_elem_of; simplify_eq; try done.
    + repeat split; try done.
      * simpl. case_decide; [done|lia].
      * exists 0, []. simpl. destruct_and?. congruence.
    + repeat split; try done.
      * simpl. case_decide; [done|lia].
      * exists 0, [Backend_init; Numa_init]. simpl. destruct_and?. congruence.
Qed.

Lemma fresh_handle_nonzero (heap : gmap Z object) : fresh ({[0]} ∪ dom heap) ≠ 0.
Proof.
  intros Heq. apply (is_fresh ({[0]} ∪ dom heap)). rewrite Heq. set_solver.
Qed.

Lemma isUsingGpu_new heap a wrapper w :
  w_heap w = <[a:=Obj_llama wrapper]> heap →
  isUsingGpu a w = Some (if decide (a = 0) then false else using_gpu wrapper)
  ∧ getGpuLayers a w = Some (if decide (a = 0) then 0 else gpu_layers wrapper).
Proof.
  intros Hheap. unfold isUsingGpu, getGpuLayers, deref_llama.
  rewrite Hheap, lookup_insert_eq. by case_decide.
Qed.

Lemma negotiate_gpu_spec useGpu gpuLayers :
  (negotiate_gpu useGpu gpuLayers).1.2 = (negotiate_gpu useGpu gpuLayers).2
  ∧ ((negotiate_gpu useGpu gpuLayers).2 ≠ 0 → (negotiate_gpu useGpu gpuLayers).1.1 = true).
Proof.
  unfold negotiate_gpu, detect_vulkan_available.
  destruct useGpu, GGML_USE_VULKAN; simpl; by repeat case_decide.
Qed.

(** C7. With [useGpu] set: when the Vulkan backend is compiled in, a
    negative [gpuLayers] is resolved to 99, the count given to the first
    load; when it is not, the count is 0 whatever was asked, that load is the
    only one, and [isUsingGpu] on the returned handle reports false. *)
Theorem gpu_layers_resolution modelPath contextSize threads gpuLayers w :
  let r := initModelWithGpu modelPath contextSize threads true gpuLayers w in
  (GGML_USE_VULKAN = true → gpuLayers < 0 →
     negotiate_gpu true gpuLayers = (true, 99, 99)
     ∧ ∃ ret rest,
         calls_since w r.2 = [Backend_init; Numa_init; Load_model modelPath 99 ret] ++ rest)
  ∧ (GGML_USE_VULKAN = false →
       negotiate_gpu true gpuLayers = (false, 0, 0)
       ∧ (∃ ret, loads (calls_since w r.2) = [Load_model modelPath 0 ret])
       ∧ isUsingGpu r.1 r.2 = Some false
       ∧ getGpuLayers r.1 r.2 = Some 0).
Proof.
  intros r. subst r. split.
  - intros Hv Hneg. unfold initModelWithGpu, negotiate_gpu, detect_vulkan_available.
    rewrite Hv, decide_True by done. split; [done|].
    st. repeat case_decide; st; repeat case_decide; st; trace_norm;
      eexists _, _; reflexivity.
  - intros Hv. unfold initModelWithGpu, negotiate_gpu, detect_vulkan_available.
    rewrite Hv. split; [done|].
    st. repeat case_decide; st; repeat case_decide; st; trace_norm;
      try (destruct_and?; done).
    + split; [by eexists|]. by split.
    + split; [by eexists|]. by split.
    + split; [by eexists|].
      edestruct isUsingGpu_new as [-> ->]; [reflexivity|]. by case_decide.
Qed.

(** C8. When the load with a resolved layer count above 0 fails, the call
    loads exactly once more, with 0 layers.  If that load fails too the call
    returns 0; if it succeeds and the context is built, the call returns a
    session whose [isUsingGpu] is false and whose [getGpuLayers] is 0. *)
Theorem gpu_load_failure_retries_on_cpu
    modelPath contextSize threads useGpu gpuLayers w n :
  let r := initModelWithGpu modelPath contextSize threads useGpu gpuLayers w in
  n > 0 →
  Load_model modelPath n nullptr ∈ calls_since w r.2 →
  ∃ m2,
    loads (calls_since w r.2)
    = [Load_model modelPath n nullptr; Load_model modelPath 0 m2]
    ∧ (m2 = nullptr → r.1 = 0)
    ∧ (m2 ≠ nullptr →
       (∀ p, New_context m2 p nullptr ∉ calls_since w r.2) →
       r.1 ≠ 0 ∧ isUsingGpu r.1 r.2 = Some false ∧ getGpuLayers r.1 r.2 = Some 0).
Proof.
  intros r Hn. subst r. unfold initModelWithGpu.
  pose proof (negotiate_gpu_spec useGpu gpuLayers) as Hneg.
  destruct (negotiate_gpu useGpu gpuLayers) as [[avail actual] n'].
  simpl in Hneg. destruct Hneg as [-> Havail].
  st. repeat case_decide; st; repeat case_decide; st; trace_norm; intros Hin;
    decompose_list_elem_of; simplify_eq; destruct_and?; try done; try lia.
  all: try (exfalso; match goal with H : ¬ (_ ∧ _ ∧ _) |- _ => apply H end;
            split_and?; [done|apply Havail; lia|lia]).
  all: repeat match goal with H : _ = nullptr |- _ => rewrite H end.
  all: eexists; (split; [reflexivity|]).
  all: split; [done|]; intros Hm2 Hctx; try done.
  all: try (exfalso; eapply Hctx;
            repeat first [apply list_elem_of_here | apply list_elem_of_further]; fail).
  all: split; [apply fresh_handle_nonzero|].
  all: edestruct isUsingGpu_new as [-> ->]; [reflexivity|];
    rewrite !decide_False by apply fresh_handle_nonzero; done.
Qed.

(** C10. [freeModel] on a live session ends with [llama_backend_free],
    after the releases of that session, and leaves every other wrapper in the
    heap; [freeEmbeddingModel] never calls [llama_backend_free]. *)
Theorem freeModel_frees_backend modelHandle w :
  (∀ wrapper,
     modelHandle ≠ 0 → w_heap w !! modelHandle = Some (Obj_llama wrapper) →
     ∃ w' released,
       freeModel modelHandle w = Some w'
       ∧ calls_since w w' = released ++ [Backend_free]
       ∧ released = (if decide (ctx wrapper ≠ nullptr) then [Free_context (ctx wrapper)] else [])
                    ++ (if decide (model wrapper ≠ nullptr) then [Free_model (model wrapper)] else [])
       ∧ w_heap w' = delete modelHandle (w_heap w))
  ∧ (∀ w', freeEmbeddingModel modelHandle w = Some w' →
           backend_frees (calls_since w w') = 0%nat).
Proof.
  split.
  - intros wrapper Hnz Hlive. unfold freeModel, deref_llama.
    rewrite decide_False, Hlive by done. cbn [mbind option_bind].
    eexists.
    exists ((if decide (ctx wrapper ≠ nullptr) then [Free_context (ctx wrapper)] else [])
            ++ (if decide (model wrapper ≠ nullptr) then [Free_model (model wrapper)] else [])).
    split; [reflexivity|]. split; [|split; [reflexivity|]].
    + st. repeat case_decide; st; trace_norm; simpl;
        rewrite ?app_nil_r, ?drop_app_length; reflexivity.
    + st. repeat case_decide; st; reflexivity.
  - intros w'. unfold freeEmbeddingModel, deref_embedding. case_decide.
    + intros [= <-]. unfold calls_since. by rewrite drop_all.
    + destruct (w_heap w !! modelHandle) as [[?|wrapper]|]; simpl; try done.
      intros [= <-]. st. repeat case_decide; st; trace_norm;
        try rewrite drop_all; done.
Qed.

Lemma freeModel_heap modelHandle w w1 :
  modelHandle ≠ 0 → freeModel modelHandle w = Some w1 →
  w_heap w1 = delete modelHandle (w_heap w).
Proof.
  intros Hnz. unfold freeModel. rewrite decide_False by done.
  destruct (deref_llama modelHandle w) as [wrapper|]; [|done].
  cbn [mbind option_bind]. intros [= <-]. st. repeat case_decide; st; reflexivity.
Qed.

Lemma freeEmbeddingModel_heap modelHandle w w1 :
  modelHandle ≠ 0 → freeEmbeddingModel modelHandle w = Some w1 →
  w_heap w1 = delete modelHandle (w_heap w).
Proof.
  intros Hnz. unfold freeEmbeddingModel. rewrite decide_False by done.
  destruct (deref_embedding modelHandle w) as [wrapper|]; [|done].
  cbn [mbind option_bind]. intros [= <-]. st. repeat case_decide; st; reflexivity.
Qed.

(** C2 (as amended). With handle 0 both release functions return at once
    and change nothing.  With a live handle they release the context, then
    the model ([freeModel] then frees the backend), and delete the wrapper;
    the handle then dangles: a second call with it is not a no-op but reads
    a deleted object. *)
Theorem free_zero_is_noop_and_freed_handle_dangles :
  (∀ w, freeModel 0 w = Some w ∧ freeEmbeddingModel 0 w = Some w)
  ∧ (∀ modelHandle w w1,
       modelHandle ≠ 0 → freeModel modelHandle w = Some w1 →
       (∃ wrapper,
          w_heap w !! modelHandle = Some (Obj_llama wrapper)
          ∧ calls_since w w1
            = (if decide (ctx wrapper ≠ nullptr) then [Free_context (ctx wrapper)] else [])
              ++ (if decide (model wrapper ≠ nullptr) then [Free_model (model wrapper)]
                  else [])
              ++ [Backend_free]
          ∧ w_heap w1 = delete modelHandle (w_heap w))
       ∧ w_heap w1 !! modelHandle = None ∧ freeModel modelHandle w1 = None)
  ∧ (∀ modelHandle w w1,
       modelHandle ≠ 0 → freeEmbeddingModel modelHandle w = Some w1 →
       (∃ wrapper,
          w_heap w !! modelHandle = Some (Obj_embedding wrapper)
          ∧ calls_since w w1
            = (if decide (emb_ctx wrapper ≠ nullptr) then [Free_context (emb_ctx wrapper)]
               else [])
              ++ (if decide (emb_model wrapper ≠ nullptr)
                  then [Free_model (emb_model wrapper)] else [])
          ∧ w_heap w1 = delete modelHandle (w_heap w))
       ∧ w_heap w1 !! modelHandle = None ∧ freeEmbeddingModel modelHandle w1 = None).
Proof.
  split; [by split|]. split.
  - intros h w w1 Hnz Hfree. pose proof (freeModel_heap _ _ _ Hnz Hfree) as Hheap.
    assert (Hgone : w_heap w1 !! h = None) by (rewrite Hheap; apply lookup_delete_eq).
    split; [|split; [done|]].
    + revert Hfree. unfold freeModel, deref_llama. rewrite decide_False by done.
      destruct (w_heap w !! h) as [[wrapper|?]|]; simpl; try done.
      intros [= <-]. exists wrapper. split; [done|]. split.
      * st. repeat case_decide; st; trace_norm; simpl;
          rewrite ?app_nil_r, ?drop_app_length; reflexivity.
      * st. repeat case_decide; st; reflexivity.
    + unfold freeModel, deref_llama. rewrite decide_False by done. by rewrite Hgone.
  - intros h w w1 Hnz Hfree. pose proof (freeEmbeddingModel_heap _ _ _ Hnz Hfree) as Hheap.
    assert (Hgone : w_heap w1 !! h = None) by (rewrite Hheap; apply lookup_delete_eq).
    split; [|split; [done|]].
    + revert Hfree. unfold freeEmbeddingModel, deref_embedding.
      rewrite decide_False by done.
      destruct (w_heap w !! h) as [[?|wrapper]|]; simpl; try done.
      intros [= <-]. exists wrapper. split; [done|]. split.
      * st. repeat case_decide; st; trace_norm; simpl;
          rewrite ?app_nil_r, ?drop_app_length, ?drop_all; reflexivity.
      * st. repeat case_decide; st; reflexivity.
    + unfold freeEmbeddingModel, deref_embedding. rewrite decide_False by done.
      by rewrite Hgone.
Qed.

End Lifecycle.

(** ** Runs of the generation functions *)

Section Generation.
Context {F32 : Float32} {L : LlamaLib}.
Implicit Types (w : world) (result : bytes) (step : bytes → St (loop_ctl * bytes)).

Lemma token_loop_break step maxTokens n result w result' w' :
  n < maxTokens → step result w = ((Break, result'), w') →
  token_loop (Z.to_nat (maxTokens - n)) step maxTokens n result w = ((n, result'), w').
Proof.
  intros Hlt Hstep.
  replace (Z.to_nat (maxTokens - n)) with (S (Z.to_nat (maxTokens - (n + 1)))) by lia.
  simpl. rewrite decide_True by done. st. by rewrite Hstep.
Qed.

Lemma token_loop_iteration step maxTokens (s s' : Z * bytes * world) :
  iteration step maxTokens s s' →
  token_loop (Z.to_nat (maxTokens - s.1.1)) step maxTokens s.1.1 s.1.2 s.2
  = token_loop (Z.to_nat (maxTokens - s'.1.1)) step maxTokens s'.1.1 s'.1.2 s'.2.
Proof.
  intros (Hlt & Hstep & Hn).
  replace (Z.to_nat (maxTokens - s.1.1))
    with (S (Z.to_nat (maxTokens - (s.1.1 + 1)))) by lia.
  simpl. rewrite decide_True by done. st. rewrite Hstep, Hn. reflexivity.
Qed.

Lemma token_loop_rtc step maxTokens (s s' : Z * bytes * world) :
  rtc (iteration step maxTokens) s s' →
  token_loop (Z.to_nat (maxTokens - s.1.1)) step maxTokens s.1.1 s.1.2 s.2
  = token_loop (Z.to_nat (maxTokens - s'.1.1)) step maxTokens s'.1.1 s'.1.2 s'.2.
Proof.
  induction 1 as [|s1 s2 s3 Hit _ IH]; [done|].
  by rewrite (token_loop_iteration _ _ _ _ Hit).
Qed.

(** A run that leaves the loop by [break] in the pass entered from a state
    reached by complete passes. *)
Lemma token_loop_reach_break step maxTokens w0 n result w1 result' w2 :
  rtc (iteration step maxTokens) (0, [], w0) (n, result, w1) →
  n < maxTokens → step result w1 = ((Break, result'), w2) →
  token_loop (Z.to_nat maxTokens) step maxTokens 0 [] w0 = ((n, result'), w2).
Proof.
  intros Hreach Hlt Hstep. apply token_loop_rtc in Hreach. simpl in Hreach.
  rewrite Z.sub_0_r in Hreach. rewrite Hreach. by apply token_loop_break.
Qed.

Lemma generate_session_enter wrapper prompt maxTokens temperature topP topK w vocab smpl w0 :
  loop_entry wrapper prompt temperature topP topK w = Some (vocab, smpl, w0) →
  generate_session wrapper prompt maxTokens temperature topP topK w
  = let r := token_loop (Z.to_nat maxTokens) (generate_step wrapper vocab smpl)
               maxTokens 0 [] w0 in
    (c_str r.1.2, (native_ (llama_sampler_free smpl) (Sampler_free smpl) r.2).2).
Proof.
  unfold loop_entry, generate_session, tokenize_text. st.
  case_decide; [done|]. case_decide; [done|]. by intros [= <- <- <-].
Qed.

Lemma generateStream_session_enter wrapper prompt maxTokens temperature topP topK w
    vocab smpl w0 :
  loop_entry wrapper prompt temperature topP topK w = Some (vocab, smpl, w0) →
  generateStream_session wrapper prompt maxTokens temperature topP topK w
  = let r := token_loop (Z.to_nat maxTokens) (generateStream_step wrapper vocab smpl)
               maxTokens 0 [] w0 in
    (tt, deliver onComplete (native_ (llama_sampler_free smpl) (Sampler_free smpl) r.2).2).
Proof.
  unfold loop_entry, generateStream_session, tokenize_text. st.
  case_decide; [done|]. case_decide; [done|]. by intros [= <- <- <-].
Qed.

(** The streaming loop body delivers nothing but [onToken]. *)
Lemma generateStream_step_sink wrapper vocab smpl result w :
  ∃ texts, w_sink (generateStream_step wrapper vocab smpl result w).2
           = w_sink w ++ (onToken <$> texts).
Proof.
  unfold generateStream_step, decode_next. st.
  destruct (llama_vocab_is_eog _ _ _); [by exists []; rewrite app_nil_r|].
  case_decide.
  - destruct (find im_end _); [by exists []; rewrite app_nil_r|].
    st. eexists [_]. by case_decide.
  - exists []. rewrite app_nil_r. by case_decide.
Qed.

Lemma token_loop_sink step maxTokens :
  (∀ result w, ∃ texts, w_sink (step result w).2 = w_sink w ++ (onToken <$> texts)) →
  ∀ fuel n result w,
    ∃ texts, w_sink (token_loop fuel step maxTokens n result w).2
             = w_sink w ++ (onToken <$> texts).
Proof.
  intros Hstep. induction fuel as [|fuel IH]; intros n result w; simpl.
  - exists []. by rewrite app_nil_r.
  - case_decide; [|exists []; by rewrite app_nil_r]. st.
    destruct (Hstep result w) as [texts1 H1].
    destruct (step result w).1.1.
    + destruct (IH (n + 1) (step result w).1.2 (step result w).2) as [texts2 H2].
      exists (texts1 ++ texts2). by rewrite H2, H1, fmap_app, app_assoc.
    + by exists texts1.
Qed.

Lemma generateStream_session_sink wrapper prompt maxTokens temperature topP topK w :
  sink_protocol
    (sink_since w (generateStream_session wrapper prompt maxTokens temperature topP topK w).2).
Proof.
  unfold generateStream_session, tokenize_text, sink_since. st.
  case_decide.
  { st. rewrite drop_app_length. by exists [], (onError "Failed to tokenize prompt"). }
  case_decide.
  { st. rewrite drop_app_length. by exists [], (onError "Failed to decode prompt"). }
  st.
  match goal with
  | |- context [token_loop ?f ?st ?m ?n ?r ?w0] =>
      destruct (token_loop_sink st m (generateStream_step_sink _ _ _) f n r w0)
        as [texts Htexts]
  end.
  rewrite Htexts. wsimpl. rewrite <- app_assoc, drop_app_length.
  by exists texts, onComplete.
Qed.

Lemma loop_entry_sink wrapper prompt temperature topP topK w vocab smpl w0 :
  loop_entry wrapper prompt temperature topP topK w = Some (vocab, smpl, w0) →
  w_sink w0 = w_sink w.
Proof.
  unfold loop_entry, tokenize_text. st.
  case_decide; [done|]. case_decide; [done|]. by intros [= <- <- <-].
Qed.

Lemma iteration_sink wrapper vocab smpl maxTokens (s s' : Z * bytes * world) :
  rtc (iteration (generateStream_step wrapper vocab smpl) maxTokens) s s' →
  ∃ texts, w_sink s'.2 = w_sink s.2 ++ (onToken <$> texts).
Proof.
  induction 1 as [s|s1 s2 s3 (_ & Hstep & _) _ [texts2 IH]].
  - exists []. by rewrite app_nil_r.
  - destruct (generateStream_step_sink wrapper vocab smpl s1.1.2 s1.2) as [texts1 H1].
    rewrite Hstep in H1. simpl in H1.
    exists (texts1 ++ texts2). by rewrite IH, H1, fmap_app, app_assoc.
Qed.

(** A pass whose [llama_decode] returns non-zero leaves the loop by
    [break], with the text of the pass kept. *)
Lemma generate_step_decode_failure wrapper vocab smpl result w c batch rc :
  last (w_calls (generate_step wrapper vocab smpl result w).2) = Some (Decode c batch rc) →
  rc ≠ 0 →
  (generate_step wrapper vocab smpl result w).1.1 = Break
  ∧ result `prefix_of` (generate_step wrapper vocab smpl result w).1.2.
Proof.
  unfold generate_step, decode_next. st.
  destruct (llama_vocab_is_eog _ _ _).
  { wsimpl. by rewrite last_snoc. }
  case_decide.
  - destruct (find im_end _).
    { wsimpl. by rewrite last_snoc. }
    st. case_decide; wsimpl; rewrite last_snoc; intros [= <- <- <-] Hrc; [|done].
    split; [done|]. by apply prefix_app_r.
  - st. case_decide; wsimpl; rewrite last_snoc; intros [= <- <- <-] Hrc; done.
Qed.

Lemma generateStream_step_decode_failure wrapper vocab smpl result w c batch rc :
  last (w_calls (generateStream_step wrapper vocab smpl result w).2)
  = Some (Decode c batch rc) →
  rc ≠ 0 →
  (generateStream_step wrapper vocab smpl result w).1.1 = Break.
Proof.
  unfold generateStream_step, decode_next. st.
  destruct (llama_vocab_is_eog _ _ _).
  { wsimpl. by rewrite last_snoc. }
  case_decide.
  - destruct (find im_end _).
    { wsimpl. by rewrite last_snoc. }
    st. case_decide; wsimpl; rewrite last_snoc; intros [= <- <- <-] Hrc; done.
  - st. case_decide; wsimpl; rewrite last_snoc; intros [= <- <- <-] Hrc; done.
Qed.

End Generation.

(** C1 (as amended). With a non-zero handle: if one of the three callback
    methods cannot be resolved the call returns without any event; if all
    are resolved and the handle is live, the call returns and the sink has
    received [onToken] events followed by exactly one terminal event. *)
Theorem generateStream_sink_protocol {F32 : Float32} {L : LlamaLib}
    modelHandle prompt maxTokens temperature topP topK callback w :
  modelHandle ≠ 0 →
  (callback_resolved callback = false →
     generateStream modelHandle prompt maxTokens temperature topP topK callback w = Some w)
  ∧ (callback_resolved callback = true →
     is_Some (deref_llama modelHandle w) →
     ∃ w',
       generateStream modelHandle prompt maxTokens temperature topP topK callback w = Some w'
       ∧ sink_protocol (sink_since w w')).
Proof.
  intros Hnz. unfold generateStream, callback_resolved.
  rewrite decide_False by done. cbv zeta.
  destruct (GetMethodID callback "onToken" _), (GetMethodID callback "onComplete" _),
    (GetMethodID callback "onError" _); simpl; split; try done.
  intros _ [wrapper ->]. simpl. eexists. split; [reflexivity|].
  apply generateStream_session_sink.
Qed.

(** C5. When the [llama_decode] of the pass entered after [n_generated]
    complete passes returns non-zero, that pass ends by [break] and the loop
    is over: [generate] returns the text accumulated up to and including
    that pass, and [generateStream] delivers [onComplete] after the
    [onToken] events already delivered, and nothing else. *)
Theorem decode_failure_ends_generation {F32 : Float32} {L : LlamaLib}
    modelHandle prompt maxTokens temperature topP topK w wrapper vocab smpl w0
    n_generated result w1 c batch rc :
  modelHandle ≠ 0 →
  deref_llama modelHandle w = Some wrapper →
  loop_entry wrapper prompt temperature topP topK w = Some (vocab, smpl, w0) →
  n_generated < maxTokens →
  rc ≠ 0 →
  (rtc (iteration (generate_step wrapper vocab smpl) maxTokens)
       (0, [], w0) (n_generated, result, w1) →
   let pass := generate_step wrapper vocab smpl result w1 in
   last (w_calls pass.2) = Some (Decode c batch rc) →
   pass.1.1 = Break
   ∧ result `prefix_of` pass.1.2
   ∧ generate modelHandle prompt maxTokens temperature topP topK w
     = Some (c_str pass.1.2,
             (native_ (llama_sampler_free smpl) (Sampler_free smpl) pass.2).2))
  ∧ (∀ callback,
       callback_resolved callback = true →
       rtc (iteration (generateStream_step wrapper vocab smpl) maxTokens)
           (0, [], w0) (n_generated, result, w1) →
       let pass := generateStream_step wrapper vocab smpl result w1 in
       last (w_calls pass.2) = Some (Decode c batch rc) →
       pass.1.1 = Break
       ∧ ∃ w' texts,
           generateStream modelHandle prompt maxTokens temperature topP topK callback w
           = Some w'
           ∧ sink_since w pass.2 = onToken <$> texts
           ∧ sink_since w w' = (onToken <$> texts) ++ [onComplete]).
Proof.
  intros Hnz Hwrapper Hentry Hlt Hrc. split.
  - intros Hreach pass Hlast.
    destruct (generate_step_decode_failure _ _ _ _ _ _ _ _ Hlast Hrc) as [Hbreak Hprefix].
    assert (Hstep : generate_step wrapper vocab smpl result w1
                    = ((Break, pass.1.2), pass.2)).
    { subst pass. destruct (generate_step wrapper vocab smpl result w1) as [[ctl r] w2].
      simpl in *. by subst ctl. }
    pose proof (token_loop_reach_break _ _ _ _ _ _ _ _ Hreach Hlt Hstep) as Hloop.
    split; [done|]. split; [done|].
    unfold generate. rewrite decide_False, Hwrapper by done. cbn [mbind option_bind].
    rewrite (generate_session_enter _ _ _ _ _ _ _ _ _ _ Hentry). cbv zeta.
    by rewrite Hloop.
  - intros callback Hres Hreach pass Hlast.
    pose proof (generateStream_step_decode_failure _ _ _ _ _ _ _ _ Hlast Hrc) as Hbreak.
    assert (Hstep : generateStream_step wrapper vocab smpl result w1
                    = ((Break, pass.1.2), pass.2)).
    { subst pass. destruct (generateStream_step wrapper vocab smpl result w1) as [[ctl r] w2].
      simpl in *. by subst ctl. }
    split; [done|].
    pose proof (token_loop_reach_break _ _ _ _ _ _ _ _ Hreach Hlt Hstep) as Hloop.
    destruct (iteration_sink _ _ _ _ _ _ Hreach) as [texts1 Hsink1].
    destruct (generateStream_step_sink wrapper vocab smpl result w1) as [texts2 Hsink2].
    fold pass in Hsink2. simpl in Hsink1.
    rewrite (loop_entry_sink _ _ _ _ _ _ _ _ _ Hentry) in Hsink1.
    unfold callback_resolved in Hres.
    apply andb_prop in Hres as [Hres HonError]. apply andb_prop in Hres as [HonToken HonComplete].
    eexists _, (texts1 ++ texts2). split; [|split].
    + unfold generateStream. rewrite decide_False by done. cbv zeta.
      rewrite HonToken, HonComplete, HonError, Hwrapper. cbn [negb orb mbind option_bind].
      rewrite (generateStream_session_enter _ _ _ _ _ _ _ _ _ _ Hentry). cbv zeta.
      rewrite Hloop. reflexivity.
    + unfold sink_since. by rewrite Hsink2, Hsink1, <- app_assoc, drop_app_length, fmap_app.
    + unfold sink_since. st.
      by rewrite Hsink2, Hsink1, <- !app_assoc, drop_app_length, fmap_app, <- app_assoc.
Qed.

(** ** Embedding extraction *)

Section Embedding.
Context {F32 : Float32} {L : LlamaLib}.
Implicit Types (embd normalized v : list jfloat).

Lemma sum_squares_fold embd n i acc r :
  sum_squares embd n i acc = Some r →
  r = fold_left (λ a x, fadd a (fmul x x)) (take n (drop i embd)) acc.
Proof.
  revert i acc. induction n as [|n IH]; intros i acc; simpl.
  - by intros [= <-].
  - destruct (embd !! i) as [x|] eqn:Hx; simpl; [|done].
    intros Hr. apply IH in Hr. by rewrite (drop_S _ _ _ Hx).
Qed.

Lemma fill_normalized_length f embd n i normalized v :
  fill_normalized f embd n i normalized = Some v → length v = length normalized.
Proof.
  revert i normalized. induction n as [|n IH]; intros i normalized; simpl.
  - by intros [= <-].
  - destruct (embd !! i) as [x|]; simpl; [|done].
    intros Hv. apply IH in Hv. by rewrite length_insert in Hv.
Qed.

Lemma fill_normalized_spec f embd n i normalized v :
  (i + n ≤ length normalized)%nat →
  fill_normalized f embd n i normalized = Some v →
  v = take i normalized ++ (f <$> take n (drop i embd)) ++ drop (i + n) normalized.
Proof.
  revert i normalized. induction n as [|n IH]; intros i normalized Hlen; simpl.
  - intros [= <-]. by rewrite Nat.add_0_r, take_drop.
  - destruct (embd !! i) as [x|] eqn:Hx; simpl; [|done].
    intros Hv. apply IH in Hv; [|rewrite length_insert; lia]. rewrite Hv.
    rewrite (take_S_r _ _ (f x)) by (apply list_lookup_insert_eq; lia).
    rewrite take_insert_ge, drop_insert_lt by lia.
    rewrite (drop_S _ _ _ Hx), <- app_assoc. simpl.
    by replace (S (i + n)) with (i + S n)%nat by lia.
Qed.

(** The whole of lines 689-704: the result has one entry per dimension and
    is the first [n_embd] raw values, each divided by the norm when the norm
    is above zero. *)
Lemma l2_normalize_spec embd (n_embd : Z) v :
  l2_normalize embd n_embd = Some v →
  let raw := take (Z.to_nat n_embd) embd in
  let norm := sqrtf (fold_left (λ a x, fadd a (fmul x x)) raw fzero) in
  length v = Z.to_nat n_embd
  ∧ length raw = length v
  ∧ (fgt norm fzero = true → v = (λ x, fdiv x norm) <$> raw)
  ∧ (fgt norm fzero = false → v = raw).
Proof.
  intros Hv raw norm. unfold l2_normalize in Hv.
  destruct (sum_squares embd (Z.to_nat n_embd) 0 fzero) as [sq|] eqn:Hsq; [|done].
  simpl in Hv. apply sum_squares_fold in Hsq. rewrite drop_0 in Hsq. subst sq.
  fold raw in Hv. fold norm in Hv.
  assert (Hshape : ∀ f, fill_normalized f embd (Z.to_nat n_embd) 0
                          (replicate (Z.to_nat n_embd) fzero) = Some v →
                        length v = Z.to_nat n_embd ∧ v = f <$> raw).
  { intros f Hf. split.
    - apply fill_normalized_length in Hf. by rewrite length_replicate in Hf.
    - apply fill_normalized_spec in Hf; [|by rewrite length_replicate].
      rewrite drop_0 in Hf. simpl in Hf.
      by rewrite drop_ge, app_nil_r in Hf by (by rewrite length_replicate). }
  destruct (fgt norm fzero) eqn:Hgt; apply Hshape in Hv as [Hlen Hv].
  - split; [done|]. split; [by rewrite Hv, length_fmap|]. by split.
  - rewrite list_fmap_id in Hv. split; [done|]. split; [by rewrite Hv|]. by split.
Qed.

End Embedding.

(** C6 (as amended). A successful [getEmbedding] returns exactly [n_embd]
    values, the dimension [getEmbeddingDimension] reports for the handle.
    With [norm] the [sqrtf] of the running single-precision sum of squares
    of the raw values: if [norm > 0] every value is the raw value divided by
    [norm]; otherwise, and so when [norm] is exactly zero, the raw values are
    returned unchanged.  Nothing is said about the norm of the result. *)
Theorem getEmbedding_length_and_normalization {F32 : Float32} {L : LlamaLib}
    modelHandle text w v w' :
  getEmbedding modelHandle text w = Some (Some v, w') →
  ∃ wrapper embd,
    deref_embedding modelHandle w = Some wrapper
    ∧ getEmbeddingDimension modelHandle w = Some (n_embd wrapper)
    ∧ Z.of_nat (length v) = n_embd wrapper
    ∧ (llama_get_embeddings_seq (emb_ctx wrapper) 0 (w_lib w') = Some embd
       ∨ (llama_get_embeddings_seq (emb_ctx wrapper) 0 (w_lib w') = None
          ∧ llama_get_embeddings (emb_ctx wrapper) (w_lib w') = Some embd))
    ∧ let raw := take (Z.to_nat (n_embd wrapper)) embd in
      let norm := sqrtf (fold_left (λ a x, fadd a (fmul x x)) raw fzero) in
      length raw = length v
      ∧ (fgt norm fzero = true → v = (λ x, fdiv x norm) <$> raw)
      ∧ (fgt norm fzero = false → v = raw)
      ∧ (norm = fzero → v = raw).
Proof.
  unfold getEmbedding, getEmbeddingDimension. case_decide; [done|].
  destruct (deref_embedding modelHandle w) as [wrapper|] eqn:Hwrapper; [|done].
  cbn [mbind option_bind]. intros Hget. exists wrapper.
  revert Hget. unfold getEmbedding_session, tokenize_text, NewFloatArray. st.
  case_decide; [done|]. st. case_decide; [done|].
  match goal with
  | |- context [llama_get_embeddings_seq ?c ?s ?l] =>
      destruct (llama_get_embeddings_seq c s l) as [embd|] eqn:Hseq
  end; st.
  - destruct (bool_decide (0 ≤ n_embd wrapper) && _) eqn:Hnew; [|done].
    apply andb_prop in Hnew as [Hnonneg%bool_decide_eq_true _]. cbn [negb].
    destruct (l2_normalize embd (n_embd wrapper)) as [v0|] eqn:Hnorm; [|done].
    cbn [mbind option_bind]. intros [= <- <-]. exists embd. wsimpl.
    destruct (l2_normalize_spec _ _ _ Hnorm) as (Hlen & Hraw & Hpos & Hzero).
    split; [done|]. split; [done|]. split; [lia|]. split; [by left|].
    cbv zeta. split; [done|]. split; [done|]. split; [done|].
    intros Hz. apply Hzero. rewrite Hz. apply fgt_irrefl.
  - match goal with
    | |- context [llama_get_embeddings ?c ?l] =>
        destruct (llama_get_embeddings c l) as [embd|] eqn:Hall
    end; [|done].
    destruct (bool_decide (0 ≤ n_embd wrapper) && _) eqn:Hnew; [|done].
    apply andb_prop in Hnew as [Hnonneg%bool_decide_eq_true _]. cbn [negb].
    destruct (l2_normalize embd (n_embd wrapper)) as [v0|] eqn:Hnorm; [|done].
    cbn [mbind option_bind]. intros [= <- <-]. exists embd. wsimpl.
    destruct (l2_normalize_spec _ _ _ Hnorm) as (Hlen & Hraw & Hpos & Hzero).
    split; [done|]. split; [done|]. split; [lia|]. split; [by right|].
    cbv zeta. split; [done|]. split; [done|]. split; [done|].
    intros Hz. apply Hzero. rewrite Hz. apply fgt_irrefl.
Qed.

(** ** The theorems on concrete runs *)

Ltac by_decide := apply (bool_decide_unpack _); vm_compute; exact I.

Lemma failed_context_build_releases_model_witness :
  (initModel "m.gguf" 512 4 (Mock.start Mock.context_fails ∅)).1 = 0
  ∧ (initModelWithGpu "m.gguf" 512 4 true (-1) (Mock.start Mock.context_fails ∅)).1 = 0
  ∧ (initEmbeddingModel "e.gguf" 512 4 (Mock.start Mock.context_fails ∅)).1 = 0.
Proof.
  split; [|split].
  - apply (proj1 (failed_context_build_releases_model (L := Mock.lib Mock.context_fails)
                    "m.gguf" 512 4 true (-1) (Mock.start Mock.context_fails ∅) 100
                    {| n_ctx := 512; n_threads := 4; n_threads_batch := 4;
                       embeddings := false |})).
    by_decide.
  - apply (proj1 (proj2 (failed_context_build_releases_model
                    (L := Mock.lib Mock.context_fails)
                    "m.gguf" 512 4 true (-1) (Mock.start Mock.context_fails ∅) 100
                    {| n_ctx := 512; n_threads := 4; n_threads_batch := 4;
                       embeddings := false |}))).
    by_decide.
  - apply (proj2 (proj2 (failed_context_build_releases_model
                    (L := Mock.lib Mock.context_fails)
                    "e.gguf" 512 4 true (-1) (Mock.start Mock.context_fails ∅) 100
                    {| n_ctx := 512; n_threads := 4; n_threads_batch := 4;
                       embeddings := true |}))).
    by_decide.
Defined.

Lemma gpu_layers_resolution_witness :
  (negotiate_gpu (L := Mock.lib Mock.base) true (-1) = (true, 99, 99)
   ∧ ∃ ret rest,
       calls_since (Mock.start Mock.base ∅)
         (initModelWithGpu "m.gguf" 512 4 true (-1) (Mock.start Mock.base ∅)).2
       = [Backend_init; Numa_init; Load_model "m.gguf" 99 ret] ++ rest)
  ∧ isUsingGpu
      (initModelWithGpu "m.gguf" 512 4 true 32 (Mock.start Mock.cpu_only ∅)).1
      (initModelWithGpu "m.gguf" 512 4 true 32 (Mock.start Mock.cpu_only ∅)).2
    = Some false.
Proof.
  split.
  - apply (proj1 (gpu_layers_resolution (L := Mock.lib Mock.base)
                    "m.gguf" 512 4 (-1) (Mock.start Mock.base ∅))).
    + reflexivity.
    + lia.
  - apply (proj2 (gpu_layers_resolution (L := Mock.lib Mock.cpu_only)
                    "m.gguf" 512 4 32 (Mock.start Mock.cpu_only ∅))).
    reflexivity.
Defined.

Lemma gpu_load_failure_retries_on_cpu_witness :
  ∃ m2,
    loads (calls_since (Mock.start Mock.gpu_load_fails ∅)
             (initModelWithGpu "m.gguf" 512 4 true (-1)
                (Mock.start Mock.gpu_load_fails ∅)).2)
    = [Load_model "m.gguf" 99 nullptr; Load_model "m.gguf" 0 m2]
    ∧ (m2 = nullptr →
       (initModelWithGpu "m.gguf" 512 4 true (-1) (Mock.start Mock.gpu_load_fails ∅)).1 = 0)
    ∧ (m2 ≠ nullptr →
       (∀ p, New_context m2 p nullptr
             ∉ calls_since (Mock.start Mock.gpu_load_fails ∅)
                 (initModelWithGpu "m.gguf" 512 4 true (-1)
                    (Mock.start Mock.gpu_load_fails ∅)).2) →
       (initModelWithGpu "m.gguf" 512 4 true (-1) (Mock.start Mock.gpu_load_fails ∅)).1 ≠ 0
       ∧ isUsingGpu
           (initModelWithGpu "m.gguf" 512 4 true (-1) (Mock.start Mock.gpu_load_fails ∅)).1
           (initModelWithGpu "m.gguf" 512 4 true (-1) (Mock.start Mock.gpu_load_fails ∅)).2
         = Some false
       ∧ getGpuLayers
           (initModelWithGpu "m.gguf" 512 4 true (-1) (Mock.start Mock.gpu_load_fails ∅)).1
           (initModelWithGpu "m.gguf" 512 4 true (-1) (Mock.start Mock.gpu_load_fails ∅)).2
         = Some 0).
Proof.
  apply (gpu_load_failure_retries_on_cpu (L := Mock.lib Mock.gpu_load_fails)
           "m.gguf" 512 4 true (-1) (Mock.start Mock.gpu_load_fails ∅) 99).
  - lia.
  - by_decide.
Defined.

Lemma freeModel_frees_backend_witness :
  (∃ w' released,
     freeModel 1 (Mock.start Mock.base Mock.heap0) = Some w'
     ∧ calls_since (Mock.start Mock.base Mock.heap0) w' = released ++ [Backend_free]
     ∧ released = [Free_context 200; Free_model 100]
     ∧ w_heap w' = delete 1 Mock.heap0)
  ∧ backend_frees
      (calls_since (Mock.start Mock.base Mock.heap0)
         (default (Mock.start Mock.base Mock.heap0)
            (freeEmbeddingModel 2 (Mock.start Mock.base Mock.heap0)))) = 0%nat.
Proof.
  split.
  - apply (proj1 (freeModel_frees_backend (L := Mock.lib Mock.base)
                    1 (Mock.start Mock.base Mock.heap0)) Mock.session).
    + lia.
    + reflexivity.
  - apply (proj2 (freeModel_frees_backend (L := Mock.lib Mock.base)
                    2 (Mock.start Mock.base Mock.heap0))).
    reflexivity.
Defined.

Lemma free_zero_is_noop_and_freed_handle_dangles_witness :
  freeModel 0 (Mock.start Mock.base Mock.heap0) = Some (Mock.start Mock.base Mock.heap0)
  ∧ (calls_since (Mock.start Mock.base Mock.heap0)
       (default (Mock.start Mock.base Mock.heap0)
          (freeModel 1 (Mock.start Mock.base Mock.heap0)))
     = [Free_context 200; Free_model 100; Backend_free]
     ∧ freeModel 1
         (default (Mock.start Mock.base Mock.heap0)
            (freeModel 1 (Mock.start Mock.base Mock.heap0))) = None)
  ∧ (calls_since (Mock.start Mock.base Mock.heap0)
       (default (Mock.start Mock.base Mock.heap0)
          (freeEmbeddingModel 2 (Mock.start Mock.base Mock.heap0)))
     = [Free_context 201; Free_model 101]
     ∧ freeEmbeddingModel 2
         (default (Mock.start Mock.base Mock.heap0)
            (freeEmbeddingModel 2 (Mock.start Mock.base Mock.heap0))) = None).
Proof.
  split; [|split].
  - apply (proj1 (free_zero_is_noop_and_freed_handle_dangles (L := Mock.lib Mock.base))).
  - destruct (proj1 (proj2 (free_zero_is_noop_and_freed_handle_dangles
                              (L := Mock.lib Mock.base)))
                1 (Mock.start Mock.base Mock.heap0)
                (default (Mock.start Mock.base Mock.heap0)
                   (freeModel 1 (Mock.start Mock.base Mock.heap0))))
      as ((wrapper & Hlive & Hcalls & _) & _ & Hdangles).
    + lia.
    + reflexivity.
    + assert (Hsession : w_heap (Mock.start Mock.base Mock.heap0) !! 1
                         = Some (Obj_llama Mock.session)) by reflexivity.
      rewrite Hsession in Hlive. injection Hlive as <-.
      split; [exact Hcalls|exact Hdangles].
  - destruct (proj2 (proj2 (free_zero_is_noop_and_freed_handle_dangles
                              (L := Mock.lib Mock.base)))
                2 (Mock.start Mock.base Mock.heap0)
                (default (Mock.start Mock.base Mock.heap0)
                   (freeEmbeddingModel 2 (Mock.start Mock.base Mock.heap0))))
      as ((wrapper & Hlive & Hcalls & _) & _ & Hdangles).
    + lia.
    + reflexivity.
    + assert (Hsession : w_heap (Mock.start Mock.base Mock.heap0) !! 2
                         = Some (Obj_embedding Mock.emb_session)) by reflexivity.
      rewrite Hsession in Hlive. injection Hlive as <-.
      split; [exact Hcalls|exact Hdangles].
Defined.

(** C2 (as stated) fails: after [freeModel 1] has released the session at
    address 1, a second [freeModel 1] is not a no-op; likewise for
    [freeEmbeddingModel 2]. *)
Lemma second_free_is_not_a_noop :
  ¬ second_call_is_noop freeModel 1 (Mock.start Mock.base Mock.heap0)
  ∧ ¬ second_call_is_noop freeEmbeddingModel 2 (Mock.start Mock.base Mock.heap0).
Proof.
  split; intros Hnoop.
  - specialize (Hnoop (default (Mock.start Mock.base Mock.heap0)
                         (freeModel 1 (Mock.start Mock.base Mock.heap0))) eq_refl).
    assert (Hfault : freeModel 1
      (default (Mock.start Mock.base Mock.heap0)
         (freeModel 1 (Mock.start Mock.base Mock.heap0))) = None) by reflexivity.
    rewrite Hfault in Hnoop. discriminate.
  - specialize (Hnoop (default (Mock.start Mock.base Mock.heap0)
                         (freeEmbeddingModel 2 (Mock.start Mock.base Mock.heap0))) eq_refl).
    assert (Hfault : freeEmbeddingModel 2
      (default (Mock.start Mock.base Mock.heap0)
         (freeEmbeddingModel 2 (Mock.start Mock.base Mock.heap0))) = None) by reflexivity.
    rewrite Hfault in Hnoop. discriminate.
Qed.

Lemma generateStream_sink_protocol_witness :
  generateStream 1 (lit "hello") 16 fzero fzero 40 Mock.callback_without_onError
    (Mock.start Mock.base Mock.heap0) = Some (Mock.start Mock.base Mock.heap0)
  ∧ ∃ w',
      generateStream 1 (lit "hello") 16 fzero fzero 40 Mock.callback
        (Mock.start Mock.base Mock.heap0) = Some w'
      ∧ sink_protocol (sink_since (Mock.start Mock.base Mock.heap0) w').
Proof.
  split.
  - apply (generateStream_sink_protocol (L := Mock.lib Mock.base)
             1 (lit "hello") 16 fzero fzero 40 Mock.callback_without_onError
             (Mock.start Mock.base Mock.heap0)).
    + lia.
    + reflexivity.
  - apply (generateStream_sink_protocol (L := Mock.lib Mock.base)
             1 (lit "hello") 16 fzero fzero 40 Mock.callback
             (Mock.start Mock.base Mock.heap0)).
    + lia.
    + reflexivity.
    + eexists. reflexivity.
Defined.

(** C1 (as stated) fails: with handle 0, and with a callback whose class
    lacks [onError], [generateStream] returns without having delivered any
    event, so no terminal event reaches the sink. *)
Lemma generateStream_returns_without_event :
  (∃ w', generateStream 0 (lit "hello") 16 fzero fzero 40 Mock.callback
           (Mock.start Mock.base Mock.heap0) = Some w'
         ∧ ¬ sink_protocol (sink_since (Mock.start Mock.base Mock.heap0) w'))
  ∧ (∃ w', generateStream 1 (lit "hello") 16 fzero fzero 40 Mock.callback_without_onError
             (Mock.start Mock.base Mock.heap0) = Some w'
           ∧ ¬ sink_protocol (sink_since (Mock.start Mock.base Mock.heap0) w')).
Proof.
  split; exists (Mock.start Mock.base Mock.heap0); (split; [reflexivity|]);
    intros (texts & terminal & Hev & _); by destruct texts.
Qed.

Lemma decode_failure_ends_generation_witness :
  ((generate_step Mock.session 100 7 (lit "Hi")
      (Mock.at_state Mock.decode_fails ([1; 1; 1], [1])
         [Sampler_chain 7; Memory_clear 200; Decode 200 [1] 0;
          Sample 7 200 1; Decode 200 [1] 0] [])).1.1 = Break
   ∧ fst <$> generate 1 (lit "hello") 16 fzero fzero 40
               (Mock.start Mock.decode_fails Mock.heap0) = Some (lit "HiHi"))
  ∧ ((generateStream_step Mock.session 100 7 (lit "Hi")
        (Mock.at_state Mock.decode_fails ([1; 1; 1], [1])
           [Sampler_chain 7; Memory_clear 200; Decode 200 [1] 0;
            Sample 7 200 1; Decode 200 [1] 0] [onToken (lit "Hi")])).1.1 = Break
     ∧ ∃ w' texts,
         generateStream 1 (lit "hello") 16 fzero fzero 40 Mock.callback
           (Mock.start Mock.decode_fails Mock.heap0) = Some w'
         ∧ sink_since (Mock.start Mock.decode_fails Mock.heap0)
             (Mock.at_state Mock.decode_fails ([1; 1], [])
                [Sampler_chain 7; Memory_clear 200; Decode 200 [1] 0;
                 Sample 7 200 1; Decode 200 [1] 0; Sample 7 200 1; Decode 200 [1] 1]
                [onToken (lit "Hi"); onToken (lit "Hi")])
           = onToken <$> texts
         ∧ sink_since (Mock.start Mock.decode_fails Mock.heap0) w'
           = (onToken <$> texts) ++ [onComplete]).
Proof.
  split.
  - destruct (decode_failure_ends_generation (L := Mock.lib Mock.decode_fails)
      1 (lit "hello") 16 fzero fzero 40 (Mock.start Mock.decode_fails Mock.heap0)
      Mock.session 100 7
      (Mock.at_state Mock.decode_fails ([1; 1; 1; 1], [0; 1])
         [Sampler_chain 7; Memory_clear 200; Decode 200 [1] 0] [])
      1 (lit "Hi")
      (Mock.at_state Mock.decode_fails ([1; 1; 1], [1])
         [Sampler_chain 7; Memory_clear 200; Decode 200 [1] 0;
          Sample 7 200 1; Decode 200 [1] 0] [])
      200 [1] 1) as [Hblocking _];
      [lia|reflexivity|reflexivity|lia|lia|].
    destruct Hblocking as (Hbreak & _ & Hgen).
    + apply rtc_once. split; [simpl; lia|split; reflexivity].
    + reflexivity.
    + split; [exact Hbreak|]. rewrite Hgen. reflexivity.
  - destruct (decode_failure_ends_generation (L := Mock.lib Mock.decode_fails)
      1 (lit "hello") 16 fzero fzero 40 (Mock.start Mock.decode_fails Mock.heap0)
      Mock.session 100 7
      (Mock.at_state Mock.decode_fails ([1; 1; 1; 1], [0; 1])
         [Sampler_chain 7; Memory_clear 200; Decode 200 [1] 0] [])
      1 (lit "Hi")
      (Mock.at_state Mock.decode_fails ([1; 1; 1], [1])
         [Sampler_chain 7; Memory_clear 200; Decode 200 [1] 0;
          Sample 7 200 1; Decode 200 [1] 0] [onToken (lit "Hi")])
      200 [1] 1) as [_ Hstream];
      [lia|reflexivity|reflexivity|lia|lia|].
    apply (Hstream Mock.callback).
    + reflexivity.
    + apply rtc_once. split; [simpl; lia|split; reflexivity].
    + reflexivity.
Defined.

Example l2_normalize_3_4 :
  l2_normalize (F32 := Binary32.float32) [Binary32.three; Binary32.four] 2
  = Some [Binary32.three_fifths; Binary32.four_fifths].
Proof. vm_compute. reflexivity. Qed.

Example l2_normalize_zero :
  l2_normalize (F32 := Binary32.float32) [S754_zero false; S754_zero false] 2
  = Some [S754_zero false; S754_zero false].
Proof. vm_compute. reflexivity. Qed.

(** Outside the tolerance remark of the specification: when the sum of
    squares overflows, the norm is +infinity and every finite value divided
    by it is zero. *)
Example l2_normalize_overflow :
  l2_normalize (F32 := Binary32.float32) [Binary32.flt_max; Binary32.flt_max] 2
  = Some [S754_zero false; S754_zero false].
Proof. vm_compute. reflexivity. Qed.

Lemma getEmbedding_length_and_normalization_witness :
  ∃ v w',
    getEmbedding 2 (lit "hello") (Mock.start Mock.embeds Mock.heap0) = Some (Some v, w')
    ∧ v = [Binary32.three_fifths; Binary32.four_fifths]
    ∧ getEmbeddingDimension 2 (Mock.start Mock.embeds Mock.heap0) = Some 2
    ∧ Z.of_nat (length v) = 2.
Proof.
  exists [Binary32.three_fifths; Binary32.four_fifths],
    (Mock.at_state Mock.embeds ([], []) [Memory_clear 201; Decode 201 [1] 0] []).
  assert (Hrun : getEmbedding 2 (lit "hello") (Mock.start Mock.embeds Mock.heap0)
                 = Some (Some [Binary32.three_fifths; Binary32.four_fifths],
                         Mock.at_state Mock.embeds ([], [])
                           [Memory_clear 201; Decode 201 [1] 0] []))
    by reflexivity.
  destruct (getEmbedding_length_and_normalization (L := Mock.lib Mock.embeds)
              _ _ _ _ _ Hrun) as (wrapper & embd & Hwrapper & Hdim & Hlen & _).
  injection Hwrapper as <-.
  split; [exact Hrun|]. split; [reflexivity|]. split; [exact Hdim|exact Hlen].
Defined.

(** C6 (as stated) fails: a raw vector whose Euclidean norm is strictly
    positive need not come back with norm 1.  When the sum of squares
    overflows, the computed norm is +infinity and every value is divided down
    to zero; when every square underflows, the computed norm is 0 and the raw
    values come back as they are. *)
Lemma getEmbedding_result_not_unit_norm :
  (∃ q v w',
     Binary32.norm_squared [Binary32.flt_max; Binary32.flt_max] = Some q ∧ (0 < q)%Q
     ∧ getEmbedding 2 (lit "hello") (Mock.start Mock.overflows Mock.heap0)
       = Some (Some v, w')
     ∧ v = [S754_zero false; S754_zero false]
     ∧ ¬ Binary32.unit_norm_within_tolerance v)
  ∧ (∃ q v w',
       Binary32.norm_squared [Binary32.flt_true_min; Binary32.flt_true_min] = Some q
       ∧ (0 < q)%Q
       ∧ getEmbedding 2 (lit "hello") (Mock.start Mock.underflows Mock.heap0)
         = Some (Some v, w')
       ∧ v = [Binary32.flt_true_min; Binary32.flt_true_min]
       ∧ ¬ Binary32.unit_norm_within_tolerance v).
Proof.
  split.
  - exists (default (0 # 1)%Q
              (Binary32.norm_squared [Binary32.flt_max; Binary32.flt_max])),
      [S754_zero false; S754_zero false],
      (Mock.at_state Mock.overflows ([], []) [Memory_clear 201; Decode 201 [1] 0] []).
    split; [reflexivity|]. split; [by vm_compute|]. split; [reflexivity|].
    split; [reflexivity|].
    intros (q & Hq & Hlow & _). injection Hq as <-. by vm_compute in Hlow.
  - exists (default (0 # 1)%Q
              (Binary32.norm_squared [Binary32.flt_true_min; Binary32.flt_true_min])),
      [Binary32.flt_true_min; Binary32.flt_true_min],
      (Mock.at_state Mock.underflows ([], []) [Memory_clear 201; Decode 201 [1] 0] []).
    split; [reflexivity|]. split; [by vm_compute|]. split; [reflexivity|].
    split; [reflexivity|].
    intros (q & Hq & Hlow & _). injection Hq as <-. by vm_compute in Hlow.
Qed.

(** ** The footprint of a generation run *)

Section Footprint.
Context {F32 : Float32} {L : LlamaLib}.
Implicit Types (w : world) (result : bytes) (step : bytes → St (loop_ctl * bytes)).

Lemma samples_drawn_app (k1 k2 : list native_call) :
  samples_drawn (k1 ++ k2) = (samples_drawn k1 + samples_drawn k2)%nat.
Proof. unfold samples_drawn. by rewrite filter_app, length_app. Qed.

Lemma tokens_delivered_app (e1 e2 : list sink_event) :
  tokens_delivered (e1 ++ e2) = (tokens_delivered e1 + tokens_delivered e2)%nat.
Proof. unfold tokens_delivered. by rewrite filter_app, length_app. Qed.

Lemma tokens_delivered_onToken (texts : list bytes) :
  tokens_delivered (onToken <$> texts) = length texts.
Proof.
  unfold tokens_delivered. induction texts as [|t texts IH]; [done|].
  rewrite fmap_cons, filter_cons_True by done. simpl. by rewrite IH.
Qed.

Lemma sampler_calls_token_calls (k : list native_call) :
  Forall (λ c, is_token_call c = true) k → sampler_calls k = [].
Proof.
  unfold sampler_calls. induction 1 as [|c k Hc _ IH]; [done|].
  rewrite filter_cons_False; [done|]. destruct c; simpl in *; congruence.
Qed.

Lemma generate_step_footprint wrapper vocab smpl :
  pass_footprint (generate_step wrapper vocab smpl).
Proof.
  intros result w. unfold generate_step, decode_next. st.
  destruct (llama_vocab_is_eog _ _ _).
  { eexists [_], []. st. rewrite app_nil_r. repeat split; by repeat constructor. }
  case_decide.
  - destruct (find im_end _).
    { eexists [_], []. st. rewrite app_nil_r. repeat split; by repeat constructor. }
    st. case_decide; st; eexists [_; _], []; rewrite app_nil_r, <- app_assoc;
      repeat split; by repeat constructor.
  - st. case_decide; st; eexists [_; _], []; rewrite app_nil_r, <- app_assoc;
      repeat split; by repeat constructor.
Qed.

Lemma generateStream_step_footprint wrapper vocab smpl :
  pass_footprint (generateStream_step wrapper vocab smpl).
Proof.
  intros result w. unfold generateStream_step, decode_next. st.
  destruct (llama_vocab_is_eog _ _ _).
  { eexists [_], []. st. rewrite app_nil_r. repeat split; by repeat constructor. }
  case_decide.
  - destruct (find im_end _).
    { eexists [_], []. st. rewrite app_nil_r. repeat split; by repeat constructor. }
    st. case_decide; st; eexists [_; _], [_]; rewrite <- app_assoc;
      repeat split; by repeat constructor.
  - st. case_decide; st; eexists [_; _], []; rewrite app_nil_r, <- app_assoc;
      repeat split; by repeat constructor.
Qed.

(** What a whole loop adds. *)
Lemma token_loop_footprint step maxTokens :
  pass_footprint step →
  ∀ fuel n result w, ∃ k texts,
    w_calls (token_loop fuel step maxTokens n result w).2 = w_calls w ++ k
    ∧ w_sink (token_loop fuel step maxTokens n result w).2 = w_sink w ++ (onToken <$> texts)
    ∧ Forall (λ c, is_token_call c = true) k
    ∧ (samples_drawn k ≤ Z.to_nat (maxTokens - n))%nat
    ∧ (length texts ≤ samples_drawn k)%nat
    ∧ w_heap (token_loop fuel step maxTokens n result w).2 = w_heap w
    ∧ w_backend_initialized (token_loop fuel step maxTokens n result w).2
      = w_backend_initialized w.
Proof.
  intros Hstep. induction fuel as [|fuel IH]; intros n result w; simpl.
  - exists [], []. rewrite !app_nil_r. repeat split; try done. unfold samples_drawn; simpl; lia.
  - case_decide as Hlt.
    2:{ exists [], []. rewrite !app_nil_r. repeat split; try done.
        unfold samples_drawn; simpl; lia. }
    st. destruct (Hstep result w) as (k1 & t1 & Hc1 & Hs1 & Hf1 & Hn1 & Ht1 & Hh1 & Hb1).
    destruct (step result w).1.1.
    + destruct (IH (n + 1) (step result w).1.2 (step result w).2)
        as (k2 & t2 & Hc2 & Hs2 & Hf2 & Hn2 & Ht2 & Hh2 & Hb2).
      exists (k1 ++ k2), (t1 ++ t2).
      rewrite Hc2, Hc1, Hs2, Hs1, Hh2, Hh1, Hb2, Hb1, fmap_app, !app_assoc.
      rewrite samples_drawn_app, length_app.
      repeat split; try done; [by apply Forall_app|lia|lia].
    + exists k1, t1. repeat split; try done; lia.
Qed.

End Footprint.

Section Sessions.
Context {F32 : Float32} {L : LlamaLib}.
Implicit Types (w : world) (result : bytes) (step : bytes → St (loop_ctl * bytes)).

Lemma calls_since_refl w : calls_since w w = [].
Proof. unfold calls_since. apply drop_all. Qed.

Lemma sink_since_refl w : sink_since w w = [].
Proof. unfold sink_since. apply drop_all. Qed.

Lemma generate_step_sink wrapper vocab smpl result w :
  w_sink (generate_step wrapper vocab smpl result w).2 = w_sink w.
Proof.
  unfold generate_step, decode_next. st.
  destruct (llama_vocab_is_eog _ _ _); [done|].
  case_decide; [destruct (find im_end _); [done|]|]; st; by case_decide.
Qed.

Lemma token_loop_world_inv (P : world → Prop) step maxTokens :
  (∀ result w, P w → P (step result w).2) →
  ∀ fuel n result w, P w → P (token_loop fuel step maxTokens n result w).2.
Proof.
  intros Hstep. induction fuel as [|fuel IH]; intros n result w HP; simpl; [done|].
  case_decide; [|done]. st.
  destruct (step result w).1.1; [apply IH|]; by apply Hstep.
Qed.

Lemma generate_session_shape wrapper prompt maxTokens temperature topP topK w :
  let r := generate_session wrapper prompt maxTokens temperature topP topK w in
  w_heap r.2 = w_heap w
  ∧ w_backend_initialized r.2 = w_backend_initialized w
  ∧ w_sink r.2 = w_sink w
  ∧ match loop_entry wrapper prompt temperature topP topK w with
    | None =>
        r.1 = []
        ∧ (r.2 = w
           ∨ ∃ smpl toks rc,
               rc ≠ 0
               ∧ calls_since w r.2 = prompt_calls wrapper smpl toks rc ++ [Sampler_free smpl])
    | Some (vocab, smpl, w0) =>
        ∃ toks k,
          calls_since w r.2 = prompt_calls wrapper smpl toks 0 ++ k ++ [Sampler_free smpl]
          ∧ Forall (λ c, is_token_call c = true) k
          ∧ (samples_drawn k ≤ Z.to_nat maxTokens)%nat
    end.
Proof.
  unfold generate_session, loop_entry, tokenize_text, prompt_calls. st.
  case_decide; [by repeat split; try left|].
  case_decide as Hrc.
  { st. repeat split; try done. right. eexists _, _, _. split; [exact Hrc|].
    trace_norm. reflexivity. }
  st.
  match goal with
  | |- context [token_loop ?f ?stp ?m ?n ?r ?w0] =>
      destruct (token_loop_footprint stp m (generate_step_footprint _ _ _) f n r w0)
        as (k & texts & Hc & _ & Hf & Hn & _ & Hh & Hb);
      pose proof (token_loop_world_inv (λ w', w_sink w' = w_sink w) stp m
                    (λ r' w' Hw, eq_trans (generate_step_sink _ _ _ r' w') Hw)
                    f n r w0 eq_refl) as Hs;
      remember (token_loop f stp m n r w0) as run eqn:Hrun; clear Hrun
  end.
  wsimpl. rewrite Hh, Hb, Hs. repeat split; try done.
  eexists _, k. unfold calls_since. wsimpl. rewrite Hc.
  rewrite <- !app_assoc. simpl. rewrite drop_app_length.
  split; [|split; [done|]].
  - f_equal. f_equal. f_equal. by rewrite Hrc.
  - by rewrite Z.sub_0_r in Hn.
Qed.

Lemma generateStream_session_shape wrapper prompt maxTokens temperature topP topK w :
  let r := generateStream_session wrapper prompt maxTokens temperature topP topK w in
  w_heap r.2 = w_heap w
  ∧ w_backend_initialized r.2 = w_backend_initialized w
  ∧ match loop_entry wrapper prompt temperature topP topK w with
    | None =>
        (calls_since w r.2 = []
         ∧ sink_since w r.2 = [onError "Failed to tokenize prompt"])
        ∨ (∃ smpl toks rc,
             rc ≠ 0
             ∧ calls_since w r.2 = prompt_calls wrapper smpl toks rc ++ [Sampler_free smpl]
             ∧ sink_since w r.2 = [onError "Failed to decode prompt"])
    | Some (vocab, smpl, w0) =>
        ∃ toks k texts,
          calls_since w r.2 = prompt_calls wrapper smpl toks 0 ++ k ++ [Sampler_free smpl]
          ∧ sink_since w r.2 = (onToken <$> texts) ++ [onComplete]
          ∧ Forall (λ c, is_token_call c = true) k
          ∧ (samples_drawn k ≤ Z.to_nat maxTokens)%nat
          ∧ (length texts ≤ samples_drawn k)%nat
    end.
Proof.
  unfold generateStream_session, loop_entry, tokenize_text, prompt_calls. st.
  case_decide.
  { st. repeat split; try done. left. unfold calls_since, sink_since. wsimpl.
    by rewrite drop_all, drop_app_length. }
  case_decide as Hrc.
  { st. repeat split; try done. right. eexists _, _, _. split; [exact Hrc|].
    trace_norm. done. }
  st.
  match goal with
  | |- context [token_loop ?f ?stp ?m ?n ?r ?w0] =>
      destruct (token_loop_footprint stp m (generateStream_step_footprint _ _ _) f n r w0)
        as (k & texts & Hc & Hs & Hf & Hn & Ht & Hh & Hb);
      remember (token_loop f stp m n r w0) as run eqn:Hrun; clear Hrun
  end.
  wsimpl. rewrite Hh, Hb. repeat split; try done.
  eexists _, k, texts. unfold calls_since, sink_since. wsimpl. rewrite Hc, Hs.
  rewrite <- !app_assoc. simpl. rewrite !drop_app_length.
  split; [|split; [done|split; [done|split; [|done]]]].
  - f_equal. f_equal. f_equal. by rewrite Hrc.
  - by rewrite Z.sub_0_r in Hn.
Qed.

End Sessions.

Section Calls.
Context {F32 : Float32} {L : LlamaLib}.
Implicit Types (w : world).

(** The ways [generate] and [generateStream] can run. *)
Lemma generate_cases modelHandle prompt maxTokens temperature topP topK w text w' :
  generate modelHandle prompt maxTokens temperature topP topK w = Some (text, w') →
  (modelHandle = 0 ∧ text = [] ∧ w' = w)
  ∨ ∃ wrapper,
      modelHandle ≠ 0 ∧ deref_llama modelHandle w = Some wrapper
      ∧ generate_session wrapper prompt maxTokens temperature topP topK w = (text, w').
Proof.
  unfold generate. case_decide.
  - intros [= <- <-]. by left.
  - destruct (deref_llama modelHandle w) as [wrapper|]; [|done].
    cbn [mbind option_bind]. intros [= Hs]. right. by exists wrapper.
Qed.

Lemma generateStream_cases modelHandle prompt maxTokens temperature topP topK callback w w' :
  generateStream modelHandle prompt maxTokens temperature topP topK callback w = Some w' →
  ((modelHandle = 0 ∨ callback_resolved callback = false) ∧ w' = w)
  ∨ ∃ wrapper,
      modelHandle ≠ 0 ∧ callback_resolved callback = true
      ∧ deref_llama modelHandle w = Some wrapper
      ∧ (generateStream_session wrapper prompt maxTokens temperature topP topK w).2 = w'.
Proof.
  unfold generateStream, callback_resolved. case_decide.
  - intros [= <-]. left. split; [by left|done].
  - cbv zeta.
    destruct (GetMethodID callback "onToken" _), (GetMethodID callback "onComplete" _),
      (GetMethodID callback "onError" _); simpl;
      try (intros [= <-]; left; split; [by right|done]).
    destruct (deref_llama modelHandle w) as [wrapper|]; [|done].
    cbn [mbind option_bind]. intros [= Hs]. right. by exists wrapper.
Qed.

Lemma samples_drawn_run wrapper smpl toks rc k tail :
  is_sample tail = false →
  samples_drawn (prompt_calls wrapper smpl toks rc ++ k ++ [tail]) = samples_drawn k.
Proof.
  intros Htail. unfold prompt_calls. rewrite !samples_drawn_app.
  unfold samples_drawn at 1 3. simpl. rewrite filter_cons_False by by rewrite Htail.
  simpl. lia.
Qed.

Lemma generate_session_no_budget wrapper prompt maxTokens temperature topP topK w :
  maxTokens ≤ 0 →
  (generate_session wrapper prompt maxTokens temperature topP topK w).1 = [].
Proof.
  intros Hmax. unfold generate_session, tokenize_text. st.
  case_decide; [done|]. case_decide; [done|].
  by replace (Z.to_nat maxTokens) with 0%nat by lia.
Qed.

End Calls.

Section Bounds.
Context {F32 : Float32} {L : LlamaLib}.

Lemma generate_draw_bound modelHandle prompt maxTokens temperature topP topK w text w' :
  generate modelHandle prompt maxTokens temperature topP topK w = Some (text, w') →
  (samples_drawn (calls_since w w') ≤ Z.to_nat maxTokens)%nat.
Proof.
  revert text w'.
  - intros text w' [(_ & _ & ->)|(wrapper & _ & _ & Hs)]%generate_cases.
    { rewrite calls_since_refl. unfold samples_drawn. simpl. lia. }
    pose proof (generate_session_shape wrapper prompt maxTokens temperature topP topK w)
      as Hshape.
    rewrite Hs in Hshape. cbv zeta in Hshape. cbn [fst snd] in Hshape.
    destruct Hshape as (_ & _ & _ & Hshape).
    destruct (loop_entry _ _ _ _ _ _) as [[[vocab smpl] w0]|].
    + destruct Hshape as (toks & k & -> & _ & Hn). by rewrite samples_drawn_run.
    + destruct Hshape as (_ & [->|(smpl & toks & rc & _ & ->)]).
      * rewrite calls_since_refl. unfold samples_drawn. simpl. lia.
      * unfold samples_drawn. simpl. lia.
Qed.

Lemma generateStream_draw_bound modelHandle prompt maxTokens temperature topP topK
    callback w w' :
  generateStream modelHandle prompt maxTokens temperature topP topK callback w = Some w' →
  (samples_drawn (calls_since w w') ≤ Z.to_nat maxTokens)%nat
  ∧ (tokens_delivered (sink_since w w') ≤ samples_drawn (calls_since w w'))%nat.
Proof.
  revert callback w'.
  - intros callback w' [(_ & ->)|(wrapper & _ & _ & _ & Hs)]%generateStream_cases.
    { rewrite calls_since_refl, sink_since_refl. unfold samples_drawn, tokens_delivered.
      simpl. lia. }
    pose proof (generateStream_session_shape wrapper prompt maxTokens temperature topP topK w)
      as Hshape.
    cbv zeta in Hshape. rewrite Hs in Hshape.
    destruct Hshape as (_ & _ & Hshape).
    destruct (loop_entry _ _ _ _ _ _) as [[[vocab smpl] w0]|].
    + destruct Hshape as (toks & k & texts & -> & -> & _ & Hn & Ht).
      rewrite samples_drawn_run, tokens_delivered_app, tokens_delivered_onToken by done.
      unfold tokens_delivered at 1. simpl. lia.
    + destruct Hshape as [[-> ->]|(smpl & toks & rc & _ & -> & ->)];
        unfold samples_drawn, tokens_delivered; simpl; lia.
Qed.

End Bounds.

(** X1. Neither generation function draws more than [maxTokens] tokens, and
    the streaming one delivers at most one [onToken] per token drawn. *)
Theorem generation_draws_at_most_maxTokens {F32 : Float32} {L : LlamaLib}
    modelHandle prompt maxTokens temperature topP topK w :
  (∀ text w',
     generate modelHandle prompt maxTokens temperature topP topK w = Some (text, w') →
     (samples_drawn (calls_since w w') ≤ Z.to_nat maxTokens)%nat)
  ∧ (∀ callback w',
       generateStream modelHandle prompt maxTokens temperature topP topK callback w
       = Some w' →
       (samples_drawn (calls_since w w') ≤ Z.to_nat maxTokens)%nat
       ∧ (tokens_delivered (sink_since w w') ≤ samples_drawn (calls_since w w'))%nat).
Proof.
  split.
  - intros text w' Hrun. by eapply generate_draw_bound.
  - intros callback w' Hrun. by eapply generateStream_draw_bound.
Qed.

(** X2. With [maxTokens <= 0] no token is drawn: [generate] returns the empty
    text and [generateStream] delivers no [onToken]. *)
Theorem nonpositive_maxTokens_generates_nothing {F32 : Float32} {L : LlamaLib}
    modelHandle prompt maxTokens temperature topP topK w :
  maxTokens ≤ 0 →
  (∀ text w',
     generate modelHandle prompt maxTokens temperature topP topK w = Some (text, w') →
     text = [] ∧ samples_drawn (calls_since w w') = 0%nat)
  ∧ (∀ callback w',
       generateStream modelHandle prompt maxTokens temperature topP topK callback w
       = Some w' →
       tokens_delivered (sink_since w w') = 0%nat
       ∧ samples_drawn (calls_since w w') = 0%nat).
Proof.
  intros Hmax.
  split.
  - intros text w' Hrun. pose proof (generate_draw_bound _ _ _ _ _ _ _ _ _ Hrun) as Hgen.
    split; [|lia].
    apply generate_cases in Hrun as [(_ & -> & _)|(wrapper & _ & _ & Hs)]; [done|].
    rewrite <- (generate_session_no_budget wrapper prompt maxTokens temperature topP topK w)
      by done.
    by rewrite Hs.
  - intros callback w' Hrun.
    pose proof (generateStream_draw_bound _ _ _ _ _ _ _ _ _ Hrun) as Hstream. lia.
Qed.

Section Paths.
Context {F32 : Float32} {L : LlamaLib}.
Implicit Types (w : world).

Lemma sampler_calls_run wrapper smpl toks rc k :
  Forall (λ c, is_token_call c = true) k →
  sampler_balanced (prompt_calls wrapper smpl toks rc ++ k ++ [Sampler_free smpl]).
Proof.
  intros Hk. right. exists smpl. split.
  - unfold sampler_calls, prompt_calls. rewrite !filter_app.
    fold (sampler_calls k). rewrite (sampler_calls_token_calls k Hk). reflexivity.
  - by rewrite !app_assoc, last_snoc.
Qed.

Lemma generate_session_balanced wrapper prompt maxTokens temperature topP topK w :
  sampler_balanced
    (calls_since w (generate_session wrapper prompt maxTokens temperature topP topK w).2).
Proof.
  destruct (generate_session_shape wrapper prompt maxTokens temperature topP topK w)
    as (_ & _ & _ & Hshape).
  destruct (loop_entry _ _ _ _ _ _) as [[[vocab smpl] w0]|].
  - destruct Hshape as (toks & k & -> & Hk & _). by apply sampler_calls_run.
  - destruct Hshape as (_ & [->|(smpl & toks & rc & _ & ->)]).
    + left. by rewrite calls_since_refl.
    + apply (sampler_calls_run _ _ _ _ []). constructor.
Qed.

Lemma generateStream_session_balanced wrapper prompt maxTokens temperature topP topK w :
  sampler_balanced
    (calls_since w
       (generateStream_session wrapper prompt maxTokens temperature topP topK w).2).
Proof.
  destruct (generateStream_session_shape wrapper prompt maxTokens temperature topP topK w)
    as (_ & _ & Hshape).
  destruct (loop_entry _ _ _ _ _ _) as [[[vocab smpl] w0]|].
  - destruct Hshape as (toks & k & texts & -> & _ & Hk & _). by apply sampler_calls_run.
  - destruct Hshape as [[-> _]|(smpl & toks & rc & _ & -> & _)].
    + by left.
    + apply (sampler_calls_run _ _ _ _ []). constructor.
Qed.

End Paths.

(** X3. Every sampler chain a generation call creates is freed by that call,
    on every path: the run either makes no sampler call, or creates one chain
    and frees it as its last library call. *)
Theorem sampler_released_on_every_path {F32 : Float32} {L : LlamaLib}
    modelHandle prompt maxTokens temperature topP topK w :
  (∀ text w',
     generate modelHandle prompt maxTokens temperature topP topK w = Some (text, w') →
     sampler_balanced (calls_since w w'))
  ∧ (∀ callback w',
       generateStream modelHandle prompt maxTokens temperature topP topK callback w
       = Some w' →
       sampler_balanced (calls_since w w')).
Proof.
  split.
  - intros text w' [(_ & _ & ->)|(wrapper & _ & _ & Hs)]%generate_cases.
    + left. by rewrite calls_since_refl.
    + replace w' with (generate_session wrapper prompt maxTokens temperature topP topK w).2
        by by rewrite Hs.
      apply generate_session_balanced.
  - intros callback w' [(_ & ->)|(wrapper & _ & _ & _ & <-)]%generateStream_cases.
    + left. by rewrite calls_since_refl.
    + apply generateStream_session_balanced.
Qed.

Section Prompt.
Context {F32 : Float32} {L : LlamaLib}.
Implicit Types (w : world).

(** The prompt phase of [generate], by the result of the tokenizer and of
    the prompt decode. *)
Lemma generate_session_prompt_failure wrapper prompt maxTokens temperature topP topK w :
  let vocab := llama_model_get_vocab (model wrapper) (w_lib w) in
  let tk := (tokenize_text vocab prompt w).1 in
  let chain := llama_sampler_chain (sampler_stages temperature topP topK) (w_lib w) in
  let decoded := llama_decode (ctx wrapper) tk.2 (llama_memory_clear (ctx wrapper) chain.2) in
  let r := generate_session wrapper prompt maxTokens temperature topP topK w in
  (tk.1 < 0 → r = ([], w))
  ∧ (0 ≤ tk.1 → decoded.1 ≠ 0 →
     r.1 = []
     ∧ calls_since w r.2
       = prompt_calls wrapper chain.1 tk.2 decoded.1 ++ [Sampler_free chain.1]
     ∧ w_lib r.2 = llama_sampler_free chain.1 decoded.2).
Proof.
  unfold generate_session, tokenize_text, prompt_calls. st. split.
  - intros Hneg. by rewrite decide_True by done.
  - intros Hpos Hrc. rewrite decide_False by lia. st.
    rewrite decide_True by done. st. split; [done|]. split; [|done].
    trace_norm. reflexivity.
Qed.

(** The prompt phase of [generateStream]. *)
Lemma generateStream_session_prompt_failure wrapper prompt maxTokens temperature topP topK
    w :
  let vocab := llama_model_get_vocab (model wrapper) (w_lib w) in
  let tk := (tokenize_text vocab prompt w).1 in
  let chain := llama_sampler_chain (sampler_stages temperature topP topK) (w_lib w) in
  let decoded := llama_decode (ctx wrapper) tk.2 (llama_memory_clear (ctx wrapper) chain.2) in
  let r := generateStream_session wrapper prompt maxTokens temperature topP topK w in
  (tk.1 < 0 → r.2 = deliver (onError "Failed to tokenize prompt") w)
  ∧ (0 ≤ tk.1 → decoded.1 ≠ 0 →
     calls_since w r.2
     = prompt_calls wrapper chain.1 tk.2 decoded.1 ++ [Sampler_free chain.1]
     ∧ sink_since w r.2 = [onError "Failed to decode prompt"]
     ∧ w_lib r.2 = llama_sampler_free chain.1 decoded.2)
  ∧ (0 ≤ tk.1 → decoded.1 = 0 →
     is_Some (loop_entry wrapper prompt temperature topP topK w)).
Proof.
  unfold generateStream_session, loop_entry, tokenize_text, prompt_calls. st.
  split; [|split].
  - intros Hneg. by rewrite decide_True by done.
  - intros Hpos Hrc. rewrite decide_False by lia. st.
    rewrite decide_True by done. st. split; [|split; [|done]].
    + trace_norm. reflexivity.
    + trace_norm. reflexivity.
  - intros Hpos Hrc. rewrite decide_False by lia. st.
    rewrite decide_False by (intros Hne; by apply Hne). by eexists.
Qed.

End Prompt.

(** X4. A failed prompt phase of [generate] on a live session.  When
    [llama_tokenize] returns a negative count, [generate] returns the empty
    text and the world is exactly as before the call.  When the prompt is
    tokenized and its [llama_decode] returns non-zero, [generate] returns
    the empty text and the recorded calls are the creation of the sampler
    chain, [llama_memory_clear], that decode of the prompt tokens, and the
    release of that chain; wrappers, static flag and sink are untouched. *)
Theorem generate_prompt_failure_returns_empty {F32 : Float32} {L : LlamaLib}
    modelHandle prompt maxTokens temperature topP topK w wrapper :
  modelHandle ≠ 0 →
  deref_llama modelHandle w = Some wrapper →
  let vocab := llama_model_get_vocab (model wrapper) (w_lib w) in
  let tk := (tokenize_text vocab prompt w).1 in
  let chain := llama_sampler_chain (sampler_stages temperature topP topK) (w_lib w) in
  let decoded := llama_decode (ctx wrapper) tk.2 (llama_memory_clear (ctx wrapper) chain.2) in
  (tk.1 < 0 →
   generate modelHandle prompt maxTokens temperature topP topK w = Some ([], w))
  ∧ (0 ≤ tk.1 → decoded.1 ≠ 0 →
     ∃ w',
       generate modelHandle prompt maxTokens temperature topP topK w = Some ([], w')
       ∧ calls_since w w'
         = prompt_calls wrapper chain.1 tk.2 decoded.1 ++ [Sampler_free chain.1]
       ∧ w_lib w' = llama_sampler_free chain.1 decoded.2
       ∧ w_heap w' = w_heap w
       ∧ w_backend_initialized w' = w_backend_initialized w
       ∧ w_sink w' = w_sink w).
Proof.
  intros Hnz Hwrapper vocab tk chain decoded.
  destruct (generate_session_prompt_failure wrapper prompt maxTokens temperature topP topK w)
    as [Htok Hdec].
  destruct (generate_session_shape wrapper prompt maxTokens temperature topP topK w)
    as (Hheap & Hflag & Hsink & _).
  unfold generate. rewrite decide_False, Hwrapper by done. cbn [mbind option_bind].
  split.
  - intros Hneg. by rewrite (Htok Hneg).
  - intros Hpos Hrc. destruct (Hdec Hpos Hrc) as (Htext & Hcalls & Hlib).
    destruct (generate_session wrapper prompt maxTokens temperature topP topK w)
      as [text w'].
    simpl in *. subst text. by exists w'.
Qed.

(** X5. [generateStream] delivers [onError] only for a failed prompt phase,
    and then it is the only event and no token has been drawn.  The message
    names the stage: the tokenizer message when [llama_tokenize] returned a
    negative count, and then the call did nothing but deliver it; the decode
    message when the decode of the prompt tokens returned non-zero, and then
    the recorded calls are the creation of the sampler chain,
    [llama_memory_clear], that decode, and the release of that chain. *)
Theorem generateStream_error_only_before_tokens {F32 : Float32} {L : LlamaLib}
    modelHandle prompt maxTokens temperature topP topK callback w w' message :
  generateStream modelHandle prompt maxTokens temperature topP topK callback w = Some w' →
  onError message ∈ sink_since w w' →
  sink_since w w' = [onError message]
  ∧ samples_drawn (calls_since w w') = 0%nat
  ∧ ∃ wrapper,
      deref_llama modelHandle w = Some wrapper
      ∧ let vocab := llama_model_get_vocab (model wrapper) (w_lib w) in
        let tk := (tokenize_text vocab prompt w).1 in
        let chain := llama_sampler_chain (sampler_stages temperature topP topK) (w_lib w) in
        let decoded :=
          llama_decode (ctx wrapper) tk.2 (llama_memory_clear (ctx wrapper) chain.2) in
        ((message = "Failed to tokenize prompt"%string ∧ tk.1 < 0
          ∧ w' = deliver (onError message) w)
         ∨ (message = "Failed to decode prompt"%string ∧ 0 ≤ tk.1 ∧ decoded.1 ≠ 0
            ∧ calls_since w w'
              = prompt_calls wrapper chain.1 tk.2 decoded.1 ++ [Sampler_free chain.1])).
Proof.
  intros [(_ & ->)|(wrapper & _ & _ & Hwrapper & <-)]%generateStream_cases.
  { rewrite sink_since_refl. by intros ?%elem_of_nil. }
  destruct (generateStream_session_prompt_failure wrapper prompt maxTokens temperature
              topP topK w) as (Htok & Hdec & Hok).
  destruct (decide ((tokenize_text (llama_model_get_vocab (model wrapper) (w_lib w))
                       prompt w).1.1 < 0)) as [Hneg|Hpos].
  - rewrite (Htok Hneg). unfold sink_since, calls_since. wsimpl.
    rewrite drop_app_length, drop_all.
    intros [= <-]%list_elem_of_singleton. split; [done|]. split; [done|].
    exists wrapper. split; [done|]. left. by split.
  - apply Z.nlt_ge in Hpos.
    destruct (decide ((llama_decode (ctx wrapper)
                         (tokenize_text (llama_model_get_vocab (model wrapper) (w_lib w))
                            prompt w).1.2
                         (llama_memory_clear (ctx wrapper)
                            (llama_sampler_chain (sampler_stages temperature topP topK)
                               (w_lib w)).2)).1 = 0)) as [Hrc|Hrc].
    + destruct (Hok Hpos Hrc) as [[[vocab smpl] w0] Hentry].
      destruct (generateStream_session_shape wrapper prompt maxTokens temperature topP topK
                  w) as (_ & _ & Hshape).
      rewrite Hentry in Hshape. destruct Hshape as (toks & k & texts & _ & -> & _).
      intros [Hin|Hin]%elem_of_app.
      * apply list_elem_of_fmap in Hin as (t & Ht & _). done.
      * apply list_elem_of_singleton in Hin. done.
    + destruct (Hdec Hpos Hrc) as (Hcalls & Hsink & _). rewrite Hsink, Hcalls.
      intros [= <-]%list_elem_of_singleton. split; [done|]. split; [done|].
      exists wrapper. split; [done|]. right. by split.
Qed.

Section Agreement.
Context {F32 : Float32} {L : LlamaLib}.
Implicit Types (w ws : world) (result : bytes).

Lemma same_but_sink_refl w : same_but_sink w w.
Proof. by repeat split. Qed.

Lemma cut_at_marker_id result : find im_end result = None → cut_at_marker result = result.
Proof. unfold cut_at_marker. by intros ->. Qed.

Lemma step_agree wrapper vocab smpl result w ws :
  same_but_sink w ws → find im_end result = None →
  let b := generate_step wrapper vocab smpl result w in
  let s := generateStream_step wrapper vocab smpl result ws in
  b.1.1 = s.1.1 ∧ same_but_sink b.2 s.2 ∧ b.1.2 = cut_at_marker s.1.2
  ∧ (b.1.1 = Continue → b.1.2 = s.1.2 ∧ find im_end b.1.2 = None).
Proof.
  intros (Hlib & Hcalls & Hheap & Hflag) Hclean.
  destruct w as [lib calls heap flag sink], ws as [lib' calls' heap' flag' sink'].
  simpl in Hlib, Hcalls, Hheap, Hflag. subst lib' calls' heap' flag'.
  unfold generate_step, generateStream_step, decode_next, same_but_sink. st.
  destruct (llama_vocab_is_eog _ _ _); st.
  { by rewrite cut_at_marker_id. }
  case_decide; st.
  - destruct (find im_end (result ++ _)) as [pos|] eqn:Hfind; st.
    + unfold cut_at_marker. by rewrite Hfind.
    + case_decide; st; by rewrite cut_at_marker_id.
  - case_decide; st; by rewrite cut_at_marker_id.
Qed.

Lemma loop_agree wrapper vocab smpl maxTokens fuel :
  ∀ n result w ws,
    same_but_sink w ws → find im_end result = None →
    let b := token_loop fuel (generate_step wrapper vocab smpl) maxTokens n result w in
    let s := token_loop fuel (generateStream_step wrapper vocab smpl) maxTokens n result ws in
    b.1.1 = s.1.1 ∧ same_but_sink b.2 s.2 ∧ b.1.2 = cut_at_marker s.1.2.
Proof.
  induction fuel as [|fuel IH]; intros n result w ws Hsame Hclean; simpl.
  - by rewrite cut_at_marker_id.
  - case_decide; [|by rewrite cut_at_marker_id]. st.
    destruct (step_agree wrapper vocab smpl result w ws Hsame Hclean)
      as (Hctl & Hsame' & Hcut & Hcont).
    rewrite <- Hctl.
    destruct (generate_step wrapper vocab smpl result w).1.1 eqn:Hb.
    + destruct (Hcont eq_refl) as [Hres Hclean'].
      rewrite <- Hres. by apply IH.
    + done.
Qed.

Lemma sessions_agree wrapper prompt maxTokens temperature topP topK w :
  same_but_sink (generate_session wrapper prompt maxTokens temperature topP topK w).2
                (generateStream_session wrapper prompt maxTokens temperature topP topK w).2.
Proof.
  unfold generate_session, generateStream_session, tokenize_text. st.
  case_decide; [st; by repeat split|].
  case_decide; [st; by repeat split|]. st.
  match goal with
  | |- context [token_loop ?f (generate_step ?wr ?v ?sm) ?m ?n ?r ?w0] =>
      destruct (loop_agree wr v sm m f n r w0 w0 (same_but_sink_refl w0) eq_refl)
        as (_ & (Hlib & Hcalls & Hheap & Hflag) & _);
      remember (token_loop f (generate_step wr v sm) m n r w0) as b eqn:Hb; clear Hb;
      remember (token_loop f (generateStream_step wr v sm) m n r w0) as s' eqn:Hs; clear Hs
  end.
  unfold same_but_sink. wsimpl. by rewrite Hlib, Hcalls, Hheap, Hflag.
Qed.

End Agreement.

(** X6. On the same session and inputs the blocking and the streaming
    function make the same library calls in the same order and leave the
    library, the wrappers and the static flag in the same state; and from
    any common loop state the text accumulated by the blocking loop is the
    text accumulated by the streaming loop, cut where the marker starts. *)
Theorem blocking_and_streaming_agree {F32 : Float32} {L : LlamaLib}
    modelHandle prompt maxTokens temperature topP topK callback w :
  (∀ text w' ws',
     modelHandle ≠ 0 → callback_resolved callback = true →
     generate modelHandle prompt maxTokens temperature topP topK w = Some (text, w') →
     generateStream modelHandle prompt maxTokens temperature topP topK callback w
     = Some ws' →
     same_but_sink w' ws')
  ∧ (∀ wrapper vocab smpl fuel n_generated result ws,
       same_but_sink w ws → find im_end result = None →
       let b := token_loop fuel (generate_step wrapper vocab smpl) maxTokens
                  n_generated result w in
       let s := token_loop fuel (generateStream_step wrapper vocab smpl) maxTokens
                  n_generated result ws in
       b.1.1 = s.1.1 ∧ b.1.2 = cut_at_marker s.1.2 ∧ same_but_sink b.2 s.2).
Proof.
  split.
  - intros text w' ws' Hnz Hres Hgen Hstream.
    apply generate_cases in Hgen as [(? & _)|(wrapper & _ & Hw & Hs)]; [done|].
    apply generateStream_cases in Hstream as [([?|Hno] & _)|(wrapper' & _ & _ & Hw' & <-)];
      [done|congruence|].
    rewrite Hw in Hw'. injection Hw' as <-.
    replace w' with (generate_session wrapper prompt maxTokens temperature topP topK w).2
      by by rewrite Hs.
    apply sessions_agree.
  - intros wrapper vocab smpl fuel n result ws Hsame Hclean b s.
    destruct (loop_agree wrapper vocab smpl maxTokens fuel n result w ws Hsame Hclean)
      as (Hn & Hsame' & Hcut).
    split; [exact Hn|]. split; [exact Hcut|exact Hsame'].
Qed.

Section EmbeddingRuns.
Context {F32 : Float32} {L : LlamaLib}.
Implicit Types (w : world) (embd normalized : list jfloat).

Lemma sum_squares_is_Some embd n i acc :
  is_Some (sum_squares embd n i acc) ↔ n = 0%nat ∨ (i + n ≤ length embd)%nat.
Proof.
  revert i acc. induction n as [|n IH]; intros i acc; simpl.
  - split; [by left|done].
  - destruct (embd !! i) as [x|] eqn:Hx; simpl.
    + apply lookup_lt_Some in Hx. rewrite IH. lia.
    + apply lookup_ge_None in Hx. split; [by intros [? ?]|lia].
Qed.

Lemma fill_normalized_is_Some f embd n i normalized :
  is_Some (fill_normalized f embd n i normalized) ↔ n = 0%nat ∨ (i + n ≤ length embd)%nat.
Proof.
  revert i normalized. induction n as [|n IH]; intros i normalized; simpl.
  - split; [by left|done].
  - destruct (embd !! i) as [x|] eqn:Hx; simpl.
    + apply lookup_lt_Some in Hx. rewrite IH. lia.
    + apply lookup_ge_None in Hx. split; [by intros [? ?]|lia].
Qed.

Lemma getEmbedding_session_shape wrapper text w res w' :
  getEmbedding_session wrapper text w = Some (res, w') →
  w_heap w' = w_heap w
  ∧ w_backend_initialized w' = w_backend_initialized w
  ∧ w_sink w' = w_sink w
  ∧ ((w' = w ∧ res = None)
     ∨ ∃ toks rc,
         calls_since w w' = [Memory_clear (emb_ctx wrapper); Decode (emb_ctx wrapper) toks rc]
         ∧ (is_Some res → rc = 0 ∧ 0 ≤ n_embd wrapper)).
Proof.
  unfold getEmbedding_session, tokenize_text, NewFloatArray. st.
  case_decide.
  { intros [= <- <-]. repeat split; try done. by left. }
  st. case_decide as Hrc.
  { intros [= <- <-]. wsimpl. repeat split; try done. right. eexists _, _.
    trace_norm. split; [reflexivity|]. by intros [? ?]. }
  assert (Hfinish : ∀ (o : option (list jfloat)) (W : world),
    w_heap W = w_heap w → w_backend_initialized W = w_backend_initialized w →
    w_sink W = w_sink w →
    (∃ toks, calls_since w W
             = [Memory_clear (emb_ctx wrapper); Decode (emb_ctx wrapper) toks 0]) →
    match o with
    | Some embd =>
        if negb (bool_decide (0 ≤ n_embd wrapper) && jni_new_float_array_ok (n_embd wrapper)
                                                       (w_lib W))
        then Some (None, W)
        else normalized ← l2_normalize embd (n_embd wrapper); Some (Some normalized, W)
    | None => Some (None, W)
    end = Some (res, w') →
    w_heap w' = w_heap w ∧ w_backend_initialized w' = w_backend_initialized w
    ∧ w_sink w' = w_sink w
    ∧ ((w' = w ∧ res = None)
       ∨ ∃ toks rc,
           calls_since w w'
           = [Memory_clear (emb_ctx wrapper); Decode (emb_ctx wrapper) toks rc]
           ∧ (is_Some res → rc = 0 ∧ 0 ≤ n_embd wrapper))).
  { intros o W Hh Hb Hs [toks Hcalls]. destruct o as [embd|].
    - destruct (bool_decide (0 ≤ n_embd wrapper)) eqn:Hnn; simpl.
      + destruct (jni_new_float_array_ok _ _); simpl.
        * destruct (l2_normalize embd (n_embd wrapper)); simpl; [|done].
          intros [= <- <-]. repeat split; try done. right. exists toks, 0.
          split; [done|]. intros _. split; [done|]. by apply bool_decide_eq_true in Hnn.
        * intros [= <- <-]. repeat split; try done. right. exists toks, 0.
          split; [done|]. by intros [? ?].
      + intros [= <- <-]. repeat split; try done. right. exists toks, 0.
        split; [done|]. by intros [? ?].
    - intros [= <- <-]. repeat split; try done. right. exists toks, 0.
      split; [done|]. by intros [? ?]. }
  match goal with
  | |- context [llama_get_embeddings_seq ?c ?s ?l] =>
      destruct (llama_get_embeddings_seq c s l) as [embd|] eqn:Hseq
  end; st.
  - match goal with
    | |- context [Some (None, ?W)] => apply (Hfinish (Some embd) W); try done
    end.
    eexists. clear Hfinish. trace_norm. by rewrite Hrc.
  - match goal with
    | |- context [llama_get_embeddings ?c ?l] =>
        match goal with
        | |- context [Some (None, ?W)] =>
            apply (Hfinish (llama_get_embeddings c l) W); try done
        end
    end.
    eexists. clear Hfinish. trace_norm. by rewrite Hrc.
Qed.

End EmbeddingRuns.

(** X7. The inference calls leave every session as it is: [generate],
    [generateStream] and [getEmbedding] neither create nor delete nor change
    a wrapper and do not touch the static flag, so every handle and every
    introspection answer is the same after the call; the two calls without
    a callback deliver nothing to the sink. *)
Theorem inference_keeps_sessions {F32 : Float32} {L : LlamaLib}
    modelHandle prompt maxTokens temperature topP topK callback w :
  (∀ text w',
     generate modelHandle prompt maxTokens temperature topP topK w = Some (text, w') →
     w_heap w' = w_heap w ∧ w_backend_initialized w' = w_backend_initialized w
     ∧ w_sink w' = w_sink w)
  ∧ (∀ w',
       generateStream modelHandle prompt maxTokens temperature topP topK callback w
       = Some w' →
       w_heap w' = w_heap w ∧ w_backend_initialized w' = w_backend_initialized w)
  ∧ (∀ res w',
       getEmbedding modelHandle prompt w = Some (res, w') →
       w_heap w' = w_heap w ∧ w_backend_initialized w' = w_backend_initialized w
       ∧ w_sink w' = w_sink w).
Proof.
  split; [|split].
  - intros text w' [(_ & _ & ->)|(wrapper & _ & _ & Hs)]%generate_cases; [done|].
    destruct (generate_session_shape wrapper prompt maxTokens temperature topP topK w)
      as (Hh & Hb & Hsink & _).
    rewrite Hs in Hh, Hb, Hsink. done.
  - intros w' [(_ & ->)|(wrapper & _ & _ & _ & <-)]%generateStream_cases; [done|].
    destruct (generateStream_session_shape wrapper prompt maxTokens temperature topP topK w)
      as (Hh & Hb & _).
    done.
  - intros res w'. unfold getEmbedding. case_decide; [by intros [= <- <-]|].
    destruct (deref_embedding modelHandle w) as [wrapper|]; [|done].
    cbn [mbind option_bind]. intros Hs.
    destruct (getEmbedding_session_shape _ _ _ _ _ Hs) as (Hh & Hb & Hsink & _). done.
Qed.

(** X11. The normalisation reads exactly the first [n_embd] values of the
    library's buffer: it is defined when, and only when, the buffer holds at
    least that many (a non-positive [n_embd] reads nothing). *)
Theorem l2_normalize_defined_iff_buffer_long_enough {F32 : Float32}
    (embd : list jfloat) (dim : Z) :
  is_Some (l2_normalize embd dim) ↔ (Z.to_nat dim ≤ length embd)%nat.
Proof.
  unfold l2_normalize.
  destruct (sum_squares embd (Z.to_nat dim) 0 fzero) as [sq|] eqn:Hsq; simpl.
  - assert (Hlen : (Z.to_nat dim ≤ length embd)%nat).
    { assert (is_Some (sum_squares embd (Z.to_nat dim) 0 fzero)) as Hs by by rewrite Hsq.
      apply sum_squares_is_Some in Hs. lia. }
    split; [done|]. intros _.
    destruct (fgt _ _); apply fill_normalized_is_Some; lia.
  - split; [by intros [? ?]|]. intros Hlen.
    assert (is_Some (sum_squares embd (Z.to_nat dim) 0 fzero)) as [? Hs]
      by (apply sum_squares_is_Some; lia).
    congruence.
Qed.

(** X12. A completed embedding call either returns null with the world
    exactly as it was (zero handle, tokenizer failure), or the calls it adds
    to the record (the calls that create, release or advance library
    resources; read-only queries are not recorded) are [llama_memory_clear]
    followed by one [llama_decode] on the context of the wrapper: it never
    draws a token and never creates or frees anything.  An array is returned
    only if that decode returned 0. *)
Theorem getEmbedding_footprint {F32 : Float32} {L : LlamaLib}
    modelHandle text w res w' :
  getEmbedding modelHandle text w = Some (res, w') →
  (w' = w ∧ res = None)
  ∨ ∃ wrapper toks rc,
      deref_embedding modelHandle w = Some wrapper
      ∧ calls_since w w'
        = [Memory_clear (emb_ctx wrapper); Decode (emb_ctx wrapper) toks rc]
      ∧ (is_Some res → rc = 0).
Proof.
  unfold getEmbedding. case_decide; [intros [= <- <-]; by left|].
  destruct (deref_embedding modelHandle w) as [wrapper|]; [|done].
  cbn [mbind option_bind]. intros Hs.
  destruct (getEmbedding_session_shape _ _ _ _ _ Hs)
    as (_ & _ & _ & [?|(toks & rc & Hcalls & Hres)]); [by left|].
  right. exists wrapper, toks, rc. split; [done|]. split; [done|].
  intros Hsome. by destruct (Hres Hsome).
Qed.

(** ** Sessions from creation to release *)

Section Sessions2.
Context {F32 : Float32} {L : LlamaLib}.
Implicit Types (w : world).

Lemma models_outstanding_app (k1 k2 : list native_call) :
  models_outstanding (k1 ++ k2) = models_outstanding k1 + models_outstanding k2.
Proof.
  induction k1 as [|c k1 IH]; simpl; [lia|]. destruct c; rewrite ?IH; lia.
Qed.

Lemma contexts_outstanding_app (k1 k2 : list native_call) :
  contexts_outstanding (k1 ++ k2) = contexts_outstanding k1 + contexts_outstanding k2.
Proof.
  induction k1 as [|c k1 IH]; simpl; [lia|]. destruct c; rewrite ?IH; lia.
Qed.

Lemma fresh_handle_free (heap : gmap Z object) : heap !! fresh ({[0]} ∪ dom heap) = None.
Proof.
  apply not_elem_of_dom. intros Hin.
  apply (is_fresh ({[0]} ∪ dom heap)). set_solver.
Qed.

(** What the negotiation can produce. *)
Lemma negotiate_gpu_facts useGpu gpuLayers :
  let r := negotiate_gpu useGpu gpuLayers in
  r.1.2 = r.2 ∧ 0 ≤ r.2
  ∧ (r.2 = 0 ∨ (r.2 = 99 ∧ gpuLayers < 0) ∨ r.2 = gpuLayers)
  ∧ (r.2 ≠ 0 → r.1.1 = true ∧ useGpu = true ∧ GGML_USE_VULKAN = true)
  ∧ (useGpu = false ∨ GGML_USE_VULKAN = false ∨ gpuLayers = 0 → r.2 = 0).
Proof.
  unfold negotiate_gpu, detect_vulkan_available.
  destruct useGpu, GGML_USE_VULKAN; simpl; repeat case_decide; simpl;
    repeat split; try done; try lia; try tauto; intros [?|[?|?]]; try done; lia.
Qed.

Ltac outcome_fail :=
  left; repeat split; try done; simpl; repeat case_decide; destruct_and?; try done; lia.

Ltac outcome_count :=
  simpl; repeat case_decide; destruct_and?; try done; lia.

(** The calls of a successful creation: everything before the last two
    handed out nothing. *)
Ltac outcome_ends :=
  match goal with
  | |- ∃ k0 n p, ?k = _ ∧ _ => exists (take (length k - 2) k)
  end;
  simpl; eexists _, _; split; [reflexivity|];
  repeat first [apply Forall_nil_2 | apply Forall_cons_2];
  simpl; try done; apply bool_decide_eq_true; destruct_and?; done.

Lemma initModel_outcome modelPath contextSize threads w :
  ∃ k, creation_outcome modelPath w (initModel modelPath contextSize threads w) k
         (λ m c o, o = Obj_llama {| model := m; ctx := c; using_gpu := false;
                                    gpu_layers := 0 |}).
Proof.
  unfold initModel, creation_outcome. st. repeat case_decide; st;
    eexists; (split; [rewrite <- ?app_assoc; reflexivity|]); (split; [done|]).
  - outcome_fail.
  - outcome_fail.
  - match goal with
    | |- context [<[_:=Obj_llama {| model := ?m; ctx := ?c; using_gpu := ?b;
                                   gpu_layers := ?l |}]> _] =>
        right; exists m, c, (Obj_llama {| model := m; ctx := c; using_gpu := b;
                                          gpu_layers := l |})
    end.
    split_and!; try done;
      [apply fresh_handle_nonzero|apply fresh_handle_free
      |outcome_count|outcome_count|outcome_ends].
Qed.

Lemma initModelWithGpu_outcome modelPath contextSize threads useGpu gpuLayers w :
  ∃ k, creation_outcome modelPath w
         (initModelWithGpu modelPath contextSize threads useGpu gpuLayers w) k
         (λ m c o, ∃ b n,
            o = Obj_llama {| model := m; ctx := c; using_gpu := b; gpu_layers := n |}
            ∧ (b = true ↔ n > 0) ∧ 0 ≤ n
            ∧ (b = true → useGpu = true ∧ GGML_USE_VULKAN = true)
            ∧ (n = 0 ∨ (n = 99 ∧ gpuLayers < 0) ∨ n = gpuLayers)).
Proof.
  unfold initModelWithGpu, creation_outcome.
  pose proof (negotiate_gpu_facts useGpu gpuLayers) as Hneg. cbv zeta in Hneg.
  destruct (negotiate_gpu useGpu gpuLayers) as [[avail actual] n].
  simpl in Hneg. destruct Hneg as (-> & Hn0 & Hval & Hpos & _).
  st. repeat case_decide; st; repeat case_decide; st;
    eexists; (split; [rewrite <- ?app_assoc; reflexivity|]); (split; [done|]);
    try outcome_fail.
  all: match goal with
       | |- context [<[_:=Obj_llama {| model := ?m; ctx := ?c; using_gpu := ?b;
                                      gpu_layers := ?l |}]> _] =>
           right; exists m, c, (Obj_llama {| model := m; ctx := c; using_gpu := b;
                                             gpu_layers := l |})
       end.
  all: split_and!; try done;
    [|apply fresh_handle_nonzero|apply fresh_handle_free
     |outcome_count|outcome_count|outcome_ends].
  all: eexists _, _; split; [reflexivity|]; split_and!.
  all: try (intros [Ha Hb%bool_decide_eq_true]%andb_prop;
            first [lia | by destruct Hpos as (_ & ? & ?); [lia|]]).
  all: try (split; [by intros [_ Hb%bool_decide_eq_true]%andb_prop|];
            intros Hgt; first [lia | apply andb_true_intro; split;
                                      [apply Hpos; lia|by apply bool_decide_eq_true]]).
  all: first [lia | by left | done].
Qed.

Lemma initEmbeddingModel_outcome modelPath contextSize threads w :
  let r := initEmbeddingModel modelPath contextSize threads w in
  ∃ k, creation_outcome modelPath w r k
         (λ m c o, o = Obj_embedding {| emb_model := m; emb_ctx := c;
                                        n_embd := llama_n_embd m (w_lib r.2) |}
                   ∧ Load_model modelPath 0 m ∈ k).
Proof.
  unfold initEmbeddingModel, creation_outcome. st.
  destruct (w_backend_initialized w); st; repeat case_decide; st;
    eexists; (split; [rewrite <- ?app_assoc; first [reflexivity|symmetry; apply app_nil_r]|]);
    (split; [done|]); try outcome_fail.
  all: match goal with
       | |- context [<[_:=Obj_embedding {| emb_model := ?m; emb_ctx := ?c;
                                          n_embd := ?d |}]> _] =>
           right; exists m, c, (Obj_embedding {| emb_model := m; emb_ctx := c;
                                                 n_embd := d |})
       end.
  all: split_and!; try done;
    [repeat first [apply list_elem_of_here | apply list_elem_of_further]
    |apply fresh_handle_nonzero|apply fresh_handle_free
    |outcome_count|outcome_count|outcome_ends].
Qed.

(** What a release call on a non-zero handle does when it is defined. *)
Lemma freeModel_run modelHandle w w1 :
  modelHandle ≠ 0 → freeModel modelHandle w = Some w1 →
  ∃ wrapper,
    deref_llama modelHandle w = Some wrapper
    ∧ w_calls w1
      = w_calls w
        ++ (if decide (ctx wrapper ≠ nullptr) then [Free_context (ctx wrapper)] else [])
        ++ (if decide (model wrapper ≠ nullptr) then [Free_model (model wrapper)] else [])
        ++ [Backend_free]
    ∧ w_heap w1 = delete modelHandle (w_heap w)
    ∧ w_backend_initialized w1 = w_backend_initialized w
    ∧ w_sink w1 = w_sink w.
Proof.
  intros Hnz. unfold freeModel. rewrite decide_False by done.
  destruct (deref_llama modelHandle w) as [wrapper|]; [|done].
  cbn [mbind option_bind]. intros [= <-]. exists wrapper. split; [done|].
  st. repeat case_decide; st; rewrite <- ?app_assoc; done.
Qed.

Lemma freeEmbeddingModel_run modelHandle w w1 :
  modelHandle ≠ 0 → freeEmbeddingModel modelHandle w = Some w1 →
  ∃ wrapper,
    deref_embedding modelHandle w = Some wrapper
    ∧ w_calls w1
      = w_calls w
        ++ (if decide (emb_ctx wrapper ≠ nullptr)
            then [Free_context (emb_ctx wrapper)] else [])
        ++ (if decide (emb_model wrapper ≠ nullptr)
            then [Free_model (emb_model wrapper)] else [])
    ∧ w_heap w1 = delete modelHandle (w_heap w)
    ∧ w_backend_initialized w1 = w_backend_initialized w
    ∧ w_sink w1 = w_sink w.
Proof.
  intros Hnz. unfold freeEmbeddingModel. rewrite decide_False by done.
  destruct (deref_embedding modelHandle w) as [wrapper|]; [|done].
  cbn [mbind option_bind]. intros [= <-]. exists wrapper. split; [done|].
  st. repeat case_decide; st; rewrite <- ?app_assoc, ?app_nil_r; done.
Qed.

(** Releasing a wrapper that a creation call has just allocated. *)
Lemma release_created_llama w (r : Z * world) k m c b n :
  w_calls r.2 = w_calls w ++ k → r.1 ≠ 0 → m ≠ nullptr → c ≠ nullptr →
  w_heap w !! r.1 = None →
  w_heap r.2 = <[r.1:=Obj_llama {| model := m; ctx := c; using_gpu := b;
                                   gpu_layers := n |}]> (w_heap w) →
  ∃ w2,
    freeModel r.1 r.2 = Some w2 ∧ w_heap w2 = w_heap w
    ∧ calls_since r.2 w2 = [Free_context c; Free_model m; Backend_free]
    ∧ calls_since w w2 = k ++ [Free_context c; Free_model m; Backend_free].
Proof.
  intros Hk Hnz Hm Hc Hfree Hheap.
  assert (Hlive : deref_llama r.1 r.2
                  = Some {| model := m; ctx := c; using_gpu := b; gpu_layers := n |})
    by (unfold deref_llama; by rewrite Hheap, lookup_insert_eq).
  destruct (freeModel r.1 r.2) as [w2|] eqn:Hfreed.
  2:{ unfold freeModel in Hfreed. rewrite decide_False, Hlive in Hfreed by done. done. }
  destruct (freeModel_run _ _ _ Hnz Hfreed) as (wrapper & Hw & Hcalls & Hh & _).
  rewrite Hlive in Hw. injection Hw as <-. simpl in Hcalls.
  rewrite !decide_True in Hcalls by done. simpl in Hcalls.
  exists w2. split; [done|]. split; [by rewrite Hh, Hheap, delete_insert_id|].
  unfold calls_since. rewrite Hcalls, drop_app_length. split; [done|].
  by rewrite Hk, <- app_assoc, drop_app_length.
Qed.

Lemma release_created_embedding w (r : Z * world) k m c d :
  w_calls r.2 = w_calls w ++ k → r.1 ≠ 0 → m ≠ nullptr → c ≠ nullptr →
  w_heap w !! r.1 = None →
  w_heap r.2 = <[r.1:=Obj_embedding {| emb_model := m; emb_ctx := c; n_embd := d |}]>
                 (w_heap w) →
  ∃ w2,
    freeEmbeddingModel r.1 r.2 = Some w2 ∧ w_heap w2 = w_heap w
    ∧ calls_since r.2 w2 = [Free_context c; Free_model m]
    ∧ calls_since w w2 = k ++ [Free_context c; Free_model m].
Proof.
  intros Hk Hnz Hm Hc Hfree Hheap.
  assert (Hlive : deref_embedding r.1 r.2
                  = Some {| emb_model := m; emb_ctx := c; n_embd := d |})
    by (unfold deref_embedding; by rewrite Hheap, lookup_insert_eq).
  destruct (freeEmbeddingModel r.1 r.2) as [w2|] eqn:Hfreed.
  2:{ unfold freeEmbeddingModel in Hfreed.
      rewrite decide_False, Hlive in Hfreed by done. done. }
  destruct (freeEmbeddingModel_run _ _ _ Hnz Hfreed) as (wrapper & Hw & Hcalls & Hh & _).
  rewrite Hlive in Hw. injection Hw as <-. simpl in Hcalls.
  rewrite !decide_True in Hcalls by done. simpl in Hcalls.
  exists w2. split; [done|]. split; [by rewrite Hh, Hheap, delete_insert_id|].
  unfold calls_since. rewrite Hcalls, drop_app_length. split; [done|].
  by rewrite Hk, <- app_assoc, drop_app_length.
Qed.

End Sessions2.

(** X8. Creating a session and releasing the returned handle leaks nothing.
    A successful [initModel], [initModelWithGpu] or [initEmbeddingModel]
    ends with the load that returned the model [m] and the context request
    for [m] that returned [c], and no earlier call of it handed out anything;
    the release of the returned handle frees that very [c], then that very
    [m] ([freeModel] then frees the backend), and the heap of wrappers is
    what it was before the creation. *)
Theorem create_then_free_leaves_nothing {F32 : Float32} {L : LlamaLib}
    modelPath contextSize threads useGpu gpuLayers w :
  (let r := initModel modelPath contextSize threads w in
   r.1 ≠ 0 →
   ∃ w2 k0 n p m c,
     calls_since w r.2 = k0 ++ [Load_model modelPath n m; New_context m p c]
     ∧ Forall (λ x, obtains_nothing x = true) k0
     ∧ m ≠ nullptr ∧ c ≠ nullptr
     ∧ freeModel r.1 r.2 = Some w2 ∧ w_heap w2 = w_heap w
     ∧ calls_since r.2 w2 = [Free_context c; Free_model m; Backend_free]
     ∧ models_outstanding (calls_since w w2) = 0
     ∧ contexts_outstanding (calls_since w w2) = 0)
  ∧ (let r := initModelWithGpu modelPath contextSize threads useGpu gpuLayers w in
     r.1 ≠ 0 →
     ∃ w2 k0 n p m c,
       calls_since w r.2 = k0 ++ [Load_model modelPath n m; New_context m p c]
       ∧ Forall (λ x, obtains_nothing x = true) k0
       ∧ m ≠ nullptr ∧ c ≠ nullptr
       ∧ freeModel r.1 r.2 = Some w2 ∧ w_heap w2 = w_heap w
       ∧ calls_since r.2 w2 = [Free_context c; Free_model m; Backend_free]
       ∧ models_outstanding (calls_since w w2) = 0
       ∧ contexts_outstanding (calls_since w w2) = 0)
  ∧ (let r := initEmbeddingModel modelPath contextSize threads w in
     r.1 ≠ 0 →
     ∃ w2 k0 n p m c,
       calls_since w r.2 = k0 ++ [Load_model modelPath n m; New_context m p c]
       ∧ Forall (λ x, obtains_nothing x = true) k0
       ∧ m ≠ nullptr ∧ c ≠ nullptr
       ∧ freeEmbeddingModel r.1 r.2 = Some w2 ∧ w_heap w2 = w_heap w
       ∧ calls_since r.2 w2 = [Free_context c; Free_model m]
       ∧ models_outstanding (calls_since w w2) = 0
       ∧ contexts_outstanding (calls_since w w2) = 0).
Proof.
  split; [|split]; intros r Hnz.
  - destruct (initModel_outcome modelPath contextSize threads w)
      as (k & Hk & _ & [(Hz & _)|(m & c & o & -> & _ & Hm & Hc & Hfree & Hheap & Hmo & Hco
                                  & k0 & n & p & Hends & Hk0)]);
      [done|].
    destruct (release_created_llama w r k m c _ _ Hk Hnz Hm Hc Hfree Hheap)
      as (w2 & Hfreed & Hh & Hrel & Hall).
    exists w2, k0, n, p, m, c.
    rewrite Hall, models_outstanding_app, contexts_outstanding_app, Hmo, Hco.
    split; [unfold calls_since; subst r; by rewrite Hk, drop_app_length|].
    by repeat split.
  - destruct (initModelWithGpu_outcome modelPath contextSize threads useGpu gpuLayers w)
      as (k & Hk & _ & [(Hz & _)|(m & c & o & (b & l & -> & _) & _ & Hm & Hc & Hfree & Hheap
                                  & Hmo & Hco & k0 & n & p & Hends & Hk0)]);
      [done|].
    destruct (release_created_llama w r k m c _ _ Hk Hnz Hm Hc Hfree Hheap)
      as (w2 & Hfreed & Hh & Hrel & Hall).
    exists w2, k0, n, p, m, c.
    rewrite Hall, models_outstanding_app, contexts_outstanding_app, Hmo, Hco.
    split; [unfold calls_since; subst r; by rewrite Hk, drop_app_length|].
    by repeat split.
  - destruct (initEmbeddingModel_outcome modelPath contextSize threads w)
      as (k & Hk & _ & [(Hz & _)|(m & c & o & (-> & _) & _ & Hm & Hc & Hfree & Hheap
                                  & Hmo & Hco & k0 & n & p & Hends & Hk0)]);
      [done|].
    destruct (release_created_embedding w r k m c _ Hk Hnz Hm Hc Hfree Hheap)
      as (w2 & Hfreed & Hh & Hrel & Hall).
    exists w2, k0, n, p, m, c.
    rewrite Hall, models_outstanding_app, contexts_outstanding_app, Hmo, Hco.
    split; [unfold calls_since; subst r; by rewrite Hk, drop_app_length|].
    by repeat split.
Qed.

(** X9. For every session [initModelWithGpu] creates, [isUsingGpu] is true
    exactly when [getGpuLayers] is positive; the layer count is never
    negative (it is 0, the 99 that stands for a negative request, or the
    request itself), and GPU use is reported only if it was requested and
    Vulkan is compiled in.  A session created by [initModel] reports no GPU
    and 0 layers. *)
Theorem using_gpu_iff_layers_positive {F32 : Float32} {L : LlamaLib}
    modelPath contextSize threads useGpu gpuLayers w :
  (let r := initModelWithGpu modelPath contextSize threads useGpu gpuLayers w in
   r.1 ≠ 0 →
   ∃ b n,
     isUsingGpu r.1 r.2 = Some b ∧ getGpuLayers r.1 r.2 = Some n
     ∧ (b = true ↔ n > 0) ∧ 0 ≤ n
     ∧ (b = true → useGpu = true ∧ GGML_USE_VULKAN = true)
     ∧ (n = 0 ∨ (n = 99 ∧ gpuLayers < 0) ∨ n = gpuLayers))
  ∧ (let r := initModel modelPath contextSize threads w in
     r.1 ≠ 0 → isUsingGpu r.1 r.2 = Some false ∧ getGpuLayers r.1 r.2 = Some 0).
Proof.
  split; intros r Hnz.
  - destruct (initModelWithGpu_outcome modelPath contextSize threads useGpu gpuLayers w)
      as (k & _ & _ & [(Hz & _)|(m & c & o & (b & n & -> & Hfacts) & _ & _ & _ & _ & Hheap
                                 & _)]);
      [done|].
    destruct (isUsingGpu_new _ _ _ _ Hheap) as [Hu Hl].
    rewrite decide_False in Hu by done. rewrite decide_False in Hl by done.
    by exists b, n.
  - destruct (initModel_outcome modelPath contextSize threads w)
      as (k & _ & _ & [(Hz & _)|(m & c & o & -> & _ & _ & _ & _ & Hheap & _)]); [done|].
    destruct (isUsingGpu_new _ _ _ _ Hheap) as [Hu Hl].
    rewrite decide_False in Hu by done. by rewrite decide_False in Hl by done.
Qed.

(** X10. An embedding session is always loaded on the CPU and in embedding
    mode: [initEmbeddingModel] makes one load, with 0 GPU layers; every
    context it asks for has [embeddings] set, the given thread count (for
    both thread fields) and, as [n_ctx], the given context size converted to
    [uint32_t]: the size itself when it is not negative, the size plus 2^32
    when it is; and on success the dimension [getEmbeddingDimension] reports
    is the model's [llama_n_embd]. *)
Theorem embedding_session_is_cpu_and_pooled {F32 : Float32} {L : LlamaLib}
    modelPath contextSize threads w :
  let r := initEmbeddingModel modelPath contextSize threads w in
  (∃ ret, loads (calls_since w r.2) = [Load_model modelPath 0 ret])
  ∧ (∀ m p c, New_context m p c ∈ calls_since w r.2 →
              embeddings p = true
              ∧ n_threads p = threads ∧ n_threads_batch p = threads
              ∧ n_ctx p = to_uint32 contextSize
              ∧ (0 ≤ contextSize < 2 ^ 31 → n_ctx p = contextSize)
              ∧ (- 2 ^ 31 ≤ contextSize < 0 → n_ctx p = contextSize + 2 ^ 32))
  ∧ (r.1 ≠ 0 →
     ∃ m, Load_model modelPath 0 m ∈ calls_since w r.2
          ∧ getEmbeddingDimension r.1 r.2 = Some (llama_n_embd m (w_lib r.2))).
Proof.
  intros r. split; [|split].
  - subst r. unfold initEmbeddingModel. st.
    destruct (w_backend_initialized w); st; repeat case_decide; st; trace_norm;
      rewrite ?app_nil_r, ?drop_app_length; by eexists.
  - assert (Hconv : (0 ≤ contextSize < 2 ^ 31 → to_uint32 contextSize = contextSize)
                    ∧ (- 2 ^ 31 ≤ contextSize < 0
                       → to_uint32 contextSize = contextSize + 2 ^ 32)).
    { unfold to_uint32. split; intros Hrange.
      - apply Z.mod_small. lia.
      - symmetry. apply (Z.mod_unique_pos _ _ (-1)); lia. }
    destruct Hconv as [Hsmall Hwrap].
    subst r. unfold initEmbeddingModel. st.
    destruct (w_backend_initialized w); st; repeat case_decide; st; trace_norm;
      rewrite ?app_nil_r, ?drop_app_length; intros m p c Hin;
      decompose_list_elem_of; simplify_eq; done.
  - subst r. intros Hnz.
    destruct (initEmbeddingModel_outcome modelPath contextSize threads w)
      as (k & Hk & _ & [(Hz & _)|(m & c & o & (-> & Hin) & _ & _ & _ & _ & Hheap & _)]);
      [done|].
    exists m. split.
    + unfold calls_since. by rewrite Hk, drop_app_length.
    + unfold getEmbeddingDimension, deref_embedding.
      by rewrite decide_False, Hheap, lookup_insert_eq by done.
Qed.

(** X13. [freeModel] frees the backend but leaves the static flag of
    [initEmbeddingModel] set: once the flag is set, an [initEmbeddingModel]
    that follows a [freeModel] does not call [llama_backend_init] again. *)
Theorem backend_not_reinitialized_after_freeModel {F32 : Float32} {L : LlamaLib}
    modelHandle modelPath contextSize threads w w1 :
  modelHandle ≠ 0 →
  w_backend_initialized w = true →
  freeModel modelHandle w = Some w1 →
  backend_frees (calls_since w w1) = 1%nat
  ∧ w_backend_initialized w1 = true
  ∧ backend_inits
      (calls_since w1 (initEmbeddingModel modelPath contextSize threads w1).2) = 0%nat.
Proof.
  intros Hnz Hflag Hfreed.
  destruct (freeModel_run _ _ _ Hnz Hfreed) as (wrapper & _ & Hcalls & _ & Hb & _).
  rewrite Hflag in Hb. split; [|split; [done|]].
  - unfold calls_since. rewrite Hcalls, drop_app_length.
    unfold backend_frees. by repeat case_decide.
  - destruct (initEmbeddingModel_inits modelPath contextSize threads w1)
      as (k & Hk & Hn & _).
    rewrite Hb in Hn. unfold calls_since. by rewrite Hk, drop_app_length.
Qed.

(** X14. The CPU retry is taken only after a load that asked for GPU
    layers: when GPU use is not requested, Vulkan is not compiled in, or 0
    layers are requested, [initModelWithGpu] loads exactly once, with 0
    layers, and returns 0 if that load fails. *)
Theorem cpu_only_request_loads_once {F32 : Float32} {L : LlamaLib}
    modelPath contextSize threads useGpu gpuLayers w :
  let r := initModelWithGpu modelPath contextSize threads useGpu gpuLayers w in
  useGpu = false ∨ GGML_USE_VULKAN = false ∨ gpuLayers = 0 →
  ∃ ret,
    loads (calls_since w r.2) = [Load_model modelPath 0 ret]
    ∧ (ret = nullptr → r.1 = 0)
    ∧ (r.1 ≠ 0 → isUsingGpu r.1 r.2 = Some false ∧ getGpuLayers r.1 r.2 = Some 0).
Proof.
  intros r Hcpu. subst r. unfold initModelWithGpu.
  pose proof (negotiate_gpu_facts useGpu gpuLayers) as Hneg. cbv zeta in Hneg.
  destruct (negotiate_gpu useGpu gpuLayers) as [[avail actual] n].
  simpl in Hneg. destruct Hneg as (-> & _ & _ & _ & Hzero).
  rewrite (Hzero Hcpu).
  st. repeat case_decide; st; repeat case_decide; st; trace_norm;
    destruct_and?; try lia; eexists; (split; [reflexivity|]); (split; [done|]);
    try done.
  intros _. edestruct isUsingGpu_new as [-> ->]; [reflexivity|].
  rewrite !decide_False by apply fresh_handle_nonzero. simpl.
  by rewrite andb_false_r.
Qed.

(** ** The further properties on concrete runs *)

Lemma generation_draws_at_most_maxTokens_witness :
  (samples_drawn (calls_since (Mock.start Mock.base Mock.heap0)
                    (Mock.run_generate Mock.base 2).2) ≤ 2)%nat
  ∧ (samples_drawn (calls_since (Mock.start Mock.base Mock.heap0)
                      (Mock.run_stream Mock.base 2)) ≤ 2)%nat
  ∧ (tokens_delivered (sink_since (Mock.start Mock.base Mock.heap0)
                         (Mock.run_stream Mock.base 2))
     ≤ samples_drawn (calls_since (Mock.start Mock.base Mock.heap0)
                        (Mock.run_stream Mock.base 2)))%nat.
Proof.
  split.
  - apply (proj1 (generation_draws_at_most_maxTokens (L := Mock.lib Mock.base)
                    1 (lit "hello") 2 fzero fzero 40 (Mock.start Mock.base Mock.heap0))
             (Mock.run_generate Mock.base 2).1).
    reflexivity.
  - apply (proj2 (generation_draws_at_most_maxTokens (L := Mock.lib Mock.base)
                    1 (lit "hello") 2 fzero fzero 40 (Mock.start Mock.base Mock.heap0))
             Mock.callback).
    reflexivity.
Defined.

Lemma nonpositive_maxTokens_generates_nothing_witness :
  (Mock.run_generate Mock.base 0).1 = []
  ∧ tokens_delivered (sink_since (Mock.start Mock.base Mock.heap0)
                        (Mock.run_stream Mock.base (-3))) = 0%nat.
Proof.
  split.
  - apply (proj1 (nonpositive_maxTokens_generates_nothing (L := Mock.lib Mock.base)
                    1 (lit "hello") 0 fzero fzero 40 (Mock.start Mock.base Mock.heap0)
                    ltac:(lia))
             (Mock.run_generate Mock.base 0).1 (Mock.run_generate Mock.base 0).2).
    reflexivity.
  - apply (proj2 (nonpositive_maxTokens_generates_nothing (L := Mock.lib Mock.base)
                    1 (lit "hello") (-3) fzero fzero 40 (Mock.start Mock.base Mock.heap0)
                    ltac:(lia))
             Mock.callback).
    reflexivity.
Defined.

Lemma sampler_released_on_every_path_witness :
  sampler_balanced (calls_since (Mock.start Mock.prompt_decode_fails Mock.heap0)
                      (Mock.run_generate Mock.prompt_decode_fails 16).2)
  ∧ sampler_balanced (calls_since (Mock.start Mock.decode_fails Mock.heap0)
                        (Mock.run_stream Mock.decode_fails 16)).
Proof.
  split.
  - apply (proj1 (sampler_released_on_every_path (L := Mock.lib Mock.prompt_decode_fails)
                    1 (lit "hello") 16 fzero fzero 40
                    (Mock.start Mock.prompt_decode_fails Mock.heap0))
             (Mock.run_generate Mock.prompt_decode_fails 16).1).
    reflexivity.
  - apply (proj2 (sampler_released_on_every_path (L := Mock.lib Mock.decode_fails)
                    1 (lit "hello") 16 fzero fzero 40
                    (Mock.start Mock.decode_fails Mock.heap0))
             Mock.callback).
    reflexivity.
Defined.

Lemma generate_prompt_failure_returns_empty_witness :
  generate 1 (lit "hello") 16 fzero fzero 40 (Mock.start Mock.tokenize_fails Mock.heap0)
  = Some ([], Mock.start Mock.tokenize_fails Mock.heap0)
  ∧ (∃ w',
       generate 1 (lit "hello") 16 fzero fzero 40
         (Mock.start Mock.prompt_decode_fails Mock.heap0) = Some ([], w')
       ∧ calls_since (Mock.start Mock.prompt_decode_fails Mock.heap0) w'
         = [Sampler_chain 7; Memory_clear 200; Decode 200 [1] 1; Sampler_free 7]
       ∧ w_sink w' = []).
Proof.
  split.
  - apply (proj1 (generate_prompt_failure_returns_empty (L := Mock.lib Mock.tokenize_fails)
                    1 (lit "hello") 16 fzero fzero 40
                    (Mock.start Mock.tokenize_fails Mock.heap0) Mock.session
                    ltac:(lia) eq_refl)).
    by vm_compute.
  - destruct (proj2 (generate_prompt_failure_returns_empty
                       (L := Mock.lib Mock.prompt_decode_fails)
                       1 (lit "hello") 16 fzero fzero 40
                       (Mock.start Mock.prompt_decode_fails Mock.heap0) Mock.session
                       ltac:(lia) eq_refl))
      as (w' & Hrun & Hcalls & _ & _ & _ & Hsink).
    + by vm_compute.
    + by vm_compute.
    + exists w'. split; [exact Hrun|]. split; [exact Hcalls|exact Hsink].
Defined.

Lemma generateStream_error_only_before_tokens_witness :
  sink_since (Mock.start Mock.prompt_decode_fails Mock.heap0)
    (Mock.run_stream Mock.prompt_decode_fails 16)
  = [onError "Failed to decode prompt"]
  ∧ samples_drawn (calls_since (Mock.start Mock.prompt_decode_fails Mock.heap0)
                     (Mock.run_stream Mock.prompt_decode_fails 16)) = 0%nat.
Proof.
  destruct (generateStream_error_only_before_tokens (L := Mock.lib Mock.prompt_decode_fails)
              1 (lit "hello") 16 fzero fzero 40 Mock.callback
              (Mock.start Mock.prompt_decode_fails Mock.heap0)
              (Mock.run_stream Mock.prompt_decode_fails 16)
              "Failed to decode prompt") as (Hsink & Hnone & _).
  - reflexivity.
  - assert (Hs : sink_since (Mock.start Mock.prompt_decode_fails Mock.heap0)
                   (Mock.run_stream Mock.prompt_decode_fails 16)
                 = [onError "Failed to decode prompt"]) by reflexivity.
    rewrite Hs. apply list_elem_of_here.
  - by split.
Defined.

Lemma blocking_and_streaming_agree_witness :
  same_but_sink (Mock.run_generate Mock.base 16).2 (Mock.run_stream Mock.base 16)
  ∧ (token_loop 3 (generate_step Mock.session 100 7) 16 0 []
       (Mock.start Mock.base Mock.heap0)).1.2
    = cut_at_marker
        (token_loop 3 (generateStream_step Mock.session 100 7) 16 0 []
           (Mock.start Mock.base Mock.heap0)).1.2.
Proof.
  split.
  - apply (proj1 (blocking_and_streaming_agree (L := Mock.lib Mock.base)
                    1 (lit "hello") 16 fzero fzero 40 Mock.callback
                    (Mock.start Mock.base Mock.heap0))
             (Mock.run_generate Mock.base 16).1);
      [lia|reflexivity|reflexivity|reflexivity].
  - apply (proj2 (blocking_and_streaming_agree (L := Mock.lib Mock.base)
                    1 (lit "hello") 16 fzero fzero 40 Mock.callback
                    (Mock.start Mock.base Mock.heap0))
             Mock.session 100 7 3%nat 0 [] (Mock.start Mock.base Mock.heap0));
      [by repeat split|reflexivity].
Defined.

Lemma inference_keeps_sessions_witness :
  w_heap (Mock.run_generate Mock.base 16).2 = Mock.heap0
  ∧ w_heap (Mock.run_stream Mock.decode_fails 16) = Mock.heap0
  ∧ w_heap (Mock.run_embedding Mock.embeds).2 = Mock.heap0.
Proof.
  split; [|split].
  - apply (proj1 (inference_keeps_sessions (L := Mock.lib Mock.base)
                    1 (lit "hello") 16 fzero fzero 40 Mock.callback
                    (Mock.start Mock.base Mock.heap0))
             (Mock.run_generate Mock.base 16).1 (Mock.run_generate Mock.base 16).2).
    reflexivity.
  - apply (proj1 (proj2 (inference_keeps_sessions (L := Mock.lib Mock.decode_fails)
                           1 (lit "hello") 16 fzero fzero 40 Mock.callback
                           (Mock.start Mock.decode_fails Mock.heap0)))
             (Mock.run_stream Mock.decode_fails 16)).
    reflexivity.
  - apply (proj2 (proj2 (inference_keeps_sessions (L := Mock.lib Mock.embeds)
                           2 (lit "hello") 16 fzero fzero 40 Mock.callback
                           (Mock.start Mock.embeds Mock.heap0)))
             (Mock.run_embedding Mock.embeds).1 (Mock.run_embedding Mock.embeds).2).
    reflexivity.
Defined.

Lemma l2_normalize_defined_iff_buffer_long_enough_witness :
  is_Some (l2_normalize (F32 := Binary32.float32) [Binary32.three; Binary32.four] 2)
  ∧ ¬ is_Some (l2_normalize (F32 := Binary32.float32) [Binary32.three] 2).
Proof.
  split.
  - apply (proj2 (l2_normalize_defined_iff_buffer_long_enough
                    (F32 := Binary32.float32) [Binary32.three; Binary32.four] 2)).
    simpl. lia.
  - intros Hdefined.
    apply (proj1 (l2_normalize_defined_iff_buffer_long_enough
                    (F32 := Binary32.float32) [Binary32.three] 2)) in Hdefined.
    simpl in Hdefined. lia.
Defined.

Lemma getEmbedding_footprint_witness :
  ((Mock.run_embedding Mock.embeds).2 = Mock.start Mock.embeds Mock.heap0
   ∧ (Mock.run_embedding Mock.embeds).1 = None)
  ∨ ∃ wrapper toks rc,
      deref_embedding 2 (Mock.start Mock.embeds Mock.heap0) = Some wrapper
      ∧ calls_since (Mock.start Mock.embeds Mock.heap0) (Mock.run_embedding Mock.embeds).2
        = [Memory_clear (emb_ctx wrapper); Decode (emb_ctx wrapper) toks rc]
      ∧ (is_Some (Mock.run_embedding Mock.embeds).1 → rc = 0).
Proof.
  apply (getEmbedding_footprint (L := Mock.lib Mock.embeds)
           2 (lit "hello") (Mock.start Mock.embeds Mock.heap0)).
  reflexivity.
Defined.

Lemma create_then_free_leaves_nothing_witness :
  (∃ w2 k0 n p m c,
     calls_since (Mock.start Mock.gpu_load_fails ∅)
       (initModelWithGpu "m.gguf" 512 4 true (-1) (Mock.start Mock.gpu_load_fails ∅)).2
     = k0 ++ [Load_model "m.gguf" n m; New_context m p c]
     ∧ Forall (λ x, obtains_nothing x = true) k0
     ∧ m ≠ nullptr ∧ c ≠ nullptr
     ∧ freeModel
         (initModelWithGpu "m.gguf" 512 4 true (-1) (Mock.start Mock.gpu_load_fails ∅)).1
         (initModelWithGpu "m.gguf" 512 4 true (-1) (Mock.start Mock.gpu_load_fails ∅)).2
       = Some w2
     ∧ w_heap w2 = w_heap (Mock.start Mock.gpu_load_fails ∅)
     ∧ calls_since
         (initModelWithGpu "m.gguf" 512 4 true (-1) (Mock.start Mock.gpu_load_fails ∅)).2
         w2
       = [Free_context c; Free_model m; Backend_free]
     ∧ models_outstanding (calls_since (Mock.start Mock.gpu_load_fails ∅) w2) = 0
     ∧ contexts_outstanding (calls_since (Mock.start Mock.gpu_load_fails ∅) w2) = 0)
  ∧ (∃ w2 k0 n p m c,
       calls_since (Mock.start Mock.embeds ∅)
         (initEmbeddingModel "e.gguf" 512 4 (Mock.start Mock.embeds ∅)).2
       = k0 ++ [Load_model "e.gguf" n m; New_context m p c]
       ∧ Forall (λ x, obtains_nothing x = true) k0
       ∧ m ≠ nullptr ∧ c ≠ nullptr
       ∧ freeEmbeddingModel (initEmbeddingModel "e.gguf" 512 4 (Mock.start Mock.embeds ∅)).1
           (initEmbeddingModel "e.gguf" 512 4 (Mock.start Mock.embeds ∅)).2 = Some w2
       ∧ w_heap w2 = w_heap (Mock.start Mock.embeds ∅)
       ∧ calls_since (initEmbeddingModel "e.gguf" 512 4 (Mock.start Mock.embeds ∅)).2 w2
         = [Free_context c; Free_model m]
       ∧ models_outstanding (calls_since (Mock.start Mock.embeds ∅) w2) = 0
       ∧ contexts_outstanding (calls_since (Mock.start Mock.embeds ∅) w2) = 0).
Proof.
  split.
  - apply (proj1 (proj2 (create_then_free_leaves_nothing (L := Mock.lib Mock.gpu_load_fails)
                           "m.gguf" 512 4 true (-1) (Mock.start Mock.gpu_load_fails ∅)))).
    by_decide.
  - apply (proj2 (proj2 (create_then_free_leaves_nothing (L := Mock.lib Mock.embeds)
                           "e.gguf" 512 4 true (-1) (Mock.start Mock.embeds ∅)))).
    by_decide.
Defined.

Lemma using_gpu_iff_layers_positive_witness :
  ∃ b n,
    isUsingGpu (initModelWithGpu "m.gguf" 512 4 true (-1) (Mock.start Mock.base ∅)).1
      (initModelWithGpu "m.gguf" 512 4 true (-1) (Mock.start Mock.base ∅)).2 = Some b
    ∧ getGpuLayers (initModelWithGpu "m.gguf" 512 4 true (-1) (Mock.start Mock.base ∅)).1
        (initModelWithGpu "m.gguf" 512 4 true (-1) (Mock.start Mock.base ∅)).2 = Some n
    ∧ (b = true ↔ n > 0) ∧ 0 ≤ n
    ∧ (b = true → true = true ∧ GGML_USE_VULKAN (LlamaLib := Mock.lib Mock.base) = true)
    ∧ (n = 0 ∨ (n = 99 ∧ -1 < 0) ∨ n = -1).
Proof.
  apply (proj1 (using_gpu_iff_layers_positive (L := Mock.lib Mock.base)
                  "m.gguf" 512 4 true (-1) (Mock.start Mock.base ∅))).
  by_decide.
Defined.

Lemma embedding_session_is_cpu_and_pooled_witness :
  (∃ m,
     Load_model "e.gguf" 0 m
     ∈ calls_since (Mock.start Mock.embeds ∅)
         (initEmbeddingModel "e.gguf" 512 4 (Mock.start Mock.embeds ∅)).2
     ∧ getEmbeddingDimension
         (initEmbeddingModel "e.gguf" 512 4 (Mock.start Mock.embeds ∅)).1
         (initEmbeddingModel "e.gguf" 512 4 (Mock.start Mock.embeds ∅)).2
       = Some (llama_n_embd m
                 (w_lib (initEmbeddingModel "e.gguf" 512 4 (Mock.start Mock.embeds ∅)).2)))
  ∧ n_ctx (make_ctx_params (L := Mock.lib Mock.embeds) (-1) 4 (Some true)) = -1 + 2 ^ 32.
Proof.
  split.
  - apply (proj2 (proj2 (embedding_session_is_cpu_and_pooled (L := Mock.lib Mock.embeds)
                           "e.gguf" 512 4 (Mock.start Mock.embeds ∅)))).
    by_decide.
  - apply (proj1 (proj2 (embedding_session_is_cpu_and_pooled (L := Mock.lib Mock.embeds)
                           "e.gguf" (-1) 4 (Mock.start Mock.embeds ∅)))
             101 (make_ctx_params (-1) 4 (Some true)) 201).
    + by_decide.
    + lia.
Defined.

Lemma backend_not_reinitialized_after_freeModel_witness :
  backend_frees (calls_since (Mock.started Mock.base)
                   (default (Mock.started Mock.base)
                      (freeModel 1 (Mock.started Mock.base)))) = 1%nat
  ∧ w_backend_initialized
      (default (Mock.started Mock.base) (freeModel 1 (Mock.started Mock.base))) = true
  ∧ backend_inits
      (calls_since
         (default (Mock.started Mock.base) (freeModel 1 (Mock.started Mock.base)))
         (initEmbeddingModel "e.gguf" 512 4
            (default (Mock.started Mock.base)
               (freeModel 1 (Mock.started Mock.base)))).2) = 0%nat.
Proof.
  apply (backend_not_reinitialized_after_freeModel (L := Mock.lib Mock.base)
           1 "e.gguf" 512 4 (Mock.started Mock.base));
    [lia|reflexivity|reflexivity].
Defined.

Lemma cpu_only_request_loads_once_witness :
  ∃ ret,
    loads (calls_since (Mock.start Mock.cpu_only ∅)
             (initModelWithGpu "m.gguf" 512 4 true 32 (Mock.start Mock.cpu_only ∅)).2)
    = [Load_model "m.gguf" 0 ret]
    ∧ (ret = nullptr
       → (initModelWithGpu "m.gguf" 512 4 true 32 (Mock.start Mock.cpu_only ∅)).1 = 0)
    ∧ ((initModelWithGpu "m.gguf" 512 4 true 32 (Mock.start Mock.cpu_only ∅)).1 ≠ 0
       → isUsingGpu (initModelWithGpu "m.gguf" 512 4 true 32 (Mock.start Mock.cpu_only ∅)).1
           (initModelWithGpu "m.gguf" 512 4 true 32 (Mock.start Mock.cpu_only ∅)).2
         = Some false
         ∧ getGpuLayers
             (initModelWithGpu "m.gguf" 512 4 true 32 (Mock.start Mock.cpu_only ∅)).1
             (initModelWithGpu "m.gguf" 512 4 true 32 (Mock.start Mock.cpu_only ∅)).2
           = Some 0).
Proof.
  apply (cpu_only_request_loads_once (L := Mock.lib Mock.cpu_only)
           "m.gguf" 512 4 true 32 (Mock.start Mock.cpu_only ∅)).
  right. left. reflexivity.
Defined.
